(** * Business-Card-OCR: the Apps Script persistence scripts

    A shallow embedding of the Google Apps Script programs of the
    repository and the properties of their save / read pipeline:

    - [Final]  is [FINAL_APPS_SCRIPT.js]  (the twelve-column script, A-L);
    - [Full]   is the "FULL VERSION" script (the twenty-two-column script,
      A-V, with [doGet] and [getSheetData]);
    - [Guide]  is the script printed in [APPS_SCRIPT_GUIDE.md].

    JavaScript values are an inductive type, objects are finite maps from
    property names to values, [throw] / [try] / [catch] is an error monad
    over the state of the spreadsheet and of the Drive folder, and the
    Google services the scripts call are the fields of a record of
    oracles. *)

From Stdlib Require Import ZArith String Ascii List Bool Lia.
From stdpp Require Import base option gmap strings list fin_maps pretty.

Set Warnings "-register-all".
Open Scope string_scope.

(** ** JavaScript values *)

(** What [JSON.parse] produces, plus [undefined] (a missing property or
    argument) and [Date] (the timestamp made by [new Date()]).  Numbers
    are the integers; strings are sequences of bytes (UTF-8).  An object
    holds its own properties; what [JSON.parse] produces has no callable
    property. *)
Inductive value : Type :=
| VUndefined
| VNull
| VBool (b : bool)
| VNum (n : Z)
| VStr (s : string)
| VArr (xs : list value)
| VObj (o : gmap string value)
| VDate (ms : Z).

(** Exceptions carry their [message]; [outcome] is a completion of a
    JavaScript expression or statement list. *)
Inductive outcome (A : Type) : Type :=
| Ok (a : A)
| Throw (msg : string).
Arguments Ok {A} a.
Arguments Throw {A} msg.

Definition is_ok {A} (r : outcome A) : bool :=
  match r with Ok _ => true | Throw _ => false end.

(** ToBoolean. *)
Definition truthy (v : value) : bool :=
  match v with
  | VUndefined | VNull => false
  | VBool b => b
  | VNum n => negb (n =? 0)%Z
  | VStr s => negb (String.eqb s "")
  | VArr _ | VObj _ | VDate _ => true
  end.

(** [a || b]. *)
Definition js_or (a b : value) : value := if truthy a then a else b.

(** [a && b]. *)
Definition js_and (a b : value) : value := if truthy a then b else a.

(** [v.k] for the property names the scripts read.  Reading a property
    of [undefined] or [null] is a TypeError; an object yields its own
    property or [undefined]; the other values have none of these
    properties. *)
Definition get_prop (v : value) (k : string) : outcome value :=
  match v with
  | VUndefined =>
      Throw ("Cannot read properties of undefined (reading '" ++ k ++ "')")
  | VNull =>
      Throw ("Cannot read properties of null (reading '" ++ k ++ "')")
  | VObj o => Ok (default VUndefined (o !! k))
  | _ => Ok VUndefined
  end.

(** [obj[k] = v] on a plain object: an own property is created or
    overwritten, except for the key [__proto__], whose setter creates no
    own property. *)
Definition set_prop (o : gmap string value) (k : string) (v : value)
  : gmap string value :=
  if String.eqb k "__proto__" then o else <[k := v]> o.

(** [arr[i]]: out of range reads give [undefined]. *)
Definition js_index {A} (inj : A → value) (xs : list A) (i : nat) : value :=
  match xs !! i with Some x => inj x | None => VUndefined end.

(** [Array.prototype.join] on an array of strings. *)
Fixpoint join (sep : string) (parts : list string) : string :=
  match parts with
  | [] => ""
  | [p] => p
  | p :: rest => p ++ sep ++ join sep rest
  end.

Definition newline : string := String (ascii_of_nat 10) "".
Definition dquote : ascii := ascii_of_nat 34.

(** ** The services of the platform *)

Record Blob := newBlob {
  blob_bytes : list Byte.byte;
  blob_type : string;
  blob_name : string
}.

(** One cell of the data range of a sheet: the computed value, and the
    formula text ([""] when the cell holds no formula). *)
Record cell := mkCell {
  cell_value : value;
  cell_formula : string
}.

(** The state the scripts act on: the rows written to the sheet "Ai Card"
    (each one the array given to [appendRow]), oldest first, and the
    files created in the Drive folder. *)
Record World := mkWorld {
  sheet_rows : list (list value);
  drive_files : list Blob
}.

(** The outcomes of the calls into Google's services and into the
    language's built-ins that the embedding does not compute. *)
Record Services := {
  (** [SpreadsheetApp.openById(id)]: throws when the id cannot be opened *)
  openById : string → outcome unit;
  (** [ss.getSheetByName(name)]: [null] ([false]) when there is none *)
  getSheetByName : string → string → bool;
  (** [DriveApp.getFolderById(id)] *)
  getFolderById : string → outcome unit;
  (** [new Date()], in milliseconds (a safe integer) *)
  now : Z;
  (** [Date.prototype.toString], which depends on the time zone *)
  dateString : Z → string;
  (** [Number.prototype.toString] beyond the safe integers, where the
      digits are rounded and, from 1e21 on, the notation has an
      exponent *)
  numberString : Z → string;
  (** [Utilities.base64Decode(s)] *)
  base64Decode : value → outcome (list Byte.byte);
  (** [folder.createFile(blob)], then [file.getUrl()] *)
  createFile : Blob → outcome string;
  (** [sheet.getDataRange()]: the rectangle of cells the spreadsheet
      shows for the rows written so far *)
  getDataRange : list (list value) → list (list cell);
  (** [JSON.parse] *)
  JSON_parse : string → outcome value;
  (** [UrlFetchApp.fetch(url, options)] with [muteHttpExceptions], for
      the object serialised into the payload: the response code and the
      content text *)
  fetch : string → value → outcome (Z * string)
}.

(** ** Completions as a monad *)

Global Instance outcome_ret : MRet outcome := λ A a, Ok a.
Global Instance outcome_bind : MBind outcome := λ A B f r,
  match r with Ok a => f a | Throw msg => Throw msg end.

(** A script computation: it reads and changes the world, and completes
    normally or by throwing. *)
Definition M (A : Type) : Type := World → outcome A * World.

Global Instance M_ret : MRet M := λ A a w, (Ok a, w).
Global Instance M_bind : MBind M := λ A B f m w,
  match m w with
  | (Ok a, w') => f a w'
  | (Throw msg, w') => (Throw msg, w')
  end.

(** [throw new Error(msg)] *)
Definition throw {A} (msg : string) : M A := λ w, (Throw msg, w).

(** A pure completion inside a script computation. *)
Definition lift {A} (r : outcome A) : M A := λ w, (r, w).

(** [try { body } catch (e) { handler(e.message) }]: what the body did to
    the world before it threw stays done. *)
Definition try_catch {A} (body : M A) (handler : string → M A) : M A := λ w,
  match body w with
  | (Ok a, w') => (Ok a, w')
  | (Throw msg, w') => handler msg w'
  end.

(** ** String built-ins *)

(** [s.replace(/q/g, 'qq')] on a string [s], where q is the double-quote
    character: every occurrence is replaced by two of them. *)
Fixpoint double_quotes (s : string) : string :=
  match s with
  | EmptyString => EmptyString
  | String c rest =>
      if Ascii.eqb c dquote
      then String dquote (String dquote (double_quotes rest))
      else String c (double_quotes rest)
  end.

(** The same call on any value: only strings have a [replace] method. *)
Definition js_replace_quotes (what : string) (v : value) : outcome string :=
  match v with
  | VStr s => Ok (double_quotes s)
  | VUndefined =>
      Throw "Cannot read properties of undefined (reading 'replace')"
  | VNull => Throw "Cannot read properties of null (reading 'replace')"
  | _ => Throw (what ++ ".replace is not a function")
  end.

(** Whether a string is made of white space and line terminators only,
    that is whether [s.trim() === ""].  The code points are read from
    their UTF-8 bytes: U+0009-000D, U+0020, U+00A0, U+1680, U+2000-200A,
    U+2028, U+2029, U+202F, U+205F, U+3000, U+FEFF. *)
Fixpoint blank_bytes (bs : list N) : bool :=
  match bs with
  | [] => true
  | b :: r1 =>
      if ((9 <=? b) && (b <=? 13) || (b =? 32))%N then blank_bytes r1
      else
        match r1 with
        | c :: r2 =>
            if ((b =? 194) && (c =? 160))%N then blank_bytes r2
            else
              match r2 with
              | d :: r3 =>
                  if ((b =? 225) && (c =? 154) && (d =? 128)
                      || (b =? 226) && (c =? 128)
                         && ((128 <=? d) && (d <=? 138)
                             || (d =? 168) || (d =? 169) || (d =? 175))
                      || (b =? 226) && (c =? 129) && (d =? 159)
                      || (b =? 227) && (c =? 128) && (d =? 128)
                      || (b =? 239) && (c =? 187) && (d =? 191))%N
                  then blank_bytes r3
                  else false
              | [] => false
              end
        | [] => false
        end
  end.

Definition string_bytes (s : string) : list N :=
  map N_of_ascii (list_ascii_of_string s).

Definition trims_to_empty (s : string) : bool := blank_bytes (string_bytes s).

(** [v && v.trim() !== ""] as a condition: a falsy value stops the
    evaluation, a string is trimmed, any other truthy value has no
    [trim] method. *)
Definition given_and_not_blank (what : string) (v : value) : outcome bool :=
  if negb (truthy v) then Ok false
  else match v with
       | VStr s => Ok (negb (trims_to_empty s))
       | _ => Throw (what ++ ".trim is not a function")
       end.

(** Whether the conversion of a value to a primitive returns: it does
    not for an object with an own property [toString], nor for an array
    with such an element. *)
Fixpoint converts (v : value) : bool :=
  match v with
  | VArr xs => forallb converts xs
  | VObj o => match o !! "toString" with Some _ => false | None => true end
  | _ => true
  end.

Section Builtins.

Variable sv : Services.

(** [Number.prototype.toString]: a safe integer is printed with all its
    digits. *)
Definition number_text (n : Z) : string :=
  if (Z.abs n <=? 9007199254740991)%Z then pretty n else numberString sv n.

(** The text of a value whose conversion to a text returns: an array is
    its elements joined by commas, [null] and [undefined] elements being
    empty, and a plain object is printed by [Object.prototype.toString]. *)
Fixpoint text_of (v : value) : string :=
  match v with
  | VUndefined => "undefined"
  | VNull => "null"
  | VBool true => "true"
  | VBool false => "false"
  | VNum n => number_text n
  | VStr s => s
  | VArr xs =>
      join "," (map (λ x, match x with
                          | VUndefined | VNull => ""
                          | _ => text_of x
                          end) xs)
  | VObj _ => "[object Object]"
  | VDate ms => dateString sv ms
  end.

(** ToString, as applied by [+] with a string operand and by
    [JSON.parse] to its argument.  An object is first made a primitive
    by its methods [toString] and [valueOf].  An own property [toString]
    hides the method of the prototype and, in a parsed value, is not
    callable, while [valueOf] gives the object back: the conversion is
    then a TypeError.  An array converts its elements. *)
Definition to_string (v : value) : outcome string :=
  if converts v then Ok (text_of v)
  else Throw "Cannot convert object to primitive value".

(** [a !== "literal"] *)
Definition differs_from (a : value) (lit : string) : bool :=
  match a with
  | VStr s => negb (String.eqb s lit)
  | _ => true
  end.

(** [a === "literal"] *)
Definition is_literal (a : value) (lit : string) : bool :=
  negb (differs_from a lit).

(** [Array.isArray(v)] together with the elements. *)
Definition as_array (v : value) : option (list value) :=
  match v with VArr xs => Some xs | _ => None end.

(** [xs.map(f)] for a callback that may throw. *)
Fixpoint map_outcome {A B} (f : A → outcome B) (xs : list A)
  : outcome (list B) :=
  match xs with
  | [] => Ok []
  | x :: rest => y ← f x; ys ← map_outcome f rest; mret (y :: ys)
  end.

End Builtins.

(** ** What the two scripts share

    The statements below stand at the same place, letter for letter, in
    [saveData] of both scripts; [extractData] and the response envelope
    of [doPost] are the same too. *)

Definition q : string := String dquote "".

(** The object given to [JSON.stringify] and the MIME type of the
    [TextOutput] a handler returns. *)
Record TextOutput := createTextOutput {
  payload : value;
  mimeType : string
}.

Section Shared.

Variable sv : Services.

Definition SHEET_NAME : string := "Ai Card".
Definition FOLDER_ID : string := "1zggOUpg0SfMdi5LAXIfIWqZcBGMGHmMz".
Definition PYTHON_BACKEND_URL : string :=
  "https://ocr-reader-botivate.onrender.com".

(** [let sheet; try { ... } catch (e) { throw ... }]: opening the
    spreadsheet and finding the sheet by name. *)
Definition access_sheet (SHEET_ID : string) : M unit :=
  try_catch
    (lift (openById sv SHEET_ID);;
     if getSheetByName sv SHEET_ID SHEET_NAME then mret tt
     else throw ("Sheet with name '" ++ SHEET_NAME ++ "' not found."))
    (λ msg, throw ("FAILED to access Spreadsheet. Check SHEET_ID or Sheet Name. Details: " ++ msg)).

(** [let folder; try { ... } catch (e) { throw ... }] *)
Definition access_folder : M unit :=
  try_catch
    (lift (getFolderById sv FOLDER_ID))
    (λ msg, throw ("FAILED to access Drive Folder. Check FOLDER_ID. Details: " ++ msg)).

(** [folder.createFile(blob).getUrl()]: the file is added to the folder
    when the call succeeds. *)
Definition store_file (blob : Blob) : M string := λ w,
  match createFile sv blob with
  | Ok url => (Ok url, mkWorld (sheet_rows w) (app (drive_files w) [blob]))
  | Throw msg => (Throw msg, w)
  end.

(** [Utilities.newBlob(Utilities.base64Decode(b64), "image/png",
    slot + timestamp.getTime() + ".png")], then the file. *)
Definition save_blob (slot : string) (b64 : value) (timestamp : Z) : M string :=
  bytes ← lift (base64Decode sv b64);
  store_file (newBlob bytes "image/png" (slot ++ pretty timestamp ++ ".png")).

(** Save Image 1: any failure is thrown again under a new message. *)
Definition save_image1 (photo1Base64 : value) (timestamp : Z) : M string :=
  try_catch
    (save_blob "photo1_" photo1Base64 timestamp)
    (λ msg, throw ("Failed to save Image 1: " ++ msg)).

(** Save Image 2: only when the argument is given and not blank; a
    failure is caught and its text becomes the value of [url2]. *)
Definition save_image2 (photo2Base64 : value) (timestamp : Z) : M string :=
  given ← lift (given_and_not_blank "photo2Base64" photo2Base64);
  if given : bool then
    try_catch
      (save_blob "photo2_" photo2Base64 timestamp)
      (λ msg, mret ("Error saving image 2: " ++ msg))
  else mret "".

(** The template literal of the hyperlink formula. *)
Definition hyperlink (safeUrl safeName : string) : string :=
  "=HYPERLINK(" ++ q ++ safeUrl ++ q ++ ", " ++ q ++ safeName ++ " Link" ++ q ++ ")".

(** Hyperlink Logic: the value of [validationLink]. *)
Definition hyperlink_logic (extractedData : value) : outcome value :=
  validation_source ← get_prop extractedData "validation_source";
  let validationLink := js_or validation_source (VStr "") in
  company ← get_prop extractedData "company";
  let companyName := js_or company (VStr "Source") in
  is_validated ← get_prop extractedData "is_validated";
  if truthy (js_and is_validated validation_source) then
    safeUrl ← js_replace_quotes "extractedData.validation_source" validation_source;
    safeName ← js_replace_quotes "companyName" companyName;
    mret (VStr (hyperlink safeUrl safeName))
  else mret validationLink.

(** [extractedData.k || ""] *)
Definition or_empty (extractedData : value) (k : string) : outcome value :=
  v ← get_prop extractedData k; mret (js_or v (VStr "")).

(** [sheet.appendRow(row)] *)
Definition appendRow (row : list value) : M unit := λ w,
  (Ok tt, mkWorld (app (sheet_rows w) [row]) (drive_files w)).

(** [extractData]: the image goes to the recognition backend and the
    parsed answer comes back as it is. *)
Definition extractData (photo1Base64 : value) : M value :=
  response ← lift (fetch sv (PYTHON_BACKEND_URL ++ "/ocr")
                     (VObj {[ "base64Image" := photo1Base64 ]}));
  if negb (response.1 =? 200)%Z
  then throw ("AI Server Error: " ++ response.2)
  else lift (JSON_parse sv response.2).

(** [!e || !e.postData || !e.postData.contents] *)
Definition invalid_request (e : value) : outcome bool :=
  if negb (truthy e) then Ok true
  else
    postData ← get_prop e "postData";
    if negb (truthy postData) then Ok true
    else contents ← get_prop postData "contents"; mret (negb (truthy contents)).

(** The [return] of the [try] block of a handler. *)
Definition success_output (result : value) : TextOutput :=
  createTextOutput
    (VObj (<[ "success" := VBool true ]> {[ "data" := result ]}))
    "application/json".

(** The [return] of the [catch] block of a handler. *)
Definition failure_output (msg : string) : TextOutput :=
  createTextOutput
    (VObj (<[ "success" := VBool false ]>
             {[ "message" := VStr ("Script Error: " ++ msg) ]}))
    "application/json".

(** [try { body } catch (err) { return failure }] around a handler. *)
Definition handler (body : M value) : M TextOutput :=
  try_catch (result ← body; mret (success_output result))
            (λ msg, mret (failure_output msg)).

End Shared.

(** ** FINAL_APPS_SCRIPT.js: the script for columns A-L *)

Module Final.
Section Code.

Variable sv : Services.

Definition SHEET_ID : string := "1n5EnD8dMtFsbdDlIQcYt8F4QJ5rngTHMOx5hNvjgr5s".

(** The array literal given to [appendRow], columns A to L. *)
Definition row_cells (timestamp : Z) (url1 url2 : string)
    (validationLink extractedData : value) : outcome (list value) :=
  company ← or_empty extractedData "company";
  name ← or_empty extractedData "name";
  phone ← or_empty extractedData "phone";
  email ← or_empty extractedData "email";
  address ← or_empty extractedData "address";
  is_validated ← get_prop extractedData "is_validated";
  about ← or_empty extractedData "about_the_company";
  location ← or_empty extractedData "location";
  mret [ VDate timestamp; VStr url1; VStr url2; company; name; phone;
         email; address; is_validated; validationLink; about; location ].

Definition saveData (extractedData photo1Base64 photo2Base64 : value)
  : M value :=
  access_sheet sv SHEET_ID;;
  access_folder sv;;
  let timestamp := now sv in
  url1 ← save_image1 sv photo1Base64 timestamp;
  url2 ← save_image2 sv photo2Base64 timestamp;
  validationLink ← lift (hyperlink_logic extractedData);
  row ← lift (row_cells timestamp url1 url2 validationLink extractedData);
  appendRow row;;
  mret (VObj {[ "message" := VStr "âœ… Data saved successfully!" ]}).

(** The [try] block of [doPost], up to the value of [result]. *)
Definition doPost_result (e : value) : M value :=
  invalid ← lift (invalid_request e);
  if invalid : bool then throw "Invalid POST request received."
  else
    contents ← lift (get_prop e "postData" ≫= λ pd, get_prop pd "contents");
    text ← lift (to_string sv contents);
    postData ← lift (JSON_parse sv text);
    action ← lift (get_prop postData "action");
    if is_literal action "extract" then
      photo1Base64 ← lift (get_prop postData "photo1Base64");
      extractData sv photo1Base64
    else if is_literal action "save" then
      extractedData ← lift (get_prop postData "extractedData");
      photo1Base64 ← lift (get_prop postData "photo1Base64");
      photo2Base64 ← lift (get_prop postData "photo2Base64");
      saveData extractedData photo1Base64 photo2Base64
    else
      name ← lift (to_string sv action);
      throw ("Invalid action specified: " ++ name).

Definition doPost (e : value) : M TextOutput := handler (doPost_result e).

End Code.
End Final.

(** ** The full script: columns A-V, [doGet] and the [read] action *)

Module Full.
Section Code.

Variable sv : Services.

Definition SHEET_ID : string := "1c3v7DcBqfMK8yzPyMs3StwNj7bg7yc5gSnEsHnmuBlg".

(** The callback of [key_people.map]. *)
Definition person_details (p : value) : outcome string :=
  name ← get_prop p "name";
  name ← to_string sv name;
  role ← get_prop p "role";
  role ← to_string sv role;
  let details := name ++ " (" ++ role ++ ")" in
  contact ← get_prop p "contact";
  if truthy contact && differs_from contact "Not Found"
  then contact ← to_string sv contact; mret (details ++ " - " ++ contact)
  else mret details.

(** [if (extractedData.k) parts.push(label + extractedData.k)] *)
Definition push_part (extractedData : value) (label k : string)
    (parts : list string) : outcome (list string) :=
  v ← get_prop extractedData k;
  if truthy v then text ← to_string sv v; mret (app parts [label ++ text])
  else mret parts.

(** Format Key People: the value of [keyPeopleString]. *)
Definition keyPeopleString (extractedData : value) : outcome string :=
  key_people ← get_prop extractedData "key_people";
  match (if truthy key_people then as_array key_people else None) with
  | Some people =>
      details ← map_outcome person_details people;
      mret (join newline details)
  | None =>
      parts ← push_part extractedData "Founder: " "founder" [];
      parts ← push_part extractedData "CEO: " "ceo" parts;
      parts ← push_part extractedData "Owner: " "owner" parts;
      mret (join newline parts)
  end.

(** [extractedData.established_year || extractedData.founded_year || ""] *)
Definition established_cell (extractedData : value) : outcome value :=
  established_year ← get_prop extractedData "established_year";
  founded_year ← get_prop extractedData "founded_year";
  mret (js_or (js_or established_year founded_year) (VStr "")).

(** The array literal given to [appendRow], columns A to V. *)
Definition row_cells (timestamp : Z) (url1 url2 : string)
    (keyPeople : string) (validationLink extractedData : value)
  : outcome (list value) :=
  company ← or_empty extractedData "company";
  industry ← or_empty extractedData "industry";
  name ← or_empty extractedData "name";
  title ← or_empty extractedData "title";
  phone ← or_empty extractedData "phone";
  email ← or_empty extractedData "email";
  website ← or_empty extractedData "website";
  social_media ← or_empty extractedData "social_media";
  address ← or_empty extractedData "address";
  services ← or_empty extractedData "services";
  company_size ← or_empty extractedData "company_size";
  established ← established_cell extractedData;
  registration_status ← or_empty extractedData "registration_status";
  trust_score ← or_empty extractedData "trust_score";
  is_validated ← get_prop extractedData "is_validated";
  about ← or_empty extractedData "about_the_company";
  location ← or_empty extractedData "location";
  mret [ VDate timestamp; VStr url1; VStr url2; company; industry; name;
         title; phone; email; website; social_media; address; services;
         company_size; established; registration_status; trust_score;
         VStr keyPeople; is_validated; validationLink; about; location ].

Definition saveData (extractedData photo1Base64 photo2Base64 : value)
  : M value :=
  access_sheet sv SHEET_ID;;
  access_folder sv;;
  let timestamp := now sv in
  url1 ← save_image1 sv photo1Base64 timestamp;
  url2 ← save_image2 sv photo2Base64 timestamp;
  validationLink ← lift (hyperlink_logic extractedData);
  keyPeople ← lift (keyPeopleString extractedData);
  row ← lift (row_cells timestamp url1 url2 keyPeople validationLink
                extractedData);
  appendRow row;;
  mret (VObj {[ "message" := VStr "✅ Data saved successfully!" ]}).

(** [rowFormulas[index] || row[index]] *)
Definition reconciled (rowFormulas : option (list string))
    (row : list value) (index : nat) : outcome value :=
  match rowFormulas with
  | None =>
      Throw ("Cannot read properties of undefined (reading '"
             ++ pretty index ++ "')")
  | Some fs => Ok (js_or (js_index VStr fs index) (js_index id row index))
  end.

(** [headers.forEach((header, index) => { obj[header] = ... })], from
    [index] on.  The headers are values of the range, which are texts,
    numbers, booleans and dates: the conversion of such a value to a
    property key returns, and the key is its text. *)
Fixpoint fill_object (headers : list value) (index : nat)
    (rowFormulas : option (list string)) (row : list value)
    (obj : gmap string value) : outcome (gmap string value) :=
  match headers with
  | [] => Ok obj
  | header :: rest =>
      v ← reconciled rowFormulas row index;
      fill_object rest (S index) rowFormulas row
        (set_prop obj (text_of sv header) v)
  end.

(** The [for] loop over the data rows, from row [i] on; [rows] are
    [values[i]], [values[i+1]], ... *)
Fixpoint read_rows (headers : list value) (formulas : list (list string))
    (i : nat) (rows : list (list value)) : outcome (list value) :=
  match rows with
  | [] => Ok []
  | row :: rest =>
      obj ← fill_object headers 0 (formulas !! i) row ∅;
      data ← read_rows headers formulas (S i) rest;
      mret (VObj obj :: data)
  end.

(** [getSheetData] once [values] and [formulas] are read. *)
Definition sheet_objects (values : list (list value))
    (formulas : list (list string)) : outcome value :=
  if (length values <? 2)%nat then Ok (VArr [])
  else
    match values with
    | headers :: rows =>
        data ← read_rows headers formulas 1 rows; mret (VArr data)
    | [] => Ok (VArr [])
    end.

Definition getSheetData : M value :=
  lift (openById sv SHEET_ID);;
  if getSheetByName sv SHEET_ID SHEET_NAME then
    range ← (λ w, (Ok (getDataRange sv (sheet_rows w)), w));
    let values := map (map cell_value) range in
    let formulas := map (map cell_formula) range in
    lift (sheet_objects values formulas)
  else throw ("Sheet not found: " ++ SHEET_NAME).

Definition doGet (e : value) : M TextOutput := handler getSheetData.

(** The [try] block of [doPost], up to the value of [result]. *)
Definition doPost_result (e : value) : M value :=
  invalid ← lift (invalid_request e);
  if invalid : bool then throw "Invalid POST request received."
  else
    contents ← lift (get_prop e "postData" ≫= λ pd, get_prop pd "contents");
    text ← lift (to_string sv contents);
    postData ← lift (JSON_parse sv text);
    action ← lift (get_prop postData "action");
    if is_literal action "extract" then
      photo1Base64 ← lift (get_prop postData "photo1Base64");
      extractData sv photo1Base64
    else if is_literal action "save" then
      extractedData ← lift (get_prop postData "extractedData");
      photo1Base64 ← lift (get_prop postData "photo1Base64");
      photo2Base64 ← lift (get_prop postData "photo2Base64");
      saveData extractedData photo1Base64 photo2Base64
    else if is_literal action "read" then getSheetData
    else
      name ← lift (to_string sv action);
      throw ("Invalid action specified: " ++ name).

Definition doPost (e : value) : M TextOutput := handler (doPost_result e).

End Code.
End Full.

(** ** APPS_SCRIPT_GUIDE.md: the script printed in the guide

    The guide tells the reader to paste this script; it writes the
    columns A-L with the same array literal as [Final.saveData], but it
    has no [try] around the services, and its link and its treatment of
    the actions differ. *)

Module Guide.
Section Code.

Variable sv : Services.

Definition SHEET_ID : string := "1n5EnD8dMtFsbdDlIQcYt8F4QJ5rngTHMOx5hNvjgr5s".

(** Formatting Validation Link: the value of [validationLink]. *)
Definition validation_link (extractedData : value) : outcome value :=
  validation_source ← get_prop extractedData "validation_source";
  let validationLink := js_or validation_source (VStr "") in
  company ← get_prop extractedData "company";
  if truthy (js_and validation_source company) then
    source ← to_string sv validation_source;
    label ← to_string sv company;
    mret (VStr (hyperlink source label))
  else mret validationLink.

Definition saveData (extractedData photo1Base64 photo2Base64 : value)
  : M value :=
  lift (openById sv SHEET_ID);;
  (if getSheetByName sv SHEET_ID "Ai Card" then mret tt
   else throw "Sheet 'Ai Card' not found. Check casing!");;
  lift (getFolderById sv FOLDER_ID);;
  let timestamp := now sv in
  url1 ← save_blob sv "photo1_" photo1Base64 timestamp;
  url2 ← (if truthy photo2Base64
          then save_blob sv "photo2_" photo2Base64 timestamp
          else mret "");
  validationLink ← lift (validation_link extractedData);
  row ← lift (Final.row_cells timestamp url1 url2 validationLink
                extractedData);
  appendRow row;;
  mret (VObj {[ "message" := VStr "Data saved successfully!" ]}).

(** The [try] block of [doPost], up to the value of [result]. *)
Definition doPost_result (e : value) : M value :=
  invalid ← lift (invalid_request e);
  if invalid : bool then throw "Invalid POST request received."
  else
    contents ← lift (get_prop e "postData" ≫= λ pd, get_prop pd "contents");
    text ← lift (to_string sv contents);
    postData ← lift (JSON_parse sv text);
    action ← lift (get_prop postData "action");
    if is_literal action "save" then
      extractedData ← lift (get_prop postData "extractedData");
      photo1Base64 ← lift (get_prop postData "photo1Base64");
      photo2Base64 ← lift (get_prop postData "photo2Base64");
      saveData extractedData photo1Base64 photo2Base64
    else
      name ← lift (to_string sv action);
      mret (VObj {[ "message" := VStr ("Ignored action: " ++ name) ]}).

Definition doPost (e : value) : M TextOutput := handler (doPost_result e).

End Code.
End Guide.

(** ** The vocabulary of the properties *)

(** The value of property [k] of a record, [undefined] when absent. *)
Definition field (o : gmap string value) (k : string) : value :=
  default VUndefined (o !! k).

(** Field [k] of the record holds the text [s]; an absent field counts
    as the empty text. *)
Definition field_text (o : gmap string value) (k s : string) : Prop :=
  o !! k = Some (VStr s) ∨ (o !! k = None ∧ s = "").

(** The store can be reached: the spreadsheet opens, the sheet and the
    folder exist. *)
Definition store_reachable (sv : Services) (SHEET_ID : string) : Prop :=
  openById sv SHEET_ID = Ok tt
  ∧ getSheetByName sv SHEET_ID SHEET_NAME = true
  ∧ getFolderById sv FOLDER_ID = Ok tt.

(** The blob the scripts build for a slot. *)
Definition slot_blob (sv : Services) (slot : string) (bytes : list Byte.byte)
  : Blob :=
  newBlob bytes "image/png" (slot ++ pretty (now sv) ++ ".png").

(** The payload of a slot is decoded and stored under [url]. *)
Definition blob_stored (sv : Services) (slot : string) (b64 : value)
    (url : string) : Prop :=
  ∃ bytes, base64Decode sv b64 = Ok bytes
           ∧ createFile sv (slot_blob sv slot bytes) = Ok url.

(** Decoding the payload of a slot, or storing its blob, fails with
    the message [msg]. *)
Definition blob_fails (sv : Services) (slot : string) (b64 : value)
    (msg : string) : Prop :=
  base64Decode sv b64 = Throw msg
  ∨ ∃ bytes, base64Decode sv b64 = Ok bytes
             ∧ createFile sv (slot_blob sv slot bytes) = Throw msg.

(** The fields that the hyperlink logic calls [replace] on are texts
    when present. *)
Definition text_or_absent (o : gmap string value) (k : string) : bool :=
  match o !! k with
  | None | Some (VStr _) => true
  | Some _ => false
  end.

Definition link_fields_typed (o : gmap string value) : bool :=
  text_or_absent o "validation_source" && text_or_absent o "company".

(** [p.k] of an entry [p] that is neither [null] nor [undefined]. *)
Definition member (p : value) (k : string) : value :=
  match p with VObj po => field po k | _ => VUndefined end.

(** An entry of [key_people] that can be formatted: it is neither
    [null] nor [undefined], and its name, role and contact convert to
    text. *)
Definition person_typed (p : value) : bool :=
  match p with
  | VNull | VUndefined => false
  | _ =>
      converts (member p "name") && converts (member p "role")
      && converts (member p "contact")
  end.

(** The key people can be formatted: the entries of the list when
    [key_people] is a list, and otherwise the fields founder, ceo and
    owner, which convert to text. *)
Definition people_typed (o : gmap string value) : bool :=
  match o !! "key_people" with
  | Some (VArr people) => forallb person_typed people
  | _ =>
      converts (field o "founder") && converts (field o "ceo")
      && converts (field o "owner")
  end.

(** The columns fed by one text field each, with their index in the
    row. *)
Definition legacy_text_columns : list (string * nat) :=
  [ ("company", 3); ("name", 4); ("phone", 5); ("email", 6); ("address", 7);
    ("validation_source", 9); ("about_the_company", 10); ("location", 11) ]%nat.

Definition extended_text_columns : list (string * nat) :=
  [ ("company", 3); ("industry", 4); ("name", 5); ("title", 6); ("phone", 7);
    ("email", 8); ("website", 9); ("social_media", 10); ("address", 11);
    ("services", 12); ("company_size", 13); ("registration_status", 15);
    ("trust_score", 16); ("validation_source", 19);
    ("about_the_company", 20); ("location", 21) ]%nat.

(** A cell that holds neither [null] nor [undefined]. *)
Definition defined_cell (c : option value) : Prop :=
  ∃ v, c = Some v ∧ v ≠ VNull ∧ v ≠ VUndefined.

(** The number of double-quote characters of a string. *)
Fixpoint count_quotes (s : string) : nat :=
  match s with
  | EmptyString => 0
  | String c rest =>
      (if Ascii.eqb c dquote then 1 else 0) + count_quotes rest
  end.

(** Decoding of an escaped text: a pair of double-quote characters
    stands for one. *)
Fixpoint halve_quotes (s : string) : string :=
  match s with
  | EmptyString => EmptyString
  | String c rest =>
      if Ascii.eqb c dquote then
        match rest with
        | String d rest' =>
            if Ascii.eqb d dquote then String dquote (halve_quotes rest')
            else String c (String d (halve_quotes rest'))
        | EmptyString => String c EmptyString
        end
      else String c (halve_quotes rest)
  end.

(** The label of the link: the company name, or the fixed literal. *)
Definition link_label (company : string) : string :=
  if String.eqb company "" then "Source" else company.

(** The validation cell as the specification words it. *)
Definition validation_cell (is_validated : value) (source company : string)
  : value :=
  if truthy is_validated && negb (String.eqb source "")
  then VStr (hyperlink (double_quotes source)
                       (double_quotes (link_label company)))
  else VStr source.

(** A key person as the specification types it. *)
Record KeyPerson := {
  kp_name : string;
  kp_role : string;
  kp_contact : option string
}.

(** A JavaScript value that is this key person: an object whose [name]
    and [role] are texts and whose [contact] is the text or is absent. *)
Definition is_person (v : value) (p : KeyPerson) : Prop :=
  ∃ o, v = VObj o
       ∧ o !! "name" = Some (VStr (kp_name p))
       ∧ o !! "role" = Some (VStr (kp_role p))
       ∧ o !! "contact" = VStr <$> kp_contact p.

(** One rendered entry; a contact is present when it is a non-empty
    text. *)
Definition render_person (p : KeyPerson) : string :=
  let entry := kp_name p ++ " (" ++ kp_role p ++ ")" in
  match kp_contact p with
  | Some c =>
      if String.eqb c "" || String.eqb c "Not Found" then entry
      else entry ++ " - " ++ c
  | None => entry
  end.

(** The lines of the fall-back, in the order founder, ceo, owner. *)
Definition role_lines (founder ceo owner : string) : list string :=
  (if String.eqb founder "" then [] else ["Founder: " ++ founder])
  ++ (if String.eqb ceo "" then [] else ["CEO: " ++ ceo])
  ++ (if String.eqb owner "" then [] else ["Owner: " ++ owner]).

(** The key-people cell of a record is the text [s]: formatting the
    key people returns [s], and every save of the record that returns
    has appended a row whose cell R holds [s]. *)
Definition key_people_written (sv : Services) (o : gmap string value)
    (s : string) : Prop :=
  Full.keyPeopleString sv (VObj o) = Ok s
  ∧ ∀ p1 p2 w r w',
      Full.saveData sv (VObj o) p1 p2 w = (Ok r, w') →
      ∃ row, sheet_rows w' = (sheet_rows w ++ [row])%list
             ∧ row !! 17%nat = Some (VStr s).

(** The envelope [{success: boolean, data?: any, message?: string}]. *)
Definition well_formed_envelope (v : value) : Prop :=
  ∃ o, v = VObj o
       ∧ (∃ b, o !! "success" = Some (VBool b))
       ∧ (∀ k, is_Some (o !! k) → k = "success" ∨ k = "data" ∨ k = "message")
       ∧ (∀ m, o !! "message" = Some m → ∃ s, m = VStr s).

(** The reconciliation on read: the formula text when the cell has
    one, else the computed value. *)
Definition reconcile (c : cell) : value :=
  if String.eqb (cell_formula c) "" then cell_value c
  else VStr (cell_formula c).

(** The layout the specification describes for the 22 columns: the
    first eight legacy columns, the ten new columns as one group, then
    the trailing group.  [legacy] is the twelve-cell row and [added] the
    ten new cells in the order industry, title, website, social_media,
    services, company_size, established_year, registration_status,
    trust_score, key_people. *)
Definition grouped_layout (legacy added : list value) : list value :=
  take 8 legacy ++ added ++ drop 8 legacy.

(** The positions of the ten new columns in the row A-V. *)
Definition added_positions : list nat := [4; 6; 9; 10; 12; 13; 14; 15; 16; 17]%nat.

(** The cells of a row at the given positions, and the other cells. *)
Definition cells_at (positions : list nat) (row : list value) : list value :=
  omap (λ i, row !! i) positions.

Definition cells_not_at (positions : list nat) (row : list value)
  : list value :=
  omap (λ i, if bool_decide (i ∈ positions) then None else row !! i)
       (seq 0 (length row)).

(** The two column layouts, each with the script that writes it. *)
Inductive SchemaVersion := Legacy | Extended.

Definition saveData_of (schema : SchemaVersion) (sv : Services)
  : value → value → value → M value :=
  match schema with
  | Legacy => Final.saveData sv
  | Extended => Full.saveData sv
  end.

Definition sheet_id (schema : SchemaVersion) : string :=
  match schema with
  | Legacy => Final.SHEET_ID
  | Extended => Full.SHEET_ID
  end.

Definition column_count (schema : SchemaVersion) : nat :=
  match schema with Legacy => 12 | Extended => 22 end.

Definition text_columns (schema : SchemaVersion) : list (string * nat) :=
  match schema with
  | Legacy => legacy_text_columns
  | Extended => extended_text_columns
  end.

(** The index of the columns that both layouts have. *)
Definition is_validated_column (schema : SchemaVersion) : nat :=
  match schema with Legacy => 8 | Extended => 18 end.

Definition validation_column (schema : SchemaVersion) : nat :=
  match schema with Legacy => 9 | Extended => 19 end.

(** The statements of [saveData] between image 2 and [appendRow]: the
    row that is built from the record and the two references. *)
Definition built_row (schema : SchemaVersion) (sv : Services)
    (url1 url2 : string) (extractedData : value) : outcome (list value) :=
  link ← hyperlink_logic extractedData;
  match schema with
  | Legacy => Final.row_cells (now sv) url1 url2 link extractedData
  | Extended =>
      people ← Full.keyPeopleString sv extractedData;
      Full.row_cells (now sv) url1 url2 people link extractedData
  end.

(** The record can be normalised for the layout: the fields whose
    methods are called are texts or absent, and in the layout A-V the
    key people can be formatted. *)
Definition record_typed (schema : SchemaVersion) (o : gmap string value)
  : bool :=
  link_fields_typed o
  && match schema with Legacy => true | Extended => people_typed o end.

(** ** Sample data *)

(** Services that answer every call, except that the payload [!!] is
    not base64 and that the sheet shown to the reader computes every
    formula to the text [link]. *)
Definition sample_services : Services := {|
  openById := λ _, Ok tt;
  getSheetByName := λ _ _, true;
  getFolderById := λ _, Ok tt;
  now := 1700000000000;
  dateString := λ ms, "Date " ++ pretty ms;
  numberString := λ n, pretty n ++ " rounded";
  base64Decode := λ v,
    match v with
    | VStr "!!" => Throw "Could not decode string."
    | VStr _ => Ok []
    | _ => Throw "Cannot convert to byte array."
    end;
  createFile := λ blob, Ok ("https://drive.example/" ++ blob_name blob);
  getDataRange := λ rows,
    map (map (λ v, match v with
                   | VStr (String "="%char rest) =>
                       mkCell (VStr "link") (String "="%char rest)
                   | _ => mkCell v ""
                   end)) rows;
  JSON_parse := λ _, Ok (VObj ∅);
  fetch := λ _ _, Ok (200%Z, "{}")
|}.

Definition empty_world : World := mkWorld [] [].

Definition acme_name : string := "Acme " ++ q ++ "A" ++ q ++ " Co".

Definition acme_record : gmap string value :=
  <[ "company" := VStr acme_name ]>
    (<[ "validation_source" := VStr "http://x.test" ]>
       {[ "is_validated" := VBool true ]}).

Definition jo_record : gmap string value :=
  {[ "key_people" :=
       VArr [ VObj (<[ "name" := VStr "Jo" ]>
                      (<[ "role" := VStr "CEO" ]>
                         {[ "contact" := VStr "Not Found" ]})) ] ]}.

Definition jo : KeyPerson :=
  {| kp_name := "Jo"; kp_role := "CEO"; kp_contact := Some "Not Found" |}.

Definition founded_record : gmap string value :=
  {[ "founded_year" := VStr "1999" ]}.

(** A record without a list of key people and without a validation
    flag: its key people are the discrete fields. *)
Definition founders_record : gmap string value :=
  <[ "founder" := VStr "Ann" ]> {[ "owner" := VStr "Bo" ]}.

Definition named_record : gmap string value :=
  <[ "name" := VStr "N" ]> {[ "industry" := VStr "I" ]}.

(** A validated record whose source already holds an escaped quote. *)
Definition escaped_url : string := "a" ++ q ++ q ++ "b".

Definition escaped_record : gmap string value :=
  <[ "validation_source" := VStr escaped_url ]>
    {[ "is_validated" := VBool true ]}.

Definition sample_sheet : World :=
  mkWorld [ [VStr "A"; VStr "B"];
            [VStr "=HYPERLINK(1)"; VNum 2];
            [VStr "x"; VStr "=HYPERLINK(2)"] ] [].

(** ** The vocabulary of the further properties *)

(** The event of a POST whose body is the text [contents]. *)
Definition request_of (contents : string) : value :=
  VObj {[ "postData" := VObj {[ "contents" := VStr contents ]} ]}.

(** The fields of the record that each script reads. *)
Definition legacy_fields : list string :=
  [ "validation_source"; "company"; "is_validated"; "name"; "phone";
    "email"; "address"; "about_the_company"; "location" ].

Definition used_fields (schema : SchemaVersion) : list string :=
  match schema with
  | Legacy => legacy_fields
  | Extended =>
      legacy_fields
      ++ [ "key_people"; "founder"; "ceo"; "owner"; "industry"; "title";
           "website"; "social_media"; "services"; "company_size";
           "established_year"; "founded_year"; "registration_status";
           "trust_score" ]
  end.

(** A record that is no object, and neither [null] nor [undefined]. *)
Definition is_scalar_or_array (d : value) : bool :=
  match d with
  | VObj _ | VNull | VUndefined => false
  | _ => true
  end.

(** Reading a string literal of a formula from just after its opening
    quote: a pair of quotes stands for one quote character, a single
    quote closes the literal.  The result is the text of the literal and
    what follows its closing quote. *)
Fixpoint read_literal (s : string) : option (string * string) :=
  match s with
  | EmptyString => None
  | String c rest =>
      if Ascii.eqb c dquote then
        match rest with
        | String d rest' =>
            if Ascii.eqb d dquote then
              match read_literal rest' with
              | Some (text, after) => Some (String dquote text, after)
              | None => None
              end
            else Some (EmptyString, rest)
        | EmptyString => Some (EmptyString, EmptyString)
        end
      else
        match read_literal rest with
        | Some (text, after) => Some (String c text, after)
        | None => None
        end
  end.

(** [s] without its prefix [p], when it starts with [p]. *)
Fixpoint strip_prefix (p s : string) : option string :=
  match p with
  | EmptyString => Some s
  | String a p' =>
      match s with
      | String b s' => if Ascii.eqb a b then strip_prefix p' s' else None
      | EmptyString => None
      end
  end.

(** Reading a formula as a call of HYPERLINK on two string literals:
    the two texts. *)
Definition parse_hyperlink (formula : string) : option (string * string) :=
  match strip_prefix ("=HYPERLINK(" ++ q) formula with
  | Some s1 =>
      match read_literal s1 with
      | Some (url, s2) =>
          match strip_prefix (", " ++ q) s2 with
          | Some s3 =>
              match read_literal s3 with
              | Some (label, s4) =>
                  if String.eqb s4 ")" then Some (url, label) else None
              | None => None
              end
          | None => None
          end
      | None => None
      end
  | None => None
  end.

(** The whole effect of a computation, the same in every world: its
    completion, the rows it appends to the sheet and the files it adds
    to the folder. *)
Definition effect {A} (m : M A) (res : outcome A)
    (added : list (list value)) (files : list Blob) : Prop :=
  ∀ w, m w = (res, mkWorld (sheet_rows w ++ added) (drive_files w ++ files)).

(** What [saveData] returns when it returns. *)
Definition confirmation (schema : SchemaVersion) : value :=
  match schema with
  | Legacy => VObj {[ "message" := VStr "âœ… Data saved successfully!" ]}
  | Extended => VObj {[ "message" := VStr "✅ Data saved successfully!" ]}
  end.

(** The completion of [saveData] and the rows it appends, once the
    store is reached and image 1 is stored under [url1], for a
    completion of the statements of image 2. *)
Definition save_completion (schema : SchemaVersion) (sv : Services)
    (url1 : string) (image2 : outcome string) (extractedData : value)
  : outcome value * list (list value) :=
  match image2 with
  | Ok url2 =>
      match built_row schema sv url1 url2 extractedData with
      | Ok row => (Ok (confirmation schema), [row])
      | Throw msg => (Throw msg, [])
      end
  | Throw msg => (Throw msg, [])
  end.

(** The output of a handler for a completion of its body. *)
Definition output_of (res : outcome value) : TextOutput :=
  match res with
  | Ok result => success_output result
  | Throw msg => failure_output msg
  end.

(** A computation that never changes the world. *)
Definition quiet {A} (m : M A) : Prop := ∀ w, (m w).2 = w.

(** A computation that leaves the rows of the sheet as they are, or
    returns and has appended one row. *)
Definition tidy {A} (m : M A) : Prop :=
  ∀ w, sheet_rows (m w).2 = sheet_rows w
       ∨ (is_ok (m w).1 = true
          ∧ ∃ row, sheet_rows (m w).2 = (sheet_rows w ++ [row])%list).

(** The three scripts by name. *)
Inductive Script := FinalScript | FullScript | GuideScript.

Definition doPost_of (script : Script) (sv : Services) : value → M TextOutput :=
  match script with
  | FinalScript => Final.doPost sv
  | FullScript => Full.doPost sv
  | GuideScript => Guide.doPost sv
  end.

Definition doPost_result_of (script : Script) (sv : Services)
  : value → M value :=
  match script with
  | FinalScript => Final.doPost_result sv
  | FullScript => Full.doPost_result sv
  | GuideScript => Guide.doPost_result sv
  end.

(** What each script does with the parsed body of a request. *)
Definition dispatch (script : Script) (sv : Services) (postData : value)
  : M value :=
  action ← lift (get_prop postData "action");
  match script with
  | FinalScript =>
      if is_literal action "extract" then
        photo1Base64 ← lift (get_prop postData "photo1Base64");
        extractData sv photo1Base64
      else if is_literal action "save" then
        extractedData ← lift (get_prop postData "extractedData");
        photo1Base64 ← lift (get_prop postData "photo1Base64");
        photo2Base64 ← lift (get_prop postData "photo2Base64");
        Final.saveData sv extractedData photo1Base64 photo2Base64
      else
        name ← lift (to_string sv action);
        throw ("Invalid action specified: " ++ name)
  | FullScript =>
      if is_literal action "extract" then
        photo1Base64 ← lift (get_prop postData "photo1Base64");
        extractData sv photo1Base64
      else if is_literal action "save" then
        extractedData ← lift (get_prop postData "extractedData");
        photo1Base64 ← lift (get_prop postData "photo1Base64");
        photo2Base64 ← lift (get_prop postData "photo2Base64");
        Full.saveData sv extractedData photo1Base64 photo2Base64
      else if is_literal action "read" then Full.getSheetData sv
      else
        name ← lift (to_string sv action);
        throw ("Invalid action specified: " ++ name)
  | GuideScript =>
      if is_literal action "save" then
        extractedData ← lift (get_prop postData "extractedData");
        photo1Base64 ← lift (get_prop postData "photo1Base64");
        photo2Base64 ← lift (get_prop postData "photo2Base64");
        Guide.saveData sv extractedData photo1Base64 photo2Base64
      else
        name ← lift (to_string sv action);
        mret (VObj {[ "message" := VStr ("Ignored action: " ++ name) ]})
  end.

(** The sample services with other answers of the store, of the parser
    and of the recognition backend. *)
Definition with_store (opened : outcome unit) (named : bool)
    (folder : outcome unit) (sv : Services) : Services := {|
  openById := λ _, opened;
  getSheetByName := λ _ _, named;
  getFolderById := λ _, folder;
  now := now sv;
  dateString := dateString sv;
  numberString := numberString sv;
  base64Decode := base64Decode sv;
  createFile := createFile sv;
  getDataRange := getDataRange sv;
  JSON_parse := JSON_parse sv;
  fetch := fetch sv
|}.

Definition with_parser (parse : string → outcome value) (sv : Services)
  : Services := {|
  openById := openById sv;
  getSheetByName := getSheetByName sv;
  getFolderById := getFolderById sv;
  now := now sv;
  dateString := dateString sv;
  numberString := numberString sv;
  base64Decode := base64Decode sv;
  createFile := createFile sv;
  getDataRange := getDataRange sv;
  JSON_parse := parse;
  fetch := fetch sv
|}.

Definition with_backend (answer : outcome (Z * string)) (sv : Services)
  : Services := {|
  openById := openById sv;
  getSheetByName := getSheetByName sv;
  getFolderById := getFolderById sv;
  now := now sv;
  dateString := dateString sv;
  numberString := numberString sv;
  base64Decode := base64Decode sv;
  createFile := createFile sv;
  getDataRange := getDataRange sv;
  JSON_parse := JSON_parse sv;
  fetch := λ _ _, answer
|}.

(** The same platform at a later call: the built-ins of the language
    answer as before, while the clock, the store, the folder and the
    network may answer anew. *)
Definition same_builtins (sv sv' : Services) : Prop :=
  dateString sv = dateString sv' ∧ numberString sv = numberString sv'.

(** The sample services at another time. *)
Definition at_time (t : Z) (sv : Services) : Services := {|
  openById := openById sv;
  getSheetByName := getSheetByName sv;
  getFolderById := getFolderById sv;
  now := t;
  dateString := dateString sv;
  numberString := numberString sv;
  base64Decode := base64Decode sv;
  createFile := createFile sv;
  getDataRange := getDataRange sv;
  JSON_parse := JSON_parse sv;
  fetch := fetch sv
|}.

(** What a parsed body can hold that does not convert to a text: an
    object with a property named toString. *)
Definition no_text : value := VObj {[ "toString" := VNum 1 ]}.

(** A parser that knows a few request bodies by name. *)
Definition sample_parse (body : string) : outcome value :=
  if String.eqb body "null" then Ok VNull
  else if String.eqb body "read" then
    Ok (VObj {[ "action" := VStr "read" ]})
  else if String.eqb body "extract" then
    Ok (VObj (<[ "action" := VStr "extract" ]>
                {[ "photo1Base64" := VStr "aGk=" ]}))
  else if String.eqb body "save" then
    Ok (VObj (<[ "action" := VStr "save" ]>
                (<[ "extractedData" := VObj acme_record ]>
                   {[ "photo1Base64" := VStr "aGk=" ]})))
  else if String.eqb body "card" then
    Ok (VObj {[ "name" := VStr "Jo" ]})
  else Throw "Unexpected token in JSON".

Definition parsing_services : Services :=
  with_parser sample_parse sample_services.

Definition null_people_record : gmap string value :=
  {[ "key_people" := VArr [ VObj ∅; VNull ] ]}.

(** A list of key people whose first entry has a name that does not
    convert to a text, before a [null] entry. *)
Definition unnamed_people_record : gmap string value :=
  {[ "key_people" := VArr [ VObj {[ "name" := no_text ]}; VNull ] ]}.


(** ** Facts about the shared statements *)

Section SharedFacts.

Variable sv : Services.

Lemma bind_run {A B} (m : M A) (f : A → M B) (w : World) :
  (m ≫= f) w = match m w with
               | (Ok a, w1) => f a w1
               | (Throw msg, w1) => (Throw msg, w1)
               end.
Proof. reflexivity. Qed.

Lemma lift_bind_run {A B} (r : outcome A) (f : A → M B) (w : World) :
  (lift r ≫= f) w = match r with
                    | Ok a => f a w
                    | Throw msg => (Throw msg, w)
                    end.
Proof. rewrite bind_run. unfold lift. by destruct r. Qed.

(** Opening the sheet never changes the world. *)
Lemma access_sheet_world id w : (access_sheet sv id w).2 = w.
Proof.
  unfold access_sheet, try_catch. rewrite lift_bind_run.
  destruct (openById sv id) as [[]|msg]; simpl; [|done].
  by destruct (getSheetByName sv id SHEET_NAME).
Qed.

Lemma access_sheet_ok id w :
  openById sv id = Ok tt → getSheetByName sv id SHEET_NAME = true →
  access_sheet sv id w = (Ok tt, w).
Proof.
  intros Hopen Hname. unfold access_sheet, try_catch.
  rewrite lift_bind_run, Hopen, Hname. done.
Qed.

Lemma access_folder_world w : (access_folder sv w).2 = w.
Proof.
  unfold access_folder, try_catch, lift.
  by destruct (getFolderById sv FOLDER_ID).
Qed.

Lemma access_folder_ok w :
  getFolderById sv FOLDER_ID = Ok tt → access_folder sv w = (Ok tt, w).
Proof. intros H. unfold access_folder, try_catch, lift. by rewrite H. Qed.

(** Storing a blob leaves the rows of the sheet alone. *)
Lemma save_blob_rows slot b64 ts w :
  sheet_rows (save_blob sv slot b64 ts w).2 = sheet_rows w.
Proof.
  unfold save_blob. rewrite lift_bind_run.
  destruct (base64Decode sv b64) as [bytes|msg]; [|done].
  unfold store_file. by destruct (createFile sv _).
Qed.

(** A blob that cannot be decoded or stored leaves the whole world
    alone. *)
Lemma save_blob_fails slot b64 msg w :
  blob_fails sv slot b64 msg →
  save_blob sv slot b64 (now sv) w = (Throw msg, w).
Proof.
  unfold save_blob. rewrite lift_bind_run.
  intros [Hdec | (bytes & Hdec & Hcreate)]; rewrite Hdec; [done|].
  unfold store_file. fold (slot_blob sv slot bytes). by rewrite Hcreate.
Qed.

Lemma save_blob_stored slot b64 url w :
  blob_stored sv slot b64 url →
  ∃ w1, save_blob sv slot b64 (now sv) w = (Ok url, w1)
        ∧ sheet_rows w1 = sheet_rows w.
Proof.
  intros (bytes & Hdec & Hcreate). unfold save_blob.
  rewrite lift_bind_run, Hdec. unfold store_file.
  fold (slot_blob sv slot bytes). rewrite Hcreate. eauto.
Qed.

Lemma save_image1_rows p1 ts w :
  sheet_rows (save_image1 sv p1 ts w).2 = sheet_rows w.
Proof.
  unfold save_image1, try_catch.
  pose proof (save_blob_rows "photo1_" p1 ts w) as H.
  by destruct (save_blob sv "photo1_" p1 ts w) as [[url|msg] w1].
Qed.

Lemma save_image2_rows p2 ts w :
  sheet_rows (save_image2 sv p2 ts w).2 = sheet_rows w.
Proof.
  unfold save_image2. rewrite lift_bind_run.
  destruct (given_and_not_blank _ p2) as [[]|msg]; [|done|done].
  unfold try_catch.
  pose proof (save_blob_rows "photo2_" p2 ts w) as H.
  by destruct (save_blob sv "photo2_" p2 ts w) as [[url|msg] w1].
Qed.

(** Image 2 never makes the save fail once its argument is absent,
    empty, or a text. *)
Lemma save_image2_total p2 ts w :
  is_ok (given_and_not_blank "photo2Base64" p2) = true →
  ∃ url2 w2, save_image2 sv p2 ts w = (Ok url2, w2)
             ∧ sheet_rows w2 = sheet_rows w.
Proof.
  intros Hgiven. pose proof (save_image2_rows p2 ts w) as Hrows.
  unfold save_image2 in *. rewrite lift_bind_run in *.
  destruct (given_and_not_blank _ p2) as [[]|msg]; [| |done].
  - unfold try_catch in *.
    destruct (save_blob sv "photo2_" p2 ts w) as [[url|msg] w1]; eauto.
  - eauto.
Qed.

(** A failure on image 2 becomes the text of [url2]. *)
Lemma save_image2_absorbs s msg w :
  trims_to_empty s = false →
  blob_fails sv "photo2_" (VStr s) msg →
  save_image2 sv (VStr s) (now sv) w = (Ok ("Error saving image 2: " ++ msg), w).
Proof.
  intros Hblank Hfail. unfold save_image2. rewrite lift_bind_run.
  unfold given_and_not_blank. simpl.
  destruct (String.eqb_spec s "") as [->|Hne]; [done|]. simpl.
  rewrite Hblank. simpl.
  unfold try_catch. by rewrite (save_blob_fails _ _ msg).
Qed.

End SharedFacts.

(** ** Facts about the hyperlink logic and the rows *)

Lemma get_prop_record o k : get_prop (VObj o) k = Ok (field o k).
Proof. reflexivity. Qed.

Lemma bind_ok {A B} (a : A) (f : A → outcome B) : (Ok a ≫= f) = f a.
Proof. reflexivity. Qed.

Lemma field_text_value o k s :
  field_text o k s → js_or (field o k) (VStr "") = VStr s.
Proof.
  unfold field, js_or. intros [-> | [-> ->]]; simpl; [|done].
  by destruct (String.eqb_spec s "") as [->|].
Qed.

Lemma field_text_truthy o k s :
  field_text o k s → truthy (field o k) = negb (String.eqb s "").
Proof. unfold field. by intros [-> | [-> ->]]. Qed.

(** On a record whose source and company are texts, the hyperlink logic
    computes the validation cell of the specification. *)
Lemma hyperlink_logic_record o source company :
  field_text o "validation_source" source →
  field_text o "company" company →
  hyperlink_logic (VObj o)
  = Ok (validation_cell (field o "is_validated") source company).
Proof.
  intros Hsource Hcompany. unfold hyperlink_logic, validation_cell.
  rewrite !get_prop_record. simpl.
  assert (js_or (field o "company") (VStr "Source")
          = VStr (link_label company)) as ->.
  { unfold link_label, js_or, field.
    destruct Hcompany as [-> | [-> ->]]; simpl; [|done].
    by destruct (String.eqb_spec company "") as [->|]. }
  rewrite (field_text_value _ _ _ Hsource).
  unfold js_and.
  destruct (truthy (field o "is_validated")) eqn:Hflag; simpl.
  - rewrite (field_text_truthy _ _ _ Hsource).
    destruct (String.eqb_spec source "") as [->|Hne]; simpl; [done|].
    unfold field. by destruct Hsource as [-> | [_ ->]].
  - by rewrite Hflag.
Qed.

Lemma text_or_absent_field o k :
  text_or_absent o k = true → ∃ s, field_text o k s.
Proof.
  unfold text_or_absent, field_text.
  destruct (o !! k) as [v|]; [destruct v as [| | | |s| | |]; try done|].
  - intros _. exists s. by left.
  - intros _. exists "". by right.
Qed.

Lemma hyperlink_logic_typed o :
  link_fields_typed o = true → ∃ link, hyperlink_logic (VObj o) = Ok link.
Proof.
  unfold link_fields_typed. intros [H1 H2]%andb_true_iff.
  destruct (text_or_absent_field _ _ H1) as [source Hs].
  destruct (text_or_absent_field _ _ H2) as [company Hc].
  rewrite (hyperlink_logic_record _ _ _ Hs Hc). eauto.
Qed.

(** A cell written as [extractedData.k || ""] is never falsy unless it
    is the empty text. *)
Lemma or_empty_defined v : js_or v (VStr "") ≠ VNull ∧ js_or v (VStr "") ≠ VUndefined.
Proof.
  unfold js_or. destruct (truthy v) eqn:Hv; [|done].
  split; intros ->; discriminate.
Qed.

Lemma or_empty_absent o k : o !! k = None → js_or (field o k) (VStr "") = VStr "".
Proof. unfold field. by intros ->. Qed.

(** ** Facts about [saveData] *)

(** Runs the statements of [saveData] up to image 1 when the store can
    be reached. *)
Ltac reach_store Hreach :=
  destruct Hreach as (Hopen & Hname & Hfolder);
  rewrite bind_run, (access_sheet_ok _ _ _ Hopen Hname);
  rewrite bind_run, (access_folder_ok _ _ Hfolder); cbv zeta;
  rewrite bind_run; unfold save_image1 at 1, try_catch at 1.

Section SaveFacts.

Variable sv : Services.

Lemma Final_saveData_run d p1 p2 w url1 w1 :
  store_reachable sv Final.SHEET_ID →
  save_blob sv "photo1_" p1 (now sv) w = (Ok url1, w1) →
  Final.saveData sv d p1 p2 w
  = match save_image2 sv p2 (now sv) w1 with
    | (Ok url2, w2) =>
        match hyperlink_logic d
              ≫= λ link, Final.row_cells (now sv) url1 url2 link d with
        | Ok row =>
            (Ok (VObj {[ "message" := VStr "âœ… Data saved successfully!" ]}),
             mkWorld (sheet_rows w2 ++ [row]) (drive_files w2))
        | Throw msg => (Throw msg, w2)
        end
    | (Throw msg, w2) => (Throw msg, w2)
    end.
Proof.
  intros Hreach Hphoto1. unfold Final.saveData. reach_store Hreach.
  rewrite Hphoto1, bind_run.
  destruct (save_image2 sv p2 (now sv) w1) as [[url2|msg] w2]; [|done].
  rewrite lift_bind_run.
  destruct (hyperlink_logic d) as [link|msg]; [|done]. simpl.
  rewrite lift_bind_run.
  by destruct (Final.row_cells (now sv) url1 url2 link d) as [row|msg].
Qed.

Lemma Full_saveData_run d p1 p2 w url1 w1 :
  store_reachable sv Full.SHEET_ID →
  save_blob sv "photo1_" p1 (now sv) w = (Ok url1, w1) →
  Full.saveData sv d p1 p2 w
  = match save_image2 sv p2 (now sv) w1 with
    | (Ok url2, w2) =>
        match hyperlink_logic d ≫= λ link,
              Full.keyPeopleString sv d ≫= λ people,
              Full.row_cells (now sv) url1 url2 people link d with
        | Ok row =>
            (Ok (VObj {[ "message" := VStr "✅ Data saved successfully!" ]}),
             mkWorld (sheet_rows w2 ++ [row]) (drive_files w2))
        | Throw msg => (Throw msg, w2)
        end
    | (Throw msg, w2) => (Throw msg, w2)
    end.
Proof.
  intros Hreach Hphoto1. unfold Full.saveData. reach_store Hreach.
  rewrite Hphoto1, bind_run.
  destruct (save_image2 sv p2 (now sv) w1) as [[url2|msg] w2]; [|done].
  rewrite lift_bind_run.
  destruct (hyperlink_logic d) as [link|msg]; [|done]. simpl.
  rewrite lift_bind_run.
  destruct (Full.keyPeopleString sv d) as [people|msg]; [|done]. simpl.
  rewrite lift_bind_run.
  by destruct (Full.row_cells (now sv) url1 url2 people link d) as [row|msg].
Qed.

(** A failure on image 1 ends [saveData] before anything is written. *)
Lemma Final_saveData_photo1_fails d p1 p2 w msg :
  store_reachable sv Final.SHEET_ID →
  blob_fails sv "photo1_" p1 msg →
  Final.saveData sv d p1 p2 w = (Throw ("Failed to save Image 1: " ++ msg), w).
Proof.
  intros Hreach Hfail. unfold Final.saveData. reach_store Hreach.
  by rewrite (save_blob_fails _ _ _ msg).
Qed.

Lemma Full_saveData_photo1_fails d p1 p2 w msg :
  store_reachable sv Full.SHEET_ID →
  blob_fails sv "photo1_" p1 msg →
  Full.saveData sv d p1 p2 w = (Throw ("Failed to save Image 1: " ++ msg), w).
Proof.
  intros Hreach Hfail. unfold Full.saveData. reach_store Hreach.
  by rewrite (save_blob_fails _ _ _ msg).
Qed.

(** Whatever the services answer, a save that returns has appended
    exactly the row it built, and a save that throws has appended
    nothing. *)
Lemma Final_saveData_inv d p1 p2 w r w' :
  Final.saveData sv d p1 p2 w = (Ok r, w') →
  ∃ url1 url2 link row,
    hyperlink_logic d = Ok link
    ∧ Final.row_cells (now sv) url1 url2 link d = Ok row
    ∧ sheet_rows w' = (sheet_rows w ++ [row])%list.
Proof.
  unfold Final.saveData. rewrite bind_run.
  pose proof (access_sheet_world sv Final.SHEET_ID w) as Hw0.
  destruct (access_sheet sv Final.SHEET_ID w) as [[[]|msg] w0]; [|done].
  simpl in Hw0. subst w0. rewrite bind_run.
  pose proof (access_folder_world sv w) as Hw0.
  destruct (access_folder sv w) as [[[]|msg] w0]; [|done].
  simpl in Hw0. subst w0. cbv zeta. rewrite bind_run.
  pose proof (save_image1_rows sv p1 (now sv) w) as Hrows1.
  destruct (save_image1 sv p1 (now sv) w) as [[url1|msg] w1]; [|done].
  rewrite bind_run.
  pose proof (save_image2_rows sv p2 (now sv) w1) as Hrows2.
  destruct (save_image2 sv p2 (now sv) w1) as [[url2|msg] w2]; [|done].
  rewrite lift_bind_run.
  destruct (hyperlink_logic d) as [link|msg]; [|done].
  rewrite lift_bind_run.
  destruct (Final.row_cells (now sv) url1 url2 link d) as [row|msg] eqn:Hrow;
    [|done].
  intros [= <- <-]. exists url1, url2, link, row. simpl in *.
  by rewrite Hrows2, Hrows1.
Qed.

Lemma Full_saveData_inv d p1 p2 w r w' :
  Full.saveData sv d p1 p2 w = (Ok r, w') →
  ∃ url1 url2 link people row,
    hyperlink_logic d = Ok link
    ∧ Full.keyPeopleString sv d = Ok people
    ∧ Full.row_cells (now sv) url1 url2 people link d = Ok row
    ∧ sheet_rows w' = (sheet_rows w ++ [row])%list.
Proof.
  unfold Full.saveData. rewrite bind_run.
  pose proof (access_sheet_world sv Full.SHEET_ID w) as Hw0.
  destruct (access_sheet sv Full.SHEET_ID w) as [[[]|msg] w0]; [|done].
  simpl in Hw0. subst w0. rewrite bind_run.
  pose proof (access_folder_world sv w) as Hw0.
  destruct (access_folder sv w) as [[[]|msg] w0]; [|done].
  simpl in Hw0. subst w0. cbv zeta. rewrite bind_run.
  pose proof (save_image1_rows sv p1 (now sv) w) as Hrows1.
  destruct (save_image1 sv p1 (now sv) w) as [[url1|msg] w1]; [|done].
  rewrite bind_run.
  pose proof (save_image2_rows sv p2 (now sv) w1) as Hrows2.
  destruct (save_image2 sv p2 (now sv) w1) as [[url2|msg] w2]; [|done].
  rewrite lift_bind_run.
  destruct (hyperlink_logic d) as [link|msg]; [|done].
  rewrite lift_bind_run.
  destruct (Full.keyPeopleString sv d) as [people|msg]; [|done].
  rewrite lift_bind_run.
  destruct (Full.row_cells (now sv) url1 url2 people link d)
    as [row|msg] eqn:Hrow; [|done].
  intros [= <- <-]. exists url1, url2, link, people, row. simpl in *.
  by rewrite Hrows2, Hrows1.
Qed.

(** The same facts for either layout. *)
Lemma saveData_of_completes schema d p1 p2 w url1 w1 url2 w2 row :
  store_reachable sv (sheet_id schema) →
  save_blob sv "photo1_" p1 (now sv) w = (Ok url1, w1) →
  save_image2 sv p2 (now sv) w1 = (Ok url2, w2) →
  built_row schema sv url1 url2 d = Ok row →
  ∃ r, saveData_of schema sv d p1 p2 w
       = (Ok r, mkWorld (sheet_rows w2 ++ [row]) (drive_files w2)).
Proof.
  intros Hreach Hphoto1 Hphoto2 Hrow. unfold built_row in Hrow.
  destruct schema; simpl in *.
  - rewrite (Final_saveData_run _ _ _ _ _ _ Hreach Hphoto1), Hphoto2.
    rewrite Hrow. eauto.
  - rewrite (Full_saveData_run _ _ _ _ _ _ Hreach Hphoto1), Hphoto2.
    rewrite Hrow. eauto.
Qed.

Lemma saveData_of_inv schema d p1 p2 w r w' :
  saveData_of schema sv d p1 p2 w = (Ok r, w') →
  ∃ url1 url2 row,
    built_row schema sv url1 url2 d = Ok row
    ∧ sheet_rows w' = (sheet_rows w ++ [row])%list.
Proof.
  unfold built_row. destruct schema; simpl.
  - intros (url1 & url2 & link & row & Hlink & Hrow & Hrows)%Final_saveData_inv.
    exists url1, url2, row. by rewrite Hlink.
  - intros (url1 & url2 & link & people & row & Hlink & Hpeople & Hrow & Hrows)
             %Full_saveData_inv.
    exists url1, url2, row. rewrite Hlink. simpl. by rewrite Hpeople.
Qed.

Lemma saveData_of_photo1_fails schema d p1 p2 w msg :
  store_reachable sv (sheet_id schema) →
  blob_fails sv "photo1_" p1 msg →
  saveData_of schema sv d p1 p2 w
  = (Throw ("Failed to save Image 1: " ++ msg), w).
Proof.
  destruct schema; [apply Final_saveData_photo1_fails
                   |apply Full_saveData_photo1_fails].
Qed.

End SaveFacts.

(** ** Facts about the rows built from a record *)

Ltac each_column Hin :=
  let Heq := fresh "Heq" in
  repeat (apply elem_of_cons in Hin as [Heq|Hin]; [simplify_eq; try done|]);
  try (by apply elem_of_nil in Hin).

Section RowFacts.

Variable sv : Services.

(** On a record, the cell of the validation link is a defined value,
    and the empty text when the record has no source. *)
Lemma hyperlink_logic_defined o link :
  hyperlink_logic (VObj o) = Ok link → link ≠ VNull ∧ link ≠ VUndefined.
Proof.
  unfold hyperlink_logic. rewrite !get_prop_record. simpl.
  destruct (truthy (js_and _ _)).
  - destruct (js_replace_quotes _ (field o "validation_source")); [|done].
    simpl. destruct (js_replace_quotes _ _); [|done]. simpl.
    by intros [= <-].
  - intros [= <-]. apply or_empty_defined.
Qed.

Lemma hyperlink_logic_absent o link :
  o !! "validation_source" = None →
  hyperlink_logic (VObj o) = Ok link → link = VStr "".
Proof.
  intros Habsent. unfold hyperlink_logic. rewrite !get_prop_record. simpl.
  assert (field o "validation_source" = VUndefined) as ->.
  { unfold field. by rewrite Habsent. }
  unfold js_and. destruct (truthy (field o "is_validated")) eqn:Hflag.
  - simpl. by intros [= <-].
  - rewrite Hflag. by intros [= <-].
Qed.

(** The cells of a built row, for either layout. *)
Lemma built_row_record schema o url1 url2 row :
  built_row schema sv url1 url2 (VObj o) = Ok row →
  length row = column_count schema
  ∧ row !! 1%nat = Some (VStr url1)
  ∧ row !! 2%nat = Some (VStr url2)
  ∧ row !! is_validated_column schema = Some (field o "is_validated")
  ∧ (∃ link, hyperlink_logic (VObj o) = Ok link
             ∧ row !! validation_column schema = Some link)
  ∧ (∀ k i, (k, i) ∈ text_columns schema → k ≠ "validation_source" →
            row !! i = Some (js_or (field o k) (VStr ""))).
Proof.
  unfold built_row.
  destruct (hyperlink_logic (VObj o)) as [link|msg]; [|done]. simpl.
  destruct schema; simpl.
  - intros [= <-]. repeat split; try done; [by exists link|].
    intros k i Hin Hk. unfold legacy_text_columns in Hin. each_column Hin.
  - destruct (Full.keyPeopleString sv (VObj o)) as [people|msg]; [|done].
    intros [= <-]. repeat split; try done; [by exists link|].
    intros k i Hin Hk. unfold extended_text_columns in Hin. each_column Hin.
Qed.

(** The two cells that only the layout A-V has. *)
Lemma built_row_extended o url1 url2 row :
  built_row Extended sv url1 url2 (VObj o) = Ok row →
  (∃ people, Full.keyPeopleString sv (VObj o) = Ok people
             ∧ row !! 17%nat = Some (VStr people))
  ∧ row !! 14%nat
    = Some (js_or (js_or (field o "established_year") (field o "founded_year"))
                  (VStr "")).
Proof.
  unfold built_row.
  destruct (hyperlink_logic (VObj o)) as [link|msg]; [|done]. simpl.
  destruct (Full.keyPeopleString sv (VObj o)) as [people|msg]; [|done].
  intros [= <-]. split; [by exists people|done].
Qed.

End RowFacts.

(** ** Facts about the key people *)

Section PeopleFacts.

Variable sv : Services.

Lemma person_details_person v p :
  is_person v p → Full.person_details sv v = Ok (render_person p).
Proof.
  intros (o & -> & Hname & Hrole & Hcontact).
  unfold Full.person_details, render_person.
  rewrite !get_prop_record. unfold field.
  rewrite Hname, Hrole, Hcontact. simpl.
  destruct (kp_contact p) as [c|]; simpl; [|done].
  destruct (String.eqb c ""); simpl; [done|].
  by destruct (String.eqb c "Not Found").
Qed.

Lemma map_outcome_people vs ps :
  Forall2 is_person vs ps →
  map_outcome (Full.person_details sv) vs = Ok (map render_person ps).
Proof.
  induction 1 as [|v p vs ps Hperson _ IH]; [done|].
  simpl. rewrite (person_details_person _ _ Hperson). simpl.
  by rewrite IH.
Qed.

(** A list of key people is rendered entry by entry. *)
Lemma keyPeopleString_list o vs ps :
  o !! "key_people" = Some (VArr vs) →
  Forall2 is_person vs ps →
  Full.keyPeopleString sv (VObj o) = Ok (join newline (map render_person ps)).
Proof.
  intros Hlist Hpeople. unfold Full.keyPeopleString.
  rewrite get_prop_record. unfold field at 1. rewrite Hlist. simpl.
  by rewrite (map_outcome_people _ _ Hpeople).
Qed.

Lemma push_part_text o label k s parts :
  field_text o k s →
  Full.push_part sv (VObj o) label k parts
  = Ok (app parts (if String.eqb s "" then [] else [label ++ s])).
Proof.
  intros Htext. unfold Full.push_part. rewrite get_prop_record. simpl.
  rewrite (field_text_truthy _ _ _ Htext).
  destruct (String.eqb_spec s "") as [->|Hne]; simpl;
    [by rewrite app_nil_r|].
  unfold field. by destruct Htext as [-> | [_ ->]].
Qed.

(** Without a list, the three discrete fields are used. *)
Lemma keyPeopleString_fallback o founder ceo owner :
  (∀ vs, o !! "key_people" ≠ Some (VArr vs)) →
  field_text o "founder" founder →
  field_text o "ceo" ceo →
  field_text o "owner" owner →
  Full.keyPeopleString sv (VObj o)
  = Ok (join newline (role_lines founder ceo owner)).
Proof.
  intros Hnone Hfounder Hceo Howner. unfold Full.keyPeopleString.
  rewrite get_prop_record, bind_ok.
  assert ((if truthy (field o "key_people")
           then as_array (field o "key_people") else None) = None) as ->.
  { unfold field. destruct (o !! "key_people") as [v|] eqn:Hk; [|done].
    simpl. destruct (truthy v); [|done].
    destruct v as [| | | | |xs| |]; try done. by destruct (Hnone xs). }
  rewrite (push_part_text _ _ _ _ _ Hfounder), bind_ok.
  rewrite (push_part_text _ _ _ _ _ Hceo), bind_ok.
  rewrite (push_part_text _ _ _ _ _ Howner), bind_ok.
  unfold role_lines. by rewrite app_assoc.
Qed.

Lemma to_string_converts v :
  converts v = true → to_string sv v = Ok (text_of sv v).
Proof. unfold to_string. by intros ->. Qed.

Lemma to_string_fails v :
  converts v = false →
  to_string sv v = Throw "Cannot convert object to primitive value".
Proof. unfold to_string. by intros ->. Qed.

Lemma get_prop_member p k :
  p ≠ VNull → p ≠ VUndefined → get_prop p k = Ok (member p k).
Proof. by destruct p. Qed.

(** An entry that is typed is formatted. *)
Lemma person_details_typed v :
  person_typed v = true → ∃ s, Full.person_details sv v = Ok s.
Proof.
  intros Htyped.
  assert (v ≠ VNull ∧ v ≠ VUndefined) as [Hnull Hundef] by by destruct v.
  assert (converts (member v "name") = true
          ∧ converts (member v "role") = true
          ∧ converts (member v "contact") = true) as (Hname & Hrole & Hcontact).
  { destruct v; try done; simpl in Htyped;
      by apply andb_true_iff in Htyped as [[? ?]%andb_true_iff ?]. }
  unfold Full.person_details.
  destruct (truthy (member v "contact")
            && differs_from (member v "contact") "Not Found") eqn:Hgiven;
    eexists; rewrite !get_prop_member by done;
    rewrite bind_ok, (to_string_converts _ Hname), bind_ok, bind_ok,
      (to_string_converts _ Hrole), bind_ok, bind_ok, Hgiven;
    [rewrite (to_string_converts _ Hcontact)|]; reflexivity.
Qed.

Lemma map_outcome_typed vs :
  forallb person_typed vs = true →
  ∃ lines, map_outcome (Full.person_details sv) vs = Ok lines.
Proof.
  induction vs as [|v vs IH]; simpl; [eauto|].
  intros [Hv Hvs]%andb_true_iff.
  destruct (person_details_typed v Hv) as [s Hs].
  destruct (IH Hvs) as [lines Hlines]. rewrite Hs. simpl.
  rewrite Hlines. simpl. eauto.
Qed.

(** A discrete field that converts gives its line, or none. *)
Lemma push_part_typed o label k parts :
  converts (field o k) = true →
  ∃ parts', Full.push_part sv (VObj o) label k parts = Ok parts'.
Proof.
  intros Hk. unfold Full.push_part. rewrite get_prop_record, bind_ok.
  rewrite (to_string_converts _ Hk).
  destruct (truthy (field o k)); eexists; reflexivity.
Qed.

Lemma keyPeopleString_typed o :
  people_typed o = true → ∃ people, Full.keyPeopleString sv (VObj o) = Ok people.
Proof.
  unfold people_typed. intros Htyped.
  assert ((∃ vs, o !! "key_people" = Some (VArr vs)
                 ∧ forallb person_typed vs = true)
          ∨ ((if truthy (field o "key_people")
              then as_array (field o "key_people") else None) = None
             ∧ converts (field o "founder") = true
             ∧ converts (field o "ceo") = true
             ∧ converts (field o "owner") = true)) as [Hlist|Hnone].
  { unfold field at 1 2.
    destruct (o !! "key_people") as [v|]; [destruct v|];
      try (left; by eauto);
      right; (split; [by try destruct (truthy _)|]);
      by apply andb_true_iff in Htyped as [[? ?]%andb_true_iff ?]. }
  - destruct Hlist as (vs & Hlist & Hvs).
    destruct (map_outcome_typed vs Hvs) as [lines Hlines].
    unfold Full.keyPeopleString. rewrite get_prop_record, bind_ok.
    unfold field. rewrite Hlist. simpl. rewrite Hlines.
    eexists; reflexivity.
  - destruct Hnone as (Hnone & Hfounder & Hceo & Howner).
    unfold Full.keyPeopleString. rewrite get_prop_record, bind_ok, Hnone.
    destruct (push_part_typed o "Founder: " "founder" [] Hfounder)
      as [parts1 ->].
    rewrite bind_ok.
    destruct (push_part_typed o "CEO: " "ceo" parts1 Hceo) as [parts2 ->].
    rewrite bind_ok.
    destruct (push_part_typed o "Owner: " "owner" parts2 Howner)
      as [parts3 ->].
    eexists; reflexivity.
Qed.

(** A typed record can always be laid out. *)
Lemma built_row_typed schema o url1 url2 :
  record_typed schema o = true →
  ∃ row, built_row schema sv url1 url2 (VObj o) = Ok row.
Proof.
  unfold record_typed, built_row. intros [Hlink Hpeople]%andb_true_iff.
  destruct (hyperlink_logic_typed _ Hlink) as [link ->]. simpl.
  destruct schema; [eexists; reflexivity|].
  destruct (keyPeopleString_typed _ Hpeople) as [people ->].
  eexists; reflexivity.
Qed.

End PeopleFacts.

(** ** The claims about [saveData] *)

(** C1, as amended.  For either layout, a save of a record appends one
    row.  It does so whenever the store can be reached, the first
    photograph is stored, the second photograph is absent or a text, and
    the record is typed: its source and company are texts or absent
    and, in the layout A-V, its key people can be formatted (no entry
    of the list is null or undefined, and what is joined to a text
    converts to a text).  The appended row has exactly the column count
    of the layout (12 or 22); the cell of every text field that is
    absent from the record is the empty text, and none of these cells is
    null or undefined.  The cell of established_year is the one
    exception: with that field absent it holds founded_year when
    founded_year is present and not empty, and the empty text
    otherwise. *)
Theorem save_appends_one_full_row (schema : SchemaVersion) (sv : Services)
    (o : gmap string value) (p1 p2 : value) (w : World) :
  (∀ url1,
     store_reachable sv (sheet_id schema) →
     blob_stored sv "photo1_" p1 url1 →
     is_ok (given_and_not_blank "photo2Base64" p2) = true →
     record_typed schema o = true →
     ∃ r w', saveData_of schema sv (VObj o) p1 p2 w = (Ok r, w'))
  ∧ (∀ r w',
       saveData_of schema sv (VObj o) p1 p2 w = (Ok r, w') →
       ∃ row,
         sheet_rows w' = (sheet_rows w ++ [row])%list
         ∧ length row = column_count schema
         ∧ (∀ k i, (k, i) ∈ text_columns schema → o !! k = None →
                   row !! i = Some (VStr ""))
         ∧ (∀ k i, (k, i) ∈ text_columns schema → defined_cell (row !! i))
         ∧ (schema = Extended →
            defined_cell (row !! 14%nat)
            ∧ (o !! "established_year" = None →
               row !! 14%nat
               = Some (if truthy (field o "founded_year")
                       then field o "founded_year" else VStr "")))).
Proof.
  split.
  - intros url1 Hreach Hphoto1 Hphoto2 Htyped.
    destruct (save_blob_stored sv _ _ _ w Hphoto1) as (w1 & Hrun1 & _).
    destruct (save_image2_total sv p2 (now sv) w1 Hphoto2)
      as (url2 & w2 & Hrun2 & _).
    destruct (built_row_typed sv schema o url1 url2 Htyped) as [row Hrow].
    destruct (saveData_of_completes sv schema _ _ _ _ _ _ _ _ _
                Hreach Hrun1 Hrun2 Hrow) as [r Hsave].
    eauto.
  - intros r w' (url1 & url2 & row & Hrow & Hrows)%saveData_of_inv.
    exists row. split; [done|].
    destruct (built_row_record sv schema o url1 url2 row Hrow)
      as (Hlen & _ & _ & _ & (link & Hlink & Hcell) & Htext).
    split; [done|]. repeat split.
    + intros k i Hin Habsent.
      destruct (decide (k = "validation_source")) as [->|Hk].
      * assert (i = validation_column schema) as ->.
        { destruct schema; simpl in Hin.
          - unfold legacy_text_columns in Hin. each_column Hin.
          - unfold extended_text_columns in Hin. each_column Hin. }
        by rewrite Hcell, (hyperlink_logic_absent o link Habsent Hlink).
      * rewrite (Htext k i Hin Hk). by rewrite or_empty_absent.
    + intros k i Hin.
      destruct (decide (k = "validation_source")) as [->|Hk].
      * assert (i = validation_column schema) as ->.
        { destruct schema; simpl in Hin.
          - unfold legacy_text_columns in Hin. each_column Hin.
          - unfold extended_text_columns in Hin. each_column Hin. }
        exists link. split; [done|]. by apply (hyperlink_logic_defined o).
      * eexists. split; [by apply Htext|]. apply or_empty_defined.
    + subst schema.
      destruct (built_row_extended sv o url1 url2 row Hrow) as [_ ->].
      eexists. split; [done|]. apply or_empty_defined.
    + subst schema. intros Habsent.
      destruct (built_row_extended sv o url1 url2 row Hrow) as [_ ->].
      unfold field at 1. rewrite Habsent. simpl. unfold js_or at 2. simpl.
      unfold js_or. by destruct (truthy (field o "founded_year")).
Qed.

(** An instance of C1 for each layout: the sample services store a
    first photograph; the save of the Acme record by the script of the
    columns A-L appends one row of twelve cells, and the save of the
    record of the founders by the script of the columns A-V appends one
    row of twenty-two cells. *)
Lemma save_appends_one_full_row_witness :
  (∃ row,
     sheet_rows (Final.saveData sample_services (VObj acme_record)
                   (VStr "aGk=") VUndefined empty_world).2 = [row]
     ∧ length row = 12%nat)
  ∧ (∃ row,
       sheet_rows (Full.saveData sample_services (VObj founders_record)
                     (VStr "aGk=") VUndefined empty_world).2 = [row]
       ∧ length row = 22%nat).
Proof.
  split.
  - destruct (save_appends_one_full_row Legacy sample_services acme_record
                (VStr "aGk=") VUndefined empty_world) as [Hruns Hrow].
    destruct (Hruns "https://drive.example/photo1_1700000000000.png")
      as (r & w' & Hsave).
    + repeat split; reflexivity.
    + exists []. split; reflexivity.
    + reflexivity.
    + reflexivity.
    + destruct (Hrow r w' Hsave) as (row & Hrows & Hlen & _).
      exists row. simpl in Hsave. rewrite Hsave. simpl. split; assumption.
  - destruct (save_appends_one_full_row Extended sample_services
                founders_record (VStr "aGk=") VUndefined empty_world)
      as [Hruns Hrow].
    destruct (Hruns "https://drive.example/photo1_1700000000000.png")
      as (r & w' & Hsave).
    + repeat split; reflexivity.
    + exists []. split; reflexivity.
    + reflexivity.
    + reflexivity.
    + destruct (Hrow r w' Hsave) as (row & Hrows & Hlen & _).
      exists row. simpl in Hsave. rewrite Hsave. simpl. split; assumption.
Defined.

(** The counterexample to C1 as stated: the record has no
    established_year, and the cell of that column in the appended row
    is not the empty text. *)
Lemma absent_established_year_cell_not_empty :
  founded_record !! "established_year" = None
  ∧ ∃ r w' row,
      Full.saveData sample_services (VObj founded_record)
        (VStr "aGk=") VUndefined empty_world = (Ok r, w')
      ∧ sheet_rows w' = [row]
      ∧ row !! 14%nat = Some (VStr "1999")
      ∧ row !! 14%nat ≠ Some (VStr "").
Proof.
  split; [reflexivity|].
  eexists _, _, _. split; [vm_compute; reflexivity|].
  split; [reflexivity|]. split; [reflexivity|]. discriminate.
Qed.

(** C3.  For either script, with the store reachable: when decoding or
    storing the first photograph fails, [saveData] throws the error of
    image 1 (the attachment error) and leaves the world as it was, so no
    row is appended; when the first photograph is stored and decoding or
    storing the second one fails, the save of a typed record (source and
    company texts or absent and, in the layout A-V, key people that can
    be formatted) still returns, the row is appended, and its photo2
    cell holds the diagnostic text made from the message of the
    failure. *)
Theorem photo_failures (schema : SchemaVersion) (sv : Services)
    (p1 : value) (w : World) :
  (∀ d p2 msg,
     store_reachable sv (sheet_id schema) →
     blob_fails sv "photo1_" p1 msg →
     saveData_of schema sv d p1 p2 w
     = (Throw ("Failed to save Image 1: " ++ msg), w))
  ∧ (∀ o s url1 msg,
       store_reachable sv (sheet_id schema) →
       blob_stored sv "photo1_" p1 url1 →
       trims_to_empty s = false →
       blob_fails sv "photo2_" (VStr s) msg →
       record_typed schema o = true →
       ∃ r w' row,
         saveData_of schema sv (VObj o) p1 (VStr s) w = (Ok r, w')
         ∧ sheet_rows w' = (sheet_rows w ++ [row])%list
         ∧ row !! 2%nat = Some (VStr ("Error saving image 2: " ++ msg))).
Proof.
  split.
  - intros d p2 msg. apply saveData_of_photo1_fails.
  - intros o s url1 msg Hreach Hphoto1 Hblank Hphoto2 Htyped.
    destruct (save_blob_stored sv _ _ _ w Hphoto1) as (w1 & Hrun1 & Hrows1).
    pose proof (save_image2_absorbs sv s msg w1 Hblank Hphoto2) as Hrun2.
    destruct (built_row_typed sv schema o url1
                ("Error saving image 2: " ++ msg) Htyped) as [row Hrow].
    destruct (saveData_of_completes sv schema _ _ _ _ _ _ _ _ _
                Hreach Hrun1 Hrun2 Hrow) as [r Hsave].
    exists r, (mkWorld (sheet_rows w1 ++ [row]) (drive_files w1)), row.
    split; [done|]. simpl. rewrite Hrows1. split; [done|].
    by destruct (built_row_record sv schema o _ _ row Hrow)
      as (_ & _ & Hcell & _).
Qed.

(** An instance of C3 with the sample services: a first photograph that
    is not base64 stops the save with nothing appended, and a second
    one that is not base64 leaves its diagnostic in the row, in the
    script of the columns A-L and in the script of the columns A-V. *)
Lemma photo_failures_witness :
  Final.saveData sample_services (VObj acme_record) (VStr "!!") VUndefined
    empty_world
  = (Throw "Failed to save Image 1: Could not decode string.", empty_world)
  ∧ (∃ r w' row,
       Final.saveData sample_services (VObj acme_record) (VStr "aGk=")
         (VStr "!!") empty_world = (Ok r, w')
       ∧ sheet_rows w' = [row]
       ∧ row !! 2%nat
         = Some (VStr "Error saving image 2: Could not decode string."))
  ∧ (∃ r w' row,
       Full.saveData sample_services (VObj jo_record) (VStr "aGk=")
         (VStr "!!") empty_world = (Ok r, w')
       ∧ sheet_rows w' = [row]
       ∧ row !! 2%nat
         = Some (VStr "Error saving image 2: Could not decode string.")).
Proof.
  split; [|split].
  - apply (proj1 (photo_failures Legacy sample_services (VStr "!!")
                    empty_world)).
    + repeat split; reflexivity.
    + left. reflexivity.
  - apply (proj2 (photo_failures Legacy sample_services (VStr "aGk=")
                    empty_world) acme_record "!!"
             "https://drive.example/photo1_1700000000000.png").
    + repeat split; reflexivity.
    + exists []. split; reflexivity.
    + reflexivity.
    + left. reflexivity.
    + reflexivity.
  - apply (proj2 (photo_failures Extended sample_services (VStr "aGk=")
                    empty_world) jo_record "!!"
             "https://drive.example/photo1_1700000000000.png").
    + repeat split; reflexivity.
    + exists []. split; reflexivity.
    + reflexivity.
    + left. reflexivity.
    + reflexivity.
Defined.






(** C10.  In the layout A-V the cell of established_year holds the
    field established_year when it is present and not empty; when it is
    absent or empty and founded_year is present and not empty, the cell
    holds founded_year; the cell is the empty text exactly when both are
    absent or empty. *)
Theorem established_year_falls_back (sv : Services) (o : gmap string value)
    (p1 p2 : value) (w w' : World) (r : value) :
  Full.saveData sv (VObj o) p1 p2 w = (Ok r, w') →
  ∃ row cell,
    sheet_rows w' = (sheet_rows w ++ [row])%list
    ∧ row !! 14%nat = Some cell
    ∧ (truthy (field o "established_year") = true →
       cell = field o "established_year")
    ∧ (truthy (field o "established_year") = false →
       truthy (field o "founded_year") = true →
       cell = field o "founded_year")
    ∧ (cell = VStr ""
       ↔ truthy (field o "established_year") = false
         ∧ truthy (field o "founded_year") = false).
Proof.
  intros (url1 & url2 & row & Hrow & Hrows)%(saveData_of_inv sv Extended).
  destruct (built_row_extended sv o url1 url2 row Hrow) as [_ Hcell].
  eexists row, _. split; [done|]. split; [exact Hcell|].
  unfold js_or.
  destruct (truthy (field o "established_year")) eqn:Hest.
  - rewrite Hest. split; [done|]. split; [done|]. split.
    + intros Heq. by rewrite Heq in Hest.
    + by intros [? _].
  - destruct (truthy (field o "founded_year")) eqn:Hfound.
    + split; [done|]. split; [done|]. split.
      * intros Heq. by rewrite Heq in Hfound.
      * by intros [_ ?].
    + done.
Qed.

(** An instance of C10: the record that only has founded_year gets it
    in the cell of established_year. *)
Lemma established_year_falls_back_witness :
  ∃ row,
    sheet_rows (Full.saveData sample_services (VObj founded_record)
                  (VStr "aGk=") VUndefined empty_world).2 = [row]
    ∧ row !! 14%nat = Some (VStr "1999").
Proof.
  destruct (established_year_falls_back sample_services founded_record
              (VStr "aGk=") VUndefined empty_world
              (Full.saveData sample_services (VObj founded_record)
                 (VStr "aGk=") VUndefined empty_world).2
              (VObj {[ "message" := VStr "✅ Data saved successfully!" ]}))
    as (row & cell & Hrows & Hcell & _ & Hfound & _).
  - vm_compute. reflexivity.
  - exists row. split; [exact Hrows|]. rewrite Hcell. f_equal.
    apply Hfound; reflexivity.
Defined.

Lemma key_people_written_intro sv o s :
  Full.keyPeopleString sv (VObj o) = Ok s → key_people_written sv o s.
Proof.
  intros Hpeople. split; [done|].
  intros p1 p2 w r w'
    (url1 & url2 & row & Hrow & Hrows)%(saveData_of_inv sv Extended).
  destruct (built_row_extended sv o url1 url2 row Hrow)
    as [(people & Hpeople' & Hcell) _].
  exists row. split; [done|]. rewrite Hcell.
  rewrite Hpeople in Hpeople'. by injection Hpeople' as <-.
Qed.

(** C7.  In the layout A-V, when the record carries a list of key
    people (objects whose name and role are texts and whose contact is a
    text or absent), formatting the key people returns the entries in
    list order, each rendered as name, role in parentheses, and the
    contact after a dash only when the contact is a non-empty text other
    than Not Found, joined by newlines; when the record carries no list
    and founder, ceo and owner are texts or absent, it returns the
    non-empty ones of founder, ceo and owner, in that order, each after
    its label, joined by newlines.  That text is the key-people cell of
    the row that a save of the record appends. *)
Theorem key_people_cell (sv : Services) (o : gmap string value) :
  (∀ vs ps,
     o !! "key_people" = Some (VArr vs) → Forall2 is_person vs ps →
     key_people_written sv o (join newline (map render_person ps)))
  ∧ (∀ founder ceo owner,
       (∀ vs, o !! "key_people" ≠ Some (VArr vs)) →
       field_text o "founder" founder →
       field_text o "ceo" ceo →
       field_text o "owner" owner →
       key_people_written sv o (join newline (role_lines founder ceo owner))).
Proof.
  split.
  - intros vs ps Hlist Hps. apply key_people_written_intro.
    apply (keyPeopleString_list sv o vs ps Hlist Hps).
  - intros founder ceo owner Hnone Hfounder Hceo Howner.
    apply key_people_written_intro.
    apply (keyPeopleString_fallback sv o _ _ _ Hnone Hfounder Hceo Howner).
Qed.

(** The scenarios of C7.  The single key person Jo, CEO, whose contact
    is Not Found, gives the cell Jo (CEO) with no contact part; the
    record without a list, with a founder and an owner and no ceo, gives
    the two lines of the founder and of the owner. *)
Lemma key_people_cell_witness :
  (∃ row,
     sheet_rows (Full.saveData sample_services (VObj jo_record)
                   (VStr "aGk=") VUndefined empty_world).2 = [row]
     ∧ row !! 17%nat = Some (VStr "Jo (CEO)"))
  ∧ Full.keyPeopleString sample_services (VObj founders_record)
    = Ok ("Founder: Ann" ++ newline ++ "Owner: Bo")
  ∧ (∃ row,
       sheet_rows (Full.saveData sample_services (VObj founders_record)
                     (VStr "aGk=") VUndefined empty_world).2 = [row]
       ∧ row !! 17%nat
         = Some (VStr ("Founder: Ann" ++ newline ++ "Owner: Bo"))).
Proof.
  assert (Forall2 is_person
            [ VObj (<[ "name" := VStr "Jo" ]>
                      (<[ "role" := VStr "CEO" ]>
                         {[ "contact" := VStr "Not Found" ]})) ] [jo])
    as Hjo.
  { constructor; [|constructor].
    eexists. split; [reflexivity|]. repeat split; reflexivity. }
  assert (key_people_written sample_services founders_record
            ("Founder: Ann" ++ newline ++ "Owner: Bo")) as [Hcell Hsaved].
  { apply (proj2 (key_people_cell sample_services founders_record)
             "Ann" "" "Bo").
    - intros vs. discriminate.
    - left. reflexivity.
    - right. split; reflexivity.
    - left. reflexivity. }
  split; [|split].
  - destruct (proj1 (key_people_cell sample_services jo_record)
                _ [jo] eq_refl Hjo) as [_ Hsaved'].
    apply (Hsaved' (VStr "aGk=") VUndefined empty_world
             (VObj {[ "message" := VStr "✅ Data saved successfully!" ]})).
    vm_compute. reflexivity.
  - exact Hcell.
  - apply (Hsaved (VStr "aGk=") VUndefined empty_world
             (VObj {[ "message" := VStr "✅ Data saved successfully!" ]})).
    vm_compute. reflexivity.
Defined.

(** ** The layout of the columns A-V *)

(** C8, as amended.  The row of 22 cells holds the twelve legacy cells
    in their legacy order (they are the row the twelve-column script
    builds from the same record and references) and the ten new cells in
    the order industry, title, website, social_media, services,
    company_size, established_year, registration_status, trust_score,
    key_people; the new cells are not one group but stand between the
    legacy ones, at the positions 4, 6, 9, 10 and 12 to 17: industry
    after company, title after name, website and social_media after
    email, and the other six between address and is_validated. *)
Theorem extended_row_layout (sv : Services) (o : gmap string value)
    (p1 p2 : value) (w w' : World) (r : value) :
  Full.saveData sv (VObj o) p1 p2 w = (Ok r, w') →
  ∃ row url1 url2 legacy people,
    sheet_rows w' = (sheet_rows w ++ [row])%list
    ∧ length row = 22%nat
    ∧ built_row Legacy sv url1 url2 (VObj o) = Ok legacy
    ∧ Full.keyPeopleString sv (VObj o) = Ok people
    ∧ cells_not_at added_positions row = legacy
    ∧ cells_at added_positions row
      = [ js_or (field o "industry") (VStr "");
          js_or (field o "title") (VStr "");
          js_or (field o "website") (VStr "");
          js_or (field o "social_media") (VStr "");
          js_or (field o "services") (VStr "");
          js_or (field o "company_size") (VStr "");
          js_or (js_or (field o "established_year") (field o "founded_year"))
                (VStr "");
          js_or (field o "registration_status") (VStr "");
          js_or (field o "trust_score") (VStr "");
          VStr people ].
Proof.
  intros (url1 & url2 & row & Hrow & Hrows)%(saveData_of_inv sv Extended).
  unfold built_row in *.
  destruct (hyperlink_logic (VObj o)) as [link|msg]; [|done].
  simpl in Hrow.
  destruct (Full.keyPeopleString sv (VObj o)) as [people|msg]; [|done].
  injection Hrow as <-.
  eexists _, url1, url2, _, people. split; [done|].
  split; [done|]. split; [done|]. split; [done|]. split; reflexivity.
Qed.

(** An instance of C8: the row for the record with a name and an
    industry has the industry in the fifth cell and the name in the
    sixth. *)
Lemma extended_row_layout_witness :
  ∃ row,
    sheet_rows (Full.saveData sample_services (VObj named_record)
                  (VStr "aGk=") VUndefined empty_world).2 = [row]
    ∧ length row = 22%nat
    ∧ take 2 (cells_at added_positions row) = [VStr "I"; VStr ""].
Proof.
  destruct (extended_row_layout sample_services named_record
              (VStr "aGk=") VUndefined empty_world
              (Full.saveData sample_services (VObj named_record)
                 (VStr "aGk=") VUndefined empty_world).2
              (VObj {[ "message" := VStr "✅ Data saved successfully!" ]}))
    as (row & url1 & url2 & legacy & people & Hrows & Hlen & _ & _ & _ & Hnew).
  - vm_compute. reflexivity.
  - exists row. split; [exact Hrows|]. split; [exact Hlen|].
    rewrite Hnew. reflexivity.
Defined.

(** The counterexample to C8 as stated: for the record with a name and
    an industry, the row that is appended is not the twelve legacy cells
    with the ten new cells inserted as one group before the trailing
    four; its fifth cell is the industry, where the grouped layout has
    the name. *)
Lemma new_columns_are_not_one_group :
  ∃ r w' row legacy,
    Full.saveData sample_services (VObj named_record) (VStr "aGk=")
      VUndefined empty_world = (Ok r, w')
    ∧ sheet_rows w' = [row]
    ∧ built_row Legacy sample_services
        "https://drive.example/photo1_1700000000000.png" ""
        (VObj named_record) = Ok legacy
    ∧ row !! 4%nat = Some (VStr "I")
    ∧ grouped_layout legacy (cells_at added_positions row) !! 4%nat
      = Some (VStr "N")
    ∧ row ≠ grouped_layout legacy (cells_at added_positions row).
Proof.
  eexists _, _, _, _. split; [vm_compute; reflexivity|].
  split; [reflexivity|]. split; [vm_compute; reflexivity|].
  split; [reflexivity|]. split; [reflexivity|].
  intros Heq. apply (f_equal (λ l, l !! 4%nat)) in Heq.
  vm_compute in Heq. discriminate.
Qed.

(** ** The escaping of double quotes *)

Lemma count_quotes_double s : count_quotes (double_quotes s) = 2 * count_quotes s.
Proof.
  induction s as [|c s IH]; [done|]. simpl.
  destruct (Ascii.eqb c dquote) eqn:Hc; simpl; [|by rewrite Hc].
  rewrite IH. lia.
Qed.

Lemma halve_quotes_double s : halve_quotes (double_quotes s) = s.
Proof.
  induction s as [|c s IH]; [done|]. simpl.
  destruct (Ascii.eqb_spec c dquote) as [->|Hc]; simpl.
  - by rewrite IH.
  - destruct (Ascii.eqb_spec c dquote); [done|]. by rewrite IH.
Qed.

(** C6, as amended.  Building the validation cell is not idempotent
    under re-escaping: for a validated record with a source, the
    formula embeds the source and the label with every double quote
    doubled, whether or not it already stands in a pair; the number of
    quotes is doubled, halving the pairs gives the input back, and a
    text that holds a quote is changed again by a second escaping. *)
Theorem quotes_are_doubled_every_time (o : gmap string value)
    (source company : string) :
  field_text o "validation_source" source →
  field_text o "company" company →
  truthy (field o "is_validated") = true →
  source ≠ "" →
  hyperlink_logic (VObj o)
  = Ok (VStr (hyperlink (double_quotes source)
                        (double_quotes (link_label company))))
  ∧ count_quotes (double_quotes source) = 2 * count_quotes source
  ∧ count_quotes (double_quotes (link_label company))
    = 2 * count_quotes (link_label company)
  ∧ halve_quotes (double_quotes source) = source
  ∧ halve_quotes (double_quotes (link_label company)) = link_label company
  ∧ (0 < count_quotes source →
     double_quotes (double_quotes source) ≠ double_quotes source).
Proof.
  intros Hsource Hcompany Hflag Hne.
  split.
  { rewrite (hyperlink_logic_record o source company Hsource Hcompany).
    unfold validation_cell. rewrite Hflag.
    by destruct (String.eqb_spec source ""). }
  split; [apply count_quotes_double|]. split; [apply count_quotes_double|].
  split; [apply halve_quotes_double|]. split; [apply halve_quotes_double|].
  intros Hpos Heq. apply (f_equal count_quotes) in Heq.
  rewrite !count_quotes_double in Heq. lia.
Qed.

(** An instance of C6 as amended: the source that holds one escaped
    quote is embedded with four quote characters. *)
Lemma quotes_are_doubled_every_time_witness :
  hyperlink_logic (VObj escaped_record)
  = Ok (VStr (hyperlink ("a" ++ q ++ q ++ q ++ q ++ "b") "Source")).
Proof.
  apply (quotes_are_doubled_every_time escaped_record escaped_url "").
  - left. reflexivity.
  - right. split; reflexivity.
  - reflexivity.
  - discriminate.
Defined.

(** The counterexample to C6 as stated: the source already holds an
    escaped quote (two quote characters), and the cell that is built
    does not embed it as it is: it embeds it escaped a second time. *)
Lemma escaped_url_is_escaped_again :
  escaped_url = double_quotes ("a" ++ q ++ "b")
  ∧ hyperlink_logic (VObj escaped_record)
    ≠ Ok (VStr (hyperlink escaped_url "Source"))
  ∧ hyperlink_logic (VObj escaped_record)
    = Ok (VStr (hyperlink (double_quotes escaped_url) "Source"))
  ∧ double_quotes escaped_url ≠ escaped_url.
Proof.
  split; [reflexivity|]. split; [vm_compute; discriminate|].
  split; [reflexivity|]. vm_compute. discriminate.
Qed.

(** ** Reading the sheet *)

Section ReadFacts.

Variable sv : Services.

Lemma set_prop_other o k k' v : k ≠ k' → set_prop o k v !! k' = o !! k'.
Proof.
  intros Hne. unfold set_prop. destruct (String.eqb k "__proto__"); [done|].
  by rewrite lookup_insert_ne.
Qed.

Lemma set_prop_same o k v :
  k ≠ "__proto__" → set_prop o k v !! k = Some v.
Proof.
  intros Hne. unfold set_prop.
  destruct (String.eqb_spec k "__proto__"); [done|].
  by rewrite lookup_insert_eq.
Qed.

Lemma set_prop_keys o k v k' :
  is_Some (set_prop o k v !! k') → is_Some (o !! k') ∨ k' = k.
Proof.
  destruct (decide (k = k')) as [->|Hne]; [by right|].
  rewrite set_prop_other; auto.
Qed.

(** The cell the loop writes for column [j] of a row of the range. *)
Lemma reconciled_cell (r : list cell) j c :
  r !! j = Some c →
  js_or (js_index VStr (map cell_formula r) j)
        (js_index id (map cell_value r) j)
  = reconcile c.
Proof.
  intros Hc. unfold js_index, reconcile, js_or.
  rewrite !list_lookup_fmap, Hc. simpl.
  by destruct (String.eqb (cell_formula c) "").
Qed.

(** The object that [forEach] fills from column [index] on. *)
Lemma fill_object_spec headers index fs row obj :
  ∃ obj',
    Full.fill_object sv headers index (Some fs) row obj = Ok obj'
    ∧ (∀ k, (∀ h, h ∈ headers → text_of sv h ≠ k) → obj' !! k = obj !! k)
    ∧ (∀ k, is_Some (obj' !! k) →
            is_Some (obj !! k) ∨ ∃ h, h ∈ headers ∧ k = text_of sv h)
    ∧ (∀ j h,
         headers !! j = Some h →
         text_of sv h ≠ "__proto__" →
         (∀ j' h', j < j' → headers !! j' = Some h' →
                   text_of sv h' ≠ text_of sv h) →
         obj' !! text_of sv h
         = Some (js_or (js_index VStr fs (index + j))
                       (js_index id row (index + j)))).
Proof.
  revert index obj.
  induction headers as [|header rest IH]; intros index obj; simpl.
  - exists obj. split; [done|]. split; [done|]. split; [auto|].
    intros j h Hj. by rewrite lookup_nil in Hj.
  - set (v := js_or (js_index VStr fs index) (js_index id row index)).
    destruct (IH (S index) (set_prop obj (text_of sv header) v))
      as (obj' & Hrun & Hkeep & Hkeys & Hcells).
    exists obj'. split; [exact Hrun|]. split; [|split].
    + intros k Hk. rewrite Hkeep.
      * apply set_prop_other. apply Hk. by left.
      * intros h Hh. apply Hk. by right.
    + intros k [Hsome | (h & Hh & ->)]%Hkeys.
      * apply set_prop_keys in Hsome as [Hsome | ->]; [by left|].
        right. exists header. split; [by left|done].
      * right. exists h. split; [by right|done].
    + intros [|j] h Hj Hproto Hlast; simpl in Hj.
      * injection Hj as ->. rewrite Hkeep.
        -- rewrite Nat.add_0_r. by apply set_prop_same.
        -- intros h' [j' Hj']%list_elem_of_lookup.
           apply (Hlast (S j') h'); [lia|done].
      * replace (index + S j) with (S index + j) by lia.
        apply Hcells; [done|done|].
        intros j' h' Hlt Hj'. apply (Hlast (S j') h'); [lia|done].
Qed.

(** The loop over the data rows, for rows that come from the range. *)
Lemma read_rows_spec headers formulas i (rs : list (list cell)) :
  (∀ n r, rs !! n = Some r → formulas !! (i + n) = Some (map cell_formula r)) →
  ∃ objs,
    Full.read_rows sv headers formulas i (map (map cell_value) rs)
    = Ok (map VObj objs)
    ∧ length objs = length rs
    ∧ (∀ n r, rs !! n = Some r →
              ∃ obj, objs !! n = Some obj
                     ∧ Full.fill_object sv headers 0
                         (Some (map cell_formula r)) (map cell_value r) ∅
                       = Ok obj).
Proof.
  revert i. induction rs as [|r rs IH]; intros i Hformulas; simpl.
  - exists []. split; [done|]. split; [done|].
    intros n r Hn. by rewrite lookup_nil in Hn.
  - pose proof (Hformulas 0 r eq_refl) as Hrow.
    rewrite Nat.add_0_r in Hrow. rewrite Hrow.
    destruct (fill_object_spec headers 0 (map cell_formula r)
                (map cell_value r) ∅) as (obj & Hobj & _).
    rewrite Hobj. simpl.
    destruct (IH (S i)) as (objs & Hrun & Hlen & Hrows).
    { intros n r' Hn. replace (S i + n) with (i + S n) by lia.
      by apply Hformulas. }
    rewrite Hrun. simpl. exists (obj :: objs).
    split; [done|]. split; [simpl; by rewrite Hlen|].
    intros [|n] r' Hn; simpl in Hn.
    + injection Hn as <-. by exists obj.
    + by apply Hrows.
Qed.

End ReadFacts.

(** C4.  With the sheet reachable, [getSheetData] returns the empty
    array, and no error, when the data range has fewer than two rows.
    Otherwise it returns one object per data row, in the order of the
    rows; the keys of each object are headers, and for every column the
    property named by the header (the last column of that name, the name
    [__proto__] apart) is the formula text of that very cell when the
    cell has a formula and its computed value when it has none. *)
Theorem getSheetData_reconciles (sv : Services) (w : World) :
  openById sv Full.SHEET_ID = Ok tt →
  getSheetByName sv Full.SHEET_ID SHEET_NAME = true →
  ((length (getDataRange sv (sheet_rows w)) < 2)%nat →
   Full.getSheetData sv w = (Ok (VArr []), w))
  ∧ ((2 ≤ length (getDataRange sv (sheet_rows w)))%nat →
     ∃ objs,
       Full.getSheetData sv w = (Ok (VArr (map VObj objs)), w)
       ∧ length objs = (length (getDataRange sv (sheet_rows w)) - 1)%nat
       ∧ ∀ i headers row,
           getDataRange sv (sheet_rows w) !! 0%nat = Some headers →
           getDataRange sv (sheet_rows w) !! S i = Some row →
           ∃ obj,
             objs !! i = Some obj
             ∧ (∀ k, is_Some (obj !! k) →
                     ∃ h, h ∈ headers ∧ k = text_of sv (cell_value h))
             ∧ (∀ j h c,
                  headers !! j = Some h →
                  row !! j = Some c →
                  text_of sv (cell_value h) ≠ "__proto__" →
                  (∀ j' h', j < j' → headers !! j' = Some h' →
                            text_of sv (cell_value h')
                            ≠ text_of sv (cell_value h)) →
                  obj !! text_of sv (cell_value h) = Some (reconcile c))).
Proof.
  intros Hopen Hname. unfold Full.getSheetData.
  rewrite lift_bind_run, Hopen, Hname, bind_run. unfold lift, Full.sheet_objects.
  rewrite length_map.
  set (grid := getDataRange sv (sheet_rows w)).
  split.
  - intros Hshort. by destruct (Nat.ltb_spec (length grid) 2); [|lia].
  - intros Hlong. destruct (Nat.ltb_spec (length grid) 2); [lia|].
    destruct grid as [|headers rs] eqn:Hgrid; [simpl in Hlong; lia|].
    simpl map.
    destruct (read_rows_spec sv (map cell_value headers)
                (map cell_formula headers :: map (map cell_formula) rs) 1 rs)
      as (objs & Hrun & Hlen & Hrows).
    { intros n r Hn. simpl. by rewrite list_lookup_fmap, Hn. }
    rewrite Hrun. simpl. exists objs. split; [done|].
    split; [simpl; lia|].
    intros i headers' row [= <-] Hrow. simpl in Hrow.
    destruct (Hrows i row Hrow) as (obj & Hobj & Hfill).
    exists obj. split; [done|].
    destruct (fill_object_spec sv (map cell_value headers) 0
                (map cell_formula row) (map cell_value row) ∅)
      as (obj' & Hfill' & _ & Hkeys & Hcells).
    rewrite Hfill in Hfill'. injection Hfill' as <-. split.
    + intros k [Hk | (h & Hh & ->)]%Hkeys.
      * rewrite lookup_empty in Hk. by destruct Hk.
      * apply list_elem_of_fmap in Hh as (hc & -> & Hhc). by exists hc.
    + intros j h c Hj Hc Hproto Hlast.
      rewrite (Hcells j (cell_value h)); [| |done|].
      * change (0 + j) with j. by rewrite (reconciled_cell row j c Hc).
      * by rewrite list_lookup_fmap, Hj.
      * intros j' h' Hlt Hj'. rewrite list_lookup_fmap in Hj'.
        destruct (headers !! j') as [hc|] eqn:Hhc; [|done].
        injection Hj' as <-. by apply (Hlast j' hc).
Qed.

(** An instance of C4 on the sample sheet: the formula of the first
    cell of the first data row is kept, next to the plain value of the
    second cell; in the second data row it is the other way round. *)
Lemma getSheetData_reconciles_witness :
  ∃ first second,
    Full.getSheetData sample_services sample_sheet
    = (Ok (VArr [VObj first; VObj second]), sample_sheet)
    ∧ first !! "A" = Some (VStr "=HYPERLINK(1)")
    ∧ first !! "B" = Some (VNum 2)
    ∧ second !! "A" = Some (VStr "x")
    ∧ second !! "B" = Some (VStr "=HYPERLINK(2)").
Proof.
  destruct (getSheetData_reconciles sample_services sample_sheet
              eq_refl eq_refl) as [_ Hrows].
  destruct Hrows as (objs & Hrun & Hlen & Hcells); [simpl; lia|].
  destruct objs as [|first [|second [|third objs]]]; try discriminate Hlen.
  exists first, second. split; [exact Hrun|].
  destruct (Hcells 0%nat _ _ eq_refl eq_refl) as (o1 & Ho1 & _ & Hfirst).
  destruct (Hcells 1%nat _ _ eq_refl eq_refl) as (o2 & Ho2 & _ & Hsecond).
  injection Ho1 as <-. injection Ho2 as <-.
  split; [|split; [|split]].
  - apply (Hfirst 0%nat _ _ eq_refl eq_refl); [discriminate|].
    intros [|[|j']] h' Hlt Hj'; [lia| |discriminate Hj'].
    injection Hj' as <-. discriminate.
  - apply (Hfirst 1%nat _ _ eq_refl eq_refl); [discriminate|].
    intros [|[|j']] h' Hlt Hj'; [lia|lia|discriminate Hj'].
  - apply (Hsecond 0%nat _ _ eq_refl eq_refl); [discriminate|].
    intros [|[|j']] h' Hlt Hj'; [lia| |discriminate Hj'].
    injection Hj' as <-. discriminate.
  - apply (Hsecond 1%nat _ _ eq_refl eq_refl); [discriminate|].
    intros [|[|j']] h' Hlt Hj'; [lia|lia|discriminate Hj'].
Defined.

(** ** The boundary *)

Lemma success_output_well_formed result :
  well_formed_envelope (payload (success_output result)).
Proof.
  eexists. split; [reflexivity|]. split; [|split].
  - exists true. by rewrite lookup_insert_eq.
  - intros k [v Hk].
    apply lookup_insert_Some in Hk as [[<- _] | [_ Hk]]; [by left|].
    apply lookup_singleton_Some in Hk as [<- _]. right. by left.
  - intros m Hm. rewrite lookup_insert_ne in Hm; [|done].
    by rewrite lookup_singleton_ne in Hm.
Qed.

Lemma failure_output_well_formed msg :
  well_formed_envelope (payload (failure_output msg)).
Proof.
  eexists. split; [reflexivity|]. split; [|split].
  - exists false. by rewrite lookup_insert_eq.
  - intros k [v Hk].
    apply lookup_insert_Some in Hk as [[<- _] | [_ Hk]]; [by left|].
    apply lookup_singleton_Some in Hk as [<- _]. right. by right.
  - intros m Hm. rewrite lookup_insert_ne in Hm; [|done].
    rewrite lookup_singleton_eq in Hm. injection Hm as <-. eauto.
Qed.

(** A handler returns an envelope whatever its body does. *)
Lemma handler_answers body w :
  ∃ out w',
    handler body w = (Ok out, w')
    ∧ well_formed_envelope (payload out)
    ∧ match body w with
      | (Ok result, w1) =>
          w' = w1
          ∧ get_prop (payload out) "success" = Ok (VBool true)
          ∧ get_prop (payload out) "data" = Ok result
          ∧ get_prop (payload out) "message" = Ok VUndefined
      | (Throw msg, w1) =>
          w' = w1
          ∧ get_prop (payload out) "success" = Ok (VBool false)
          ∧ get_prop (payload out) "message"
            = Ok (VStr ("Script Error: " ++ msg))
          ∧ get_prop (payload out) "data" = Ok VUndefined
      end.
Proof.
  unfold handler, try_catch. rewrite bind_run.
  destruct (body w) as [[result|msg] w1].
  - exists (success_output result), w1. split; [done|].
    split; [apply success_output_well_formed|]. split; [done|].
    simpl. rewrite lookup_insert_eq, lookup_insert_ne by done.
    rewrite lookup_singleton_eq, lookup_insert_ne by done.
    by rewrite lookup_singleton_ne.
  - exists (failure_output msg), w1. split; [done|].
    split; [apply failure_output_well_formed|]. split; [done|].
    simpl. rewrite lookup_insert_eq, lookup_insert_ne by done.
    rewrite lookup_singleton_eq, lookup_insert_ne by done.
    by rewrite lookup_singleton_ne.
Qed.

(** C9.  For every request and every state of the world, [doPost] of
    either script returns and does not throw; what it returns is a
    well-formed envelope: the success envelope with the result as data
    when the pipeline returned, and the failure envelope with the
    message of the error when the pipeline threw, whatever threw. *)
Theorem doPost_always_answers (sv : Services) (e : value) (w : World) :
  (∃ out w',
     Final.doPost sv e w = (Ok out, w')
     ∧ well_formed_envelope (payload out)
     ∧ match Final.doPost_result sv e w with
       | (Ok result, w1) =>
           w' = w1
           ∧ get_prop (payload out) "success" = Ok (VBool true)
           ∧ get_prop (payload out) "data" = Ok result
           ∧ get_prop (payload out) "message" = Ok VUndefined
       | (Throw msg, w1) =>
           w' = w1
           ∧ get_prop (payload out) "success" = Ok (VBool false)
           ∧ get_prop (payload out) "message"
             = Ok (VStr ("Script Error: " ++ msg))
           ∧ get_prop (payload out) "data" = Ok VUndefined
       end)
  ∧ (∃ out w',
       Full.doPost sv e w = (Ok out, w')
       ∧ well_formed_envelope (payload out)
       ∧ match Full.doPost_result sv e w with
         | (Ok result, w1) =>
             w' = w1
             ∧ get_prop (payload out) "success" = Ok (VBool true)
             ∧ get_prop (payload out) "data" = Ok result
             ∧ get_prop (payload out) "message" = Ok VUndefined
         | (Throw msg, w1) =>
             w' = w1
             ∧ get_prop (payload out) "success" = Ok (VBool false)
             ∧ get_prop (payload out) "message"
               = Ok (VStr ("Script Error: " ++ msg))
             ∧ get_prop (payload out) "data" = Ok VUndefined
         end).
Proof. split; apply handler_answers. Qed.

(** ** The effect of a computation *)

Lemma world_unchanged w : mkWorld (sheet_rows w ++ []) (drive_files w ++ []) = w.
Proof. destruct w. simpl. by rewrite !app_nil_r. Qed.

Lemma effect_ret {A} (a : A) : effect (mret a) (Ok a) [] [].
Proof. intros w. by rewrite world_unchanged. Qed.

Lemma effect_throw {A} msg : effect (@throw A msg) (Throw msg) [] [].
Proof. intros w. unfold throw. by rewrite world_unchanged. Qed.

Lemma effect_lift {A} (r : outcome A) : effect (lift r) r [] [].
Proof. intros w. unfold lift. by rewrite world_unchanged. Qed.

Lemma effect_bind_ok {A B} (m : M A) (f : A → M B) a res a1 f1 a2 f2 :
  effect m (Ok a) a1 f1 → effect (f a) res a2 f2 →
  effect (m ≫= f) res (a1 ++ a2) (f1 ++ f2).
Proof.
  intros Hm Hf w. rewrite bind_run, Hm, Hf. simpl.
  by rewrite !app_assoc.
Qed.

Lemma effect_bind_throw {A B} (m : M A) (f : A → M B) msg a1 f1 :
  effect m (Throw msg) a1 f1 → effect (m ≫= f) (Throw msg) a1 f1.
Proof. intros Hm w. by rewrite bind_run, Hm. Qed.

Lemma effect_try_ok {A} (body : M A) handler a a1 f1 :
  effect body (Ok a) a1 f1 → effect (try_catch body handler) (Ok a) a1 f1.
Proof. intros Hm w. unfold try_catch. by rewrite Hm. Qed.

Lemma effect_try_throw {A} (body : M A) handler msg res a1 f1 a2 f2 :
  effect body (Throw msg) a1 f1 → effect (handler msg) res a2 f2 →
  effect (try_catch body handler) res (a1 ++ a2) (f1 ++ f2).
Proof.
  intros Hm Hh w. unfold try_catch. rewrite Hm, Hh. simpl.
  by rewrite !app_assoc.
Qed.

Lemma effect_appendRow row : effect (appendRow row) (Ok tt) [row] [].
Proof. intros w. unfold appendRow. simpl. by rewrite app_nil_r. Qed.

Lemma effect_unique {A} (m : M A) res res' a1 a1' f1 f1' :
  effect m res a1 f1 → effect m res' a1' f1' →
  res = res' ∧ a1 = a1' ∧ f1 = f1'.
Proof.
  intros H H'. pose proof (H (mkWorld [] [])) as Hw.
  rewrite H' in Hw. simpl in Hw. by injection Hw as -> -> ->.
Qed.

(** A handler turns the completion of its body into an output and keeps
    its effect. *)
Lemma effect_handler body res a1 f1 :
  effect body res a1 f1 → effect (handler body) (Ok (output_of res)) a1 f1.
Proof.
  intros Hm w. unfold handler, try_catch. rewrite bind_run, Hm.
  by destruct res.
Qed.

Section EffectFacts.

Variable sv : Services.

(** The steps of [saveData] and their effects. *)
Lemma effect_access_sheet id :
  ∃ res, effect (access_sheet sv id) res [] []
         ∧ res = match openById sv id with
                 | Ok _ =>
                     if getSheetByName sv id SHEET_NAME then Ok tt
                     else Throw ("FAILED to access Spreadsheet. Check SHEET_ID or Sheet Name. Details: "
                                 ++ "Sheet with name '" ++ SHEET_NAME
                                 ++ "' not found.")
                 | Throw msg =>
                     Throw ("FAILED to access Spreadsheet. Check SHEET_ID or Sheet Name. Details: "
                            ++ msg)
                 end.
Proof.
  eexists. split; [|reflexivity]. intros w. rewrite world_unchanged.
  unfold access_sheet, try_catch. rewrite lift_bind_run.
  destruct (openById sv id) as [[]|msg]; [|done].
  by destruct (getSheetByName sv id SHEET_NAME).
Qed.

Lemma effect_access_folder :
  ∃ res, effect (access_folder sv) res [] []
         ∧ res = match getFolderById sv FOLDER_ID with
                 | Ok _ => Ok tt
                 | Throw msg =>
                     Throw ("FAILED to access Drive Folder. Check FOLDER_ID. Details: "
                            ++ msg)
                 end.
Proof.
  eexists. split; [|reflexivity]. intros w. rewrite world_unchanged.
  unfold access_folder, try_catch, lift.
  by destruct (getFolderById sv FOLDER_ID) as [[]|msg].
Qed.

Lemma effect_save_blob slot b64 :
  match base64Decode sv b64 with
  | Ok bytes =>
      match createFile sv (slot_blob sv slot bytes) with
      | Ok url =>
          effect (save_blob sv slot b64 (now sv)) (Ok url) []
                 [slot_blob sv slot bytes]
      | Throw msg => effect (save_blob sv slot b64 (now sv)) (Throw msg) [] []
      end
  | Throw msg => effect (save_blob sv slot b64 (now sv)) (Throw msg) [] []
  end.
Proof.
  destruct (base64Decode sv b64) as [bytes|msg] eqn:Hdec.
  - destruct (createFile sv (slot_blob sv slot bytes)) as [url|msg] eqn:Hfile;
      intros w; unfold save_blob; rewrite lift_bind_run, Hdec;
      unfold store_file; fold (slot_blob sv slot bytes); rewrite Hfile.
    + simpl. by rewrite app_nil_r.
    + by rewrite world_unchanged.
  - intros w. unfold save_blob. rewrite lift_bind_run, Hdec.
    by rewrite world_unchanged.
Qed.

End EffectFacts.

(** ** The effect of [saveData] *)

Section SaveEffects.

Variable sv : Services.

Lemma effect_save_image1 p1 :
  ∃ res files, effect (save_image1 sv p1 (now sv)) res [] files.
Proof.
  pose proof (effect_save_blob sv "photo1_" p1) as H.
  destruct (base64Decode sv p1) as [bytes|msg].
  - destruct (createFile sv _) as [url|msg].
    + eexists _, _. by apply effect_try_ok.
    + eexists _, _.
      apply (effect_try_throw _ _ _ _ [] [] [] [] H), effect_throw.
  - eexists _, _.
    apply (effect_try_throw _ _ _ _ [] [] [] [] H), effect_throw.
Qed.

(** Image 2 in each of its four cases. *)
Lemma effect_save_image2_left_out p2 :
  truthy p2 = false ∨ (∃ s, p2 = VStr s ∧ trims_to_empty s = true) →
  effect (save_image2 sv p2 (now sv)) (Ok "") [] [].
Proof.
  intros Hp2 w. rewrite world_unchanged. unfold save_image2.
  rewrite lift_bind_run. unfold given_and_not_blank.
  destruct Hp2 as [-> | (s & -> & Hblank)]; [done|].
  destruct (truthy (VStr s)); [|done]. simpl. by rewrite Hblank.
Qed.

Lemma effect_save_image2_stored s bytes url2 :
  trims_to_empty s = false →
  base64Decode sv (VStr s) = Ok bytes →
  createFile sv (slot_blob sv "photo2_" bytes) = Ok url2 →
  effect (save_image2 sv (VStr s) (now sv)) (Ok url2) []
         [slot_blob sv "photo2_" bytes].
Proof.
  intros Hblank Hdec Hfile w. unfold save_image2.
  rewrite lift_bind_run. unfold given_and_not_blank. simpl.
  destruct (String.eqb_spec s "") as [->|Hne]; [done|]. simpl.
  rewrite Hblank. simpl. unfold try_catch.
  pose proof (effect_save_blob sv "photo2_" (VStr s)) as H.
  rewrite Hdec, Hfile in H. by rewrite H.
Qed.

Lemma effect_save_image2_absorbed s msg :
  trims_to_empty s = false →
  blob_fails sv "photo2_" (VStr s) msg →
  effect (save_image2 sv (VStr s) (now sv))
         (Ok ("Error saving image 2: " ++ msg)) [] [].
Proof.
  intros Hblank Hfail w.
  by rewrite world_unchanged, (save_image2_absorbs sv s msg w Hblank Hfail).
Qed.

Lemma effect_save_image2_no_trim p2 :
  truthy p2 = true → (∀ s, p2 ≠ VStr s) →
  effect (save_image2 sv p2 (now sv))
         (Throw "photo2Base64.trim is not a function") [] [].
Proof.
  intros Htruthy Hstr w. rewrite world_unchanged. unfold save_image2.
  rewrite lift_bind_run. unfold given_and_not_blank. rewrite Htruthy. simpl.
  destruct p2; try done. by destruct (Hstr s).
Qed.

Lemma effect_save_image2 p2 :
  ∃ res files, effect (save_image2 sv p2 (now sv)) res [] files.
Proof.
  destruct (truthy p2) eqn:Htruthy.
  - destruct p2 as [| | | |s| | |];
      try (eexists _, _; by apply effect_save_image2_no_trim).
    destruct (trims_to_empty s) eqn:Hblank.
    + eexists _, _. apply effect_save_image2_left_out. right. eauto.
    + destruct (base64Decode sv (VStr s)) as [bytes|msg] eqn:Hdec.
      * destruct (createFile sv (slot_blob sv "photo2_" bytes))
          as [url|msg] eqn:Hfile.
        -- eexists _, _. by eapply effect_save_image2_stored.
        -- eexists _, _. apply effect_save_image2_absorbed; [done|].
           right. eauto.
      * eexists _, _. apply effect_save_image2_absorbed; [done|]. by left.
  - eexists _, _. apply effect_save_image2_left_out. by left.
Qed.

(** [saveData] once the store is reached and image 1 is stored. *)
Lemma effect_saveData_after_photo1 schema d p1 p2 bytes url1 image2 files2 :
  store_reachable sv (sheet_id schema) →
  base64Decode sv p1 = Ok bytes →
  createFile sv (slot_blob sv "photo1_" bytes) = Ok url1 →
  effect (save_image2 sv p2 (now sv)) image2 [] files2 →
  effect (saveData_of schema sv d p1 p2)
         (save_completion schema sv url1 image2 d).1
         (save_completion schema sv url1 image2 d).2
         (slot_blob sv "photo1_" bytes :: files2).
Proof.
  intros Hreach Hdec Hfile H2 w.
  pose proof (effect_save_blob sv "photo1_" p1) as H1.
  rewrite Hdec, Hfile in H1. specialize (H1 w).
  unfold save_completion, built_row.
  destruct schema; simpl.
  - rewrite (Final_saveData_run sv d p1 p2 w url1 _ Hreach H1), H2.
    destruct image2 as [url2|msg]; simpl.
    + destruct (hyperlink_logic d ≫= _) as [row|msg]; simpl;
        by rewrite !app_nil_r, <- ?app_assoc.
    + by rewrite !app_nil_r, <- ?app_assoc.
  - rewrite (Full_saveData_run sv d p1 p2 w url1 _ Hreach H1), H2.
    destruct image2 as [url2|msg]; simpl.
    + destruct (hyperlink_logic d ≫= _) as [row|msg]; simpl;
        by rewrite !app_nil_r, <- ?app_assoc.
    + by rewrite !app_nil_r, <- ?app_assoc.
Qed.

End SaveEffects.

Section SaveFailures.

Variable sv : Services.

(** [saveData] stops at the first service of the store that fails. *)
Lemma saveData_of_no_sheet schema d p1 p2 w msg :
  (access_sheet sv (sheet_id schema) w).1 = Throw msg →
  saveData_of schema sv d p1 p2 w = (Throw msg, w).
Proof.
  intros Hsheet. pose proof (access_sheet_world sv (sheet_id schema) w) as Hw.
  destruct (access_sheet sv (sheet_id schema) w) as [res w0] eqn:Hrun.
  simpl in *. subst.
  destruct schema; simpl in *;
    [unfold Final.saveData | unfold Full.saveData]; by rewrite bind_run, Hrun.
Qed.

Lemma saveData_of_no_folder schema d p1 p2 w msg :
  openById sv (sheet_id schema) = Ok tt →
  getSheetByName sv (sheet_id schema) SHEET_NAME = true →
  getFolderById sv FOLDER_ID = Throw msg →
  saveData_of schema sv d p1 p2 w
  = (Throw ("FAILED to access Drive Folder. Check FOLDER_ID. Details: " ++ msg),
     w).
Proof.
  intros Hopen Hname Hfolder.
  assert (access_folder sv w
          = (Throw ("FAILED to access Drive Folder. Check FOLDER_ID. Details: "
                    ++ msg), w)) as Hrun.
  { unfold access_folder, try_catch, lift. by rewrite Hfolder. }
  destruct schema; simpl in *;
    [unfold Final.saveData | unfold Full.saveData];
    by rewrite bind_run, (access_sheet_ok _ _ _ Hopen Hname), bind_run, Hrun.
Qed.

Lemma access_sheet_result id w :
  (access_sheet sv id w).1
  = match openById sv id with
    | Ok _ =>
        if getSheetByName sv id SHEET_NAME then Ok tt
        else Throw ("FAILED to access Spreadsheet. Check SHEET_ID or Sheet Name. Details: "
                    ++ "Sheet with name '" ++ SHEET_NAME ++ "' not found.")
    | Throw msg =>
        Throw ("FAILED to access Spreadsheet. Check SHEET_ID or Sheet Name. Details: "
               ++ msg)
    end.
Proof.
  destruct (effect_access_sheet sv id) as (res & Hres & ->).
  by rewrite Hres.
Qed.

(** Whatever the services answer, [saveData] has one effect: it appends
    one row when it returns and none when it throws. *)
Lemma saveData_of_effect schema d p1 p2 :
  ∃ res added files,
    effect (saveData_of schema sv d p1 p2) res added files
    ∧ match res with
      | Ok _ => ∃ row, added = [row]
      | Throw _ => added = []
      end.
Proof.
  destruct (openById sv (sheet_id schema)) as [[]|msg] eqn:Hopen.
  2: { eexists (Throw _), [], []. split; [|done]. intros w.
       rewrite world_unchanged. apply saveData_of_no_sheet.
       by rewrite access_sheet_result, Hopen. }
  destruct (getSheetByName sv (sheet_id schema) SHEET_NAME) eqn:Hname.
  2: { eexists (Throw _), [], []. split; [|done]. intros w.
       rewrite world_unchanged. apply saveData_of_no_sheet.
       by rewrite access_sheet_result, Hopen, Hname. }
  destruct (getFolderById sv FOLDER_ID) as [[]|msg] eqn:Hfolder.
  2: { eexists (Throw _), [], []. split; [|done]. intros w.
       rewrite world_unchanged. by apply saveData_of_no_folder. }
  assert (store_reachable sv (sheet_id schema)) as Hreach by done.
  destruct (base64Decode sv p1) as [bytes|msg] eqn:Hdec.
  2: { eexists (Throw _), [], []. split; [|done]. intros w.
       rewrite world_unchanged.
       apply saveData_of_photo1_fails; [done|]. by left. }
  destruct (createFile sv (slot_blob sv "photo1_" bytes)) as [url1|msg]
    eqn:Hfile.
  2: { eexists (Throw _), [], []. split; [|done]. intros w.
       rewrite world_unchanged.
       apply saveData_of_photo1_fails; [done|]. right. eauto. }
  destruct (effect_save_image2 sv p2) as (image2 & files2 & H2).
  eexists _, _, _. split.
  - by eapply effect_saveData_after_photo1.
  - unfold save_completion. destruct image2 as [url2|msg]; [|done].
    destruct (built_row schema sv url1 url2 d); simpl; eauto.
Qed.

End SaveFailures.

(** ** Further properties of [saveData] *)

Lemma built_row_timestamp sv schema o url1 url2 row :
  built_row schema sv url1 url2 (VObj o) = Ok row →
  row !! 0%nat = Some (VDate (now sv)).
Proof.
  unfold built_row.
  destruct (hyperlink_logic (VObj o)) as [link|msg]; [|done]. simpl.
  destruct schema; [by intros [= <-]|].
  destruct (Full.keyPeopleString sv (VObj o)) as [people|msg]; [|done].
  by intros [= <-].
Qed.

(** X1.  For either script, when the store cannot be reached [saveData]
    throws before it touches anything, and its message tells the cause:
    the spreadsheet that does not open (with the message of the
    service), the sheet that is not in it, or the folder. *)
Theorem store_errors_are_told_apart (schema : SchemaVersion) (sv : Services)
    (d p1 p2 : value) (w : World) :
  (∀ msg,
     openById sv (sheet_id schema) = Throw msg →
     saveData_of schema sv d p1 p2 w
     = (Throw ("FAILED to access Spreadsheet. Check SHEET_ID or Sheet Name. Details: "
               ++ msg), w))
  ∧ (openById sv (sheet_id schema) = Ok tt →
     getSheetByName sv (sheet_id schema) SHEET_NAME = false →
     saveData_of schema sv d p1 p2 w
     = (Throw "FAILED to access Spreadsheet. Check SHEET_ID or Sheet Name. Details: Sheet with name 'Ai Card' not found.",
        w))
  ∧ (∀ msg,
       openById sv (sheet_id schema) = Ok tt →
       getSheetByName sv (sheet_id schema) SHEET_NAME = true →
       getFolderById sv FOLDER_ID = Throw msg →
       saveData_of schema sv d p1 p2 w
       = (Throw ("FAILED to access Drive Folder. Check FOLDER_ID. Details: "
                 ++ msg), w)).
Proof.
  split; [|split].
  - intros msg Hopen. apply saveData_of_no_sheet.
    by rewrite access_sheet_result, Hopen.
  - intros Hopen Hname. apply saveData_of_no_sheet.
    by rewrite access_sheet_result, Hopen, Hname.
  - intros msg. apply saveData_of_no_folder.
Qed.

(** An instance of X1 on three stores that fail each in its way. *)
Lemma store_errors_are_told_apart_witness :
  (Final.saveData
     (with_store (Throw "No item with the given ID could be found.") true
        (Ok tt) sample_services)
     (VObj acme_record) (VStr "aGk=") VUndefined empty_world).1
  = Throw "FAILED to access Spreadsheet. Check SHEET_ID or Sheet Name. Details: No item with the given ID could be found."
  ∧ (Final.saveData (with_store (Ok tt) false (Ok tt) sample_services)
       (VObj acme_record) (VStr "aGk=") VUndefined empty_world).1
    = Throw "FAILED to access Spreadsheet. Check SHEET_ID or Sheet Name. Details: Sheet with name 'Ai Card' not found."
  ∧ (Final.saveData
       (with_store (Ok tt) true (Throw "Access denied: DriveApp.")
          sample_services)
       (VObj acme_record) (VStr "aGk=") VUndefined empty_world).1
    = Throw "FAILED to access Drive Folder. Check FOLDER_ID. Details: Access denied: DriveApp.".
Proof.
  split; [|split].
  - exact (f_equal fst
             (proj1 (store_errors_are_told_apart Legacy
                       (with_store
                          (Throw "No item with the given ID could be found.")
                          true (Ok tt) sample_services)
                       (VObj acme_record) (VStr "aGk=") VUndefined
                       empty_world)
                "No item with the given ID could be found." eq_refl)).
  - exact (f_equal fst
             (proj1 (proj2 (store_errors_are_told_apart Legacy
                              (with_store (Ok tt) false (Ok tt)
                                 sample_services)
                              (VObj acme_record) (VStr "aGk=") VUndefined
                              empty_world))
                eq_refl eq_refl)).
  - exact (f_equal fst
             (proj2 (proj2 (store_errors_are_told_apart Legacy
                              (with_store (Ok tt) true
                                 (Throw "Access denied: DriveApp.")
                                 sample_services)
                              (VObj acme_record) (VStr "aGk=") VUndefined
                              empty_world))
                "Access denied: DriveApp." eq_refl eq_refl eq_refl)).
Defined.

(** X2.  For either script, when the second photograph is left out
    (the argument is missing, null, empty or only white space), nothing
    is decoded or stored for it: the save of a typed record (source and
    company texts or absent and, in the layout A-V, key people that can
    be formatted) returns,
    the folder gains the file of the first photograph only, and the row
    that is appended starts with the timestamp and the reference of the
    first photograph and has the empty text in the photo2 cell. *)
Theorem second_photo_left_out (schema : SchemaVersion) (sv : Services)
    (o : gmap string value) (p1 p2 : value) (bytes : list Byte.byte)
    (url1 : string) (w : World) :
  store_reachable sv (sheet_id schema) →
  base64Decode sv p1 = Ok bytes →
  createFile sv (slot_blob sv "photo1_" bytes) = Ok url1 →
  truthy p2 = false ∨ (∃ s, p2 = VStr s ∧ trims_to_empty s = true) →
  record_typed schema o = true →
  ∃ row,
    saveData_of schema sv (VObj o) p1 p2 w
    = (Ok (confirmation schema),
       mkWorld (sheet_rows w ++ [row])
               (drive_files w ++ [slot_blob sv "photo1_" bytes]))
    ∧ row !! 0%nat = Some (VDate (now sv))
    ∧ row !! 1%nat = Some (VStr url1)
    ∧ row !! 2%nat = Some (VStr "").
Proof.
  intros Hreach Hdec Hfile Hp2 Htyped.
  pose proof (effect_saveData_after_photo1 sv schema (VObj o) p1 p2 bytes
                url1 _ _ Hreach Hdec Hfile
                (effect_save_image2_left_out sv p2 Hp2) w) as Hsave.
  unfold save_completion in Hsave.
  destruct (built_row_typed sv schema o url1 "" Htyped) as [row Hrow].
  rewrite Hrow in Hsave. exists row. split; [exact Hsave|].
  destruct (built_row_record sv schema o url1 "" row Hrow)
    as (_ & Hurl1 & Hurl2 & _).
  split; [by apply (built_row_timestamp sv schema o url1 "")|done].
Qed.

(** An instance of X2 in each script: a second photograph made of
    blanks, and none at all. *)
Lemma second_photo_left_out_witness :
  (∃ row,
     Final.saveData sample_services (VObj acme_record) (VStr "aGk=")
       (VStr "   ") empty_world
     = (Ok (confirmation Legacy),
        mkWorld [row] [slot_blob sample_services "photo1_" []])
     ∧ row !! 2%nat = Some (VStr ""))
  ∧ (∃ row,
       Full.saveData sample_services (VObj jo_record) (VStr "aGk=")
         VUndefined empty_world
       = (Ok (confirmation Extended),
          mkWorld [row] [slot_blob sample_services "photo1_" []])
       ∧ row !! 2%nat = Some (VStr "")).
Proof.
  split.
  - destruct (second_photo_left_out Legacy sample_services acme_record
                (VStr "aGk=") (VStr "   ") []
                "https://drive.example/photo1_1700000000000.png" empty_world)
      as (row & Hsave & _ & _ & Hcell).
    + repeat split; reflexivity.
    + reflexivity.
    + reflexivity.
    + right. exists "   ". split; reflexivity.
    + reflexivity.
    + exists row. split; [exact Hsave|exact Hcell].
  - destruct (second_photo_left_out Extended sample_services jo_record
                (VStr "aGk=") VUndefined []
                "https://drive.example/photo1_1700000000000.png" empty_world)
      as (row & Hsave & _ & _ & Hcell).
    + repeat split; reflexivity.
    + reflexivity.
    + reflexivity.
    + left. reflexivity.
    + reflexivity.
    + exists row. split; [exact Hsave|exact Hcell].
Defined.

(** X3.  For either script, a second photograph that is given but is no
    text (a number, [true], an array, an object) makes [saveData] throw
    the TypeError of [trim], outside the [try] that absorbs the
    failures of image 2: no row is appended, and the file of the first
    photograph, already created, stays in the folder. *)
Theorem second_photo_not_text (schema : SchemaVersion) (sv : Services)
    (d p1 p2 : value) (bytes : list Byte.byte) (url1 : string) (w : World) :
  store_reachable sv (sheet_id schema) →
  base64Decode sv p1 = Ok bytes →
  createFile sv (slot_blob sv "photo1_" bytes) = Ok url1 →
  truthy p2 = true →
  (∀ s, p2 ≠ VStr s) →
  saveData_of schema sv d p1 p2 w
  = (Throw "photo2Base64.trim is not a function",
     mkWorld (sheet_rows w) (drive_files w ++ [slot_blob sv "photo1_" bytes])).
Proof.
  intros Hreach Hdec Hfile Htruthy Hstr.
  rewrite (effect_saveData_after_photo1 sv schema d p1 p2 bytes
             url1 _ _ Hreach Hdec Hfile
             (effect_save_image2_no_trim sv p2 Htruthy Hstr) w).
  simpl. by rewrite app_nil_r.
Qed.

(** An instance of X3: the number 7 as second photograph. *)
Lemma second_photo_not_text_witness :
  Final.saveData sample_services (VObj acme_record) (VStr "aGk=") (VNum 7)
    empty_world
  = (Throw "photo2Base64.trim is not a function",
     mkWorld [] [slot_blob sample_services "photo1_" []]).
Proof.
  apply (second_photo_not_text Legacy sample_services (VObj acme_record)
           (VStr "aGk=") (VNum 7) []
           "https://drive.example/photo1_1700000000000.png" empty_world).
  - repeat split; reflexivity.
  - reflexivity.
  - reflexivity.
  - reflexivity.
  - discriminate.
Defined.

(** X4.  For either script, when both photographs are decoded and
    stored, the save of a typed record (source and company texts or
    absent and, in the layout A-V, key people that can be formatted)
    adds exactly two files to the
    folder, of type image/png and named after their slot and the one
    timestamp of the save, and appends the row whose first three cells
    are that timestamp and the two references the folder gave. *)
Theorem both_photos_stored (schema : SchemaVersion) (sv : Services)
    (o : gmap string value) (p1 : value) (s : string)
    (bytes1 bytes2 : list Byte.byte) (url1 url2 : string) (w : World) :
  store_reachable sv (sheet_id schema) →
  base64Decode sv p1 = Ok bytes1 →
  createFile sv (slot_blob sv "photo1_" bytes1) = Ok url1 →
  trims_to_empty s = false →
  base64Decode sv (VStr s) = Ok bytes2 →
  createFile sv (slot_blob sv "photo2_" bytes2) = Ok url2 →
  record_typed schema o = true →
  ∃ row,
    saveData_of schema sv (VObj o) p1 (VStr s) w
    = (Ok (confirmation schema),
       mkWorld (sheet_rows w ++ [row])
               (drive_files w
                ++ [ newBlob bytes1 "image/png"
                       ("photo1_" ++ pretty (now sv) ++ ".png");
                     newBlob bytes2 "image/png"
                       ("photo2_" ++ pretty (now sv) ++ ".png") ]))
    ∧ take 3 row = [VDate (now sv); VStr url1; VStr url2].
Proof.
  intros Hreach Hdec1 Hfile1 Hblank Hdec2 Hfile2 Htyped.
  pose proof (effect_saveData_after_photo1 sv schema (VObj o) p1 (VStr s)
                bytes1 url1 _ _ Hreach Hdec1 Hfile1
                (effect_save_image2_stored sv s bytes2 url2
                   Hblank Hdec2 Hfile2) w) as Hsave.
  unfold save_completion in Hsave.
  destruct (built_row_typed sv schema o url1 url2 Htyped) as [row Hrow].
  rewrite Hrow in Hsave. exists row. split; [exact Hsave|].
  destruct (built_row_record sv schema o url1 url2 row Hrow)
    as (Hlen & Hurl1 & Hurl2 & _).
  pose proof (built_row_timestamp sv schema o url1 url2 row Hrow) as Hts.
  destruct row as [|c0 [|c1 [|c2 row]]]; by simplify_eq/=.
Qed.

(** An instance of X4 with the sample services, in each script. *)
Lemma both_photos_stored_witness :
  (∃ row,
     (Final.saveData sample_services (VObj acme_record) (VStr "aGk=")
        (VStr "aG8=") empty_world).2
     = mkWorld [row]
         [ newBlob [] "image/png" "photo1_1700000000000.png";
           newBlob [] "image/png" "photo2_1700000000000.png" ]
     ∧ take 3 row
       = [ VDate 1700000000000;
           VStr "https://drive.example/photo1_1700000000000.png";
           VStr "https://drive.example/photo2_1700000000000.png" ])
  ∧ (∃ row,
       (Full.saveData sample_services (VObj founders_record) (VStr "aGk=")
          (VStr "aG8=") empty_world).2
       = mkWorld [row]
           [ newBlob [] "image/png" "photo1_1700000000000.png";
             newBlob [] "image/png" "photo2_1700000000000.png" ]
       ∧ take 3 row
         = [ VDate 1700000000000;
             VStr "https://drive.example/photo1_1700000000000.png";
             VStr "https://drive.example/photo2_1700000000000.png" ]).
Proof.
  split.
  - destruct (both_photos_stored Legacy sample_services acme_record
                (VStr "aGk=") "aG8=" [] []
                "https://drive.example/photo1_1700000000000.png"
                "https://drive.example/photo2_1700000000000.png" empty_world)
      as (row & Hsave & Hcells).
    + repeat split; reflexivity.
    + reflexivity.
    + reflexivity.
    + reflexivity.
    + reflexivity.
    + reflexivity.
    + reflexivity.
    + exists row. split; [exact (f_equal snd Hsave)|exact Hcells].
  - destruct (both_photos_stored Extended sample_services founders_record
                (VStr "aGk=") "aG8=" [] []
                "https://drive.example/photo1_1700000000000.png"
                "https://drive.example/photo2_1700000000000.png" empty_world)
      as (row & Hsave & Hcells).
    + repeat split; reflexivity.
    + reflexivity.
    + reflexivity.
    + reflexivity.
    + reflexivity.
    + reflexivity.
    + reflexivity.
    + exists row. split; [exact (f_equal snd Hsave)|exact Hcells].
Defined.



(** X6.  For either script and whatever the services answer, a save
    only ever appends: it leaves the rows that are in the sheet as they
    are, appends exactly one row when it returns and none when it
    throws, and never removes a file from the folder. *)
Theorem save_only_appends (schema : SchemaVersion) (sv : Services)
    (d p1 p2 : value) (w : World) :
  ∃ res w' files,
    saveData_of schema sv d p1 p2 w = (res, w')
    ∧ drive_files w' = (drive_files w ++ files)%list
    ∧ match res with
      | Ok _ => ∃ row, sheet_rows w' = (sheet_rows w ++ [row])%list
      | Throw _ => sheet_rows w' = sheet_rows w
      end.
Proof.
  destruct (saveData_of_effect sv schema d p1 p2)
    as (res & added & files & Hsave & Hshape).
  eexists res, _, files. split; [apply Hsave|]. split; [done|].
  destruct res as [r|msg]; simpl.
  - destruct Hshape as [row ->]. by exists row.
  - rewrite Hshape. apply app_nil_r.
Qed.

(** The texts of the values depend on the built-ins only. *)
Lemma text_of_ext sv sv' :
  same_builtins sv sv' → ∀ v, text_of sv v = text_of sv' v.
Proof.
  intros [Hdate Hnumber]. fix IH 1.
  intros [| |b|n|s|xs|o|ms]; simpl; try reflexivity.
  - unfold number_text. by rewrite Hnumber.
  - f_equal. revert xs. fix IHxs 1. intros [|x xs]; [reflexivity|].
    simpl. rewrite (IHxs xs). f_equal.
    pose proof (IH x) as Hx. destruct x; try reflexivity; exact Hx.
  - by rewrite Hdate.
Qed.

Lemma to_string_ext sv sv' v :
  same_builtins sv sv' → to_string sv v = to_string sv' v.
Proof.
  intros Hsame. unfold to_string. by rewrite (text_of_ext sv sv' Hsame).
Qed.

Lemma map_outcome_ext {A B} (f g : A → outcome B) xs :
  (∀ x, f x = g x) → map_outcome f xs = map_outcome g xs.
Proof.
  intros Hfg. induction xs as [|x xs IH]; [done|]. simpl.
  by rewrite Hfg, IH.
Qed.

Lemma keyPeopleString_ext sv sv' d :
  same_builtins sv sv' →
  Full.keyPeopleString sv d = Full.keyPeopleString sv' d.
Proof.
  intros Hsame.
  assert (∀ p, Full.person_details sv p = Full.person_details sv' p)
    as Hperson.
  { intros p. unfold Full.person_details.
    destruct (get_prop p "name") as [name|msg]; [|done]. simpl.
    rewrite (to_string_ext sv sv' name Hsame).
    destruct (to_string sv' name) as [name'|msg]; [|done]. simpl.
    destruct (get_prop p "role") as [role|msg]; [|done]. simpl.
    rewrite (to_string_ext sv sv' role Hsame).
    destruct (to_string sv' role) as [role'|msg]; [|done]. simpl.
    destruct (get_prop p "contact") as [contact|msg]; [|done]. simpl.
    by rewrite (to_string_ext sv sv' contact Hsame). }
  assert (∀ label k parts,
            Full.push_part sv d label k parts
            = Full.push_part sv' d label k parts) as Hpart.
  { intros label k parts. unfold Full.push_part.
    destruct (get_prop d k) as [v|msg]; [|done]. simpl.
    by rewrite (to_string_ext sv sv' v Hsame). }
  unfold Full.keyPeopleString.
  destruct (get_prop d "key_people") as [people|msg]; [|done]. simpl.
  destruct (if truthy people then as_array people else None) as [vs|].
  - by rewrite (map_outcome_ext _ _ vs Hperson).
  - rewrite Hpart. destruct (Full.push_part sv' d _ _ _) as [p1|msg]; [|done].
    simpl. rewrite Hpart.
    destruct (Full.push_part sv' d _ _ _) as [p2|msg]; [|done].
    simpl. by rewrite Hpart.
Qed.

(** The row of a record at a later call: the cells after the timestamp
    and the two references are the same. *)
Lemma built_row_again schema sv sv' url1 url2 url1' url2' d row :
  same_builtins sv sv' →
  built_row schema sv url1 url2 d = Ok row →
  ∃ row',
    built_row schema sv' url1' url2' d = Ok row'
    ∧ row !! 0%nat = Some (VDate (now sv))
    ∧ row' !! 0%nat = Some (VDate (now sv'))
    ∧ drop 3 row' = drop 3 row.
Proof.
  intros Hsame. unfold built_row.
  destruct (hyperlink_logic d) as [link|msg] eqn:Hlink; [|done]. simpl.
  assert (∀ k, get_prop d k = Ok (member d k)) as Hget.
  { intros k. apply get_prop_member; by intros ->. }
  destruct schema.
  - unfold Final.row_cells, or_empty. rewrite !Hget. simpl.
    intros [= <-]. eexists. by repeat split.
  - rewrite <- (keyPeopleString_ext sv sv' d Hsame).
    destruct (Full.keyPeopleString sv d) as [people|msg]; [|done]. simpl.
    unfold Full.row_cells, Full.established_cell, or_empty.
    rewrite !Hget. simpl.
    intros [= <-]. eexists. by repeat split.
Qed.

(** A save that returned found the second photograph absent or a text,
    and returned the confirmation. *)
Lemma saveData_of_returned sv schema d p1 p2 w r w' :
  saveData_of schema sv d p1 p2 w = (Ok r, w') →
  is_ok (given_and_not_blank "photo2Base64" p2) = true
  ∧ r = confirmation schema.
Proof.
  assert (∀ w1 url2 w2,
            save_image2 sv p2 (now sv) w1 = (Ok url2, w2) →
            is_ok (given_and_not_blank "photo2Base64" p2) = true) as Hgiven.
  { intros w1 url2 w2. unfold save_image2. rewrite lift_bind_run.
    by destruct (given_and_not_blank _ p2). }
  destruct schema; simpl;
    [unfold Final.saveData | unfold Full.saveData];
    rewrite bind_run;
    (destruct (access_sheet sv _ w) as [[[]|msg] w0]; [|done]);
    rewrite bind_run;
    (destruct (access_folder sv w0) as [[[]|msg] w0']; [|done]);
    cbv zeta; rewrite bind_run;
    (destruct (save_image1 sv p1 (now sv) w0') as [[url1|msg] w1]; [|done]);
    rewrite bind_run;
    (destruct (save_image2 sv p2 (now sv) w1) as [[url2|msg] w2] eqn:H2;
       [|done]);
    rewrite lift_bind_run;
    (destruct (hyperlink_logic d) as [link|msg]; [|done]).
  - rewrite lift_bind_run.
    destruct (Final.row_cells _ _ _ _ _) as [row|msg]; [|done].
    intros [= <- <-]. split; [by eapply Hgiven|done].
  - rewrite lift_bind_run.
    destruct (Full.keyPeopleString sv d) as [people|msg]; [|done].
    rewrite lift_bind_run.
    destruct (Full.row_cells _ _ _ _ _ _) as [row|msg]; [|done].
    intros [= <- <-]. split; [by eapply Hgiven|done].
Qed.

(** X7.  For either script there is no check for duplicates.  When a
    save has returned and the same record and photographs are saved
    again, at a later time and with a store that may answer anew, the
    second save returns as soon as the store is reached and the first
    photograph is stored: the record that passed once passes again.  The
    sheet then holds two rows after the rows it had, each with the
    timestamp of its own save, and equal in every cell after the
    timestamp and the two references of the photographs. *)
Theorem saving_twice_appends_twice (schema : SchemaVersion)
    (sv sv' : Services) (d p1 p2 : value) (w w1 : World) (r : value)
    (url1' : string) :
  same_builtins sv sv' →
  saveData_of schema sv d p1 p2 w = (Ok r, w1) →
  store_reachable sv' (sheet_id schema) →
  blob_stored sv' "photo1_" p1 url1' →
  ∃ row row' w2,
    saveData_of schema sv' d p1 p2 w1 = (Ok r, w2)
    ∧ sheet_rows w2 = (sheet_rows w ++ [row; row'])%list
    ∧ row !! 0%nat = Some (VDate (now sv))
    ∧ row' !! 0%nat = Some (VDate (now sv'))
    ∧ row' !! 1%nat = Some (VStr url1')
    ∧ drop 3 row' = drop 3 row.
Proof.
  intros Hsame Hfirst Hreach Hphoto1.
  destruct (saveData_of_returned sv schema d p1 p2 w r w1 Hfirst)
    as [Hgiven ->].
  apply saveData_of_inv in Hfirst as (url1 & url2 & row & Hrow & Hrows).
  destruct (save_blob_stored sv' _ _ _ w1 Hphoto1) as (w1' & Hrun1 & Hrows1).
  destruct (save_image2_total sv' p2 (now sv') w1' Hgiven)
    as (url2' & w2 & Hrun2 & Hrows2).
  destruct (built_row_again schema sv sv' url1 url2 url1' url2' d row
              Hsame Hrow) as (row' & Hrow' & Hts & Hts' & Htail).
  destruct (saveData_of_completes sv' schema _ _ _ _ _ _ _ _ _
              Hreach Hrun1 Hrun2 Hrow') as [r' Hsecond].
  destruct (saveData_of_returned sv' schema d p1 p2 _ _ _ Hsecond)
    as [_ ->].
  exists row, row'. eexists. split; [exact Hsecond|]. simpl.
  rewrite Hrows2, Hrows1, Hrows, <- app_assoc.
  split; [done|]. split; [done|]. split; [done|]. split; [|done].
  clear -Hrow'. unfold built_row in Hrow'.
  destruct (hyperlink_logic d) as [link|msg]; [|done]. simpl in Hrow'.
  destruct schema.
  - unfold Final.row_cells in Hrow'.
    repeat (match type of Hrow' with
            | (?m ≫= _) = _ => destruct m; [|done]
            end; simpl in Hrow').
    by injection Hrow' as <-.
  - destruct (Full.keyPeopleString sv' d) as [people|msg]; [|done].
    simpl in Hrow'. unfold Full.row_cells in Hrow'.
    repeat (match type of Hrow' with
            | (?m ≫= _) = _ => destruct m; [|done]
            end; simpl in Hrow').
    by injection Hrow' as <-.
Qed.

(** An instance of X7: the Acme record saved twice, one millisecond
    apart; the two rows differ in the timestamp and in the reference of
    the photograph, and in nothing else. *)
Lemma saving_twice_appends_twice_witness :
  ∃ row row' w2,
    Final.saveData (at_time 1700000000001 sample_services)
      (VObj acme_record) (VStr "aGk=") VUndefined
      (Final.saveData sample_services (VObj acme_record) (VStr "aGk=")
         VUndefined empty_world).2
    = (Ok (confirmation Legacy), w2)
    ∧ sheet_rows w2 = [row; row']
    ∧ row !! 0%nat = Some (VDate 1700000000000)
    ∧ row' !! 0%nat = Some (VDate 1700000000001)
    ∧ row' !! 1%nat
      = Some (VStr "https://drive.example/photo1_1700000000001.png")
    ∧ drop 3 row' = drop 3 row.
Proof.
  apply (saving_twice_appends_twice Legacy sample_services
           (at_time 1700000000001 sample_services) (VObj acme_record)
           (VStr "aGk=") VUndefined empty_world).
  - split; reflexivity.
  - vm_compute. reflexivity.
  - repeat split; reflexivity.
  - exists []. split; reflexivity.
Defined.

(** [saveData] uses the record only to build the row. *)
Lemma saveData_of_ext sv schema d d' p1 p2 w :
  (∀ url1 url2,
     built_row schema sv url1 url2 d = built_row schema sv url1 url2 d') →
  saveData_of schema sv d p1 p2 w = saveData_of schema sv d' p1 p2 w.
Proof.
  intros Hrow.
  destruct (openById sv (sheet_id schema)) as [[]|msg] eqn:Hopen.
  2: { rewrite !(saveData_of_no_sheet sv schema _ p1 p2 w
                   ("FAILED to access Spreadsheet. Check SHEET_ID or Sheet Name. Details: "
                    ++ msg));
         by rewrite ?access_sheet_result, ?Hopen. }
  destruct (getSheetByName sv (sheet_id schema) SHEET_NAME) eqn:Hname.
  2: { rewrite !(saveData_of_no_sheet sv schema _ p1 p2 w
                   ("FAILED to access Spreadsheet. Check SHEET_ID or Sheet Name. Details: "
                    ++ "Sheet with name '" ++ SHEET_NAME ++ "' not found."));
         by rewrite ?access_sheet_result, ?Hopen, ?Hname. }
  destruct (getFolderById sv FOLDER_ID) as [[]|msg] eqn:Hfolder.
  2: { by rewrite !(saveData_of_no_folder sv schema _ p1 p2 w msg). }
  assert (store_reachable sv (sheet_id schema)) as Hreach by done.
  destruct (base64Decode sv p1) as [bytes|msg] eqn:Hdec.
  2: { rewrite !(saveData_of_photo1_fails sv schema _ p1 p2 w msg);
         try done; by left. }
  destruct (createFile sv (slot_blob sv "photo1_" bytes)) as [url1|msg]
    eqn:Hfile.
  2: { rewrite !(saveData_of_photo1_fails sv schema _ p1 p2 w msg);
         try done; right; eauto. }
  destruct (effect_save_image2 sv p2) as (image2 & files2 & H2).
  rewrite !(effect_saveData_after_photo1 sv schema _ p1 p2 bytes url1
              image2 files2 Hreach Hdec Hfile H2 w).
  unfold save_completion. destruct image2 as [url2|msg]; [|done].
  by rewrite Hrow.
Qed.

Lemma built_row_scalar sv schema d url1 url2 :
  is_scalar_or_array d = true →
  built_row schema sv url1 url2 d = built_row schema sv url1 url2 (VObj ∅).
Proof. by destruct d, schema. Qed.

(** X8.  For either script the shape of the record is not checked: a
    record that is a text, a number, a boolean or an array has none of
    the fields, and its save does what the save of the empty record
    does (it appends the row of the defaults when the photographs are
    stored). *)
Theorem scalar_record_saved_as_empty (schema : SchemaVersion) (sv : Services)
    (d p1 p2 : value) (w : World) :
  is_scalar_or_array d = true →
  saveData_of schema sv d p1 p2 w = saveData_of schema sv (VObj ∅) p1 p2 w.
Proof.
  intros Hd. apply saveData_of_ext. intros url1 url2.
  by apply built_row_scalar.
Qed.

(** An instance of X8: the text hello as a record gives the row of the
    empty record. *)
Lemma scalar_record_saved_as_empty_witness :
  sheet_rows (Final.saveData sample_services (VStr "hello") (VStr "aGk=")
                VUndefined empty_world).2
  = [ [ VDate 1700000000000;
        VStr "https://drive.example/photo1_1700000000000.png"; VStr "";
        VStr ""; VStr ""; VStr ""; VStr ""; VStr ""; VUndefined; VStr "";
        VStr ""; VStr "" ] ].
Proof.
  etransitivity.
  - exact (f_equal (λ x, sheet_rows x.2)
             (scalar_record_saved_as_empty Legacy sample_services
                (VStr "hello") (VStr "aGk=") VUndefined empty_world eq_refl)).
  - reflexivity.
Defined.

Lemma field_insert_other (o : gmap string value) k v f :
  k ≠ f → field (<[k := v]> o) f = field o f.
Proof. intros Hne. unfold field. by rewrite lookup_insert_ne. Qed.

Lemma built_row_unused_field sv schema o k v url1 url2 :
  k ∉ used_fields schema →
  built_row schema sv url1 url2 (VObj (<[k := v]> o))
  = built_row schema sv url1 url2 (VObj o).
Proof.
  intros Hk.
  assert (∀ f, f ∈ used_fields schema → field (<[k := v]> o) f = field o f)
    as Hfield.
  { intros f Hf. apply field_insert_other. by intros ->. }
  unfold built_row, hyperlink_logic, Full.keyPeopleString, Full.push_part,
    Final.row_cells, Full.row_cells, Full.established_cell, or_empty.
  rewrite !get_prop_record.
  destruct schema; simpl in Hfield.
  - by rewrite !Hfield by (unfold legacy_fields; simpl; repeat constructor).
  - by rewrite !Hfield by (unfold legacy_fields; simpl; repeat constructor).
Qed.

(** X9.  For either script, a field of the record that the script does
    not read is ignored and is no error: adding it to the record, with
    any value, changes nothing of what the save does.  For the script of
    the columns A-L this includes every field of the wider layout. *)
Theorem unread_field_is_ignored (schema : SchemaVersion) (sv : Services)
    (o : gmap string value) (k : string) (v p1 p2 : value) (w : World) :
  k ∉ used_fields schema →
  saveData_of schema sv (VObj (<[k := v]> o)) p1 p2 w
  = saveData_of schema sv (VObj o) p1 p2 w.
Proof.
  intros Hk. apply saveData_of_ext. intros url1 url2.
  by apply built_row_unused_field.
Qed.

(** An instance of X9: the script of the columns A-L saves the Acme
    record with an industry as it saves the Acme record. *)
Lemma unread_field_is_ignored_witness :
  Final.saveData sample_services
    (VObj (<[ "industry" := VStr "Tools" ]> acme_record))
    (VStr "aGk=") VUndefined empty_world
  = Final.saveData sample_services (VObj acme_record)
      (VStr "aGk=") VUndefined empty_world.
Proof.
  apply (unread_field_is_ignored Legacy sample_services acme_record
           "industry" (VStr "Tools")).
  unfold used_fields, legacy_fields. intros Hin.
  repeat (apply elem_of_cons in Hin as [Hin|Hin]; [discriminate Hin|]).
  by apply elem_of_nil in Hin.
Defined.



(** ** Further properties of the key people *)

(** The callback of [map] is run on every entry. *)
Lemma map_outcome_inv {A B} (f : A → outcome B) xs ys x :
  map_outcome f xs = Ok ys → x ∈ xs → ∃ y, f x = Ok y.
Proof.
  revert ys. induction xs as [|x0 xs IH]; intros ys Hrun Hin.
  - by apply elem_of_nil in Hin.
  - simpl in Hrun. destruct (f x0) as [y0|msg] eqn:Hx0; [|done].
    simpl in Hrun.
    destruct (map_outcome f xs) as [ys'|msg] eqn:Hrest; [|done].
    apply elem_of_cons in Hin as [->|Hin]; [eauto|].
    by apply (IH ys').
Qed.

(** The first entry that cannot be formatted stops [map]. *)
Lemma map_outcome_stops sv before p after msg :
  Forall (λ v, person_typed v = true) before →
  Full.person_details sv p = Throw msg →
  map_outcome (Full.person_details sv) (before ++ p :: after) = Throw msg.
Proof.
  intros Hbefore Hp. induction Hbefore as [|v before Hv _ IH]; simpl.
  - by rewrite Hp.
  - destruct (person_details_typed sv v Hv) as [s ->]. simpl.
    by rewrite IH.
Qed.

(** X11.  A [null] entry in the list of key people makes the save of
    the columns A-V impossible: whatever the other entries are,
    formatting the key people throws and [saveData] never returns for
    such a record.  When the entries before the first [null] can be
    formatted, the error is the TypeError of reading [name] of null;
    an earlier entry whose name does not convert to a text throws its
    own TypeError first.  The script of the columns A-L, which does not
    read the list, builds its row all the same. *)
Theorem null_key_person_stops_the_save (sv : Services)
    (o : gmap string value) (vs : list value) :
  o !! "key_people" = Some (VArr vs) →
  VNull ∈ vs →
  (∃ msg, Full.keyPeopleString sv (VObj o) = Throw msg)
  ∧ (∀ p1 p2 w r w', Full.saveData sv (VObj o) p1 p2 w ≠ (Ok r, w'))
  ∧ (∀ before after,
       vs = (before ++ VNull :: after)%list →
       Forall (λ v, person_typed v = true) before →
       Full.keyPeopleString sv (VObj o)
       = Throw "Cannot read properties of null (reading 'name')")
  ∧ (∀ po after,
       vs = (VObj po :: after)%list →
       converts (field po "name") = false →
       Full.keyPeopleString sv (VObj o)
       = Throw "Cannot convert object to primitive value")
  ∧ (∀ url1 url2,
       built_row Legacy sv url1 url2 (VObj o)
       = built_row Legacy sv url1 url2 (VObj (delete "key_people" o))).
Proof.
  intros Hlist Hnull.
  assert (Full.keyPeopleString sv (VObj o)
          = (map_outcome (Full.person_details sv) vs
             ≫= λ details, Ok (join newline details))) as Hrun.
  { unfold Full.keyPeopleString. rewrite get_prop_record, bind_ok.
    unfold field. by rewrite Hlist. }
  assert (∃ msg, Full.keyPeopleString sv (VObj o) = Throw msg) as Hthrow.
  { rewrite Hrun.
    destruct (map_outcome (Full.person_details sv) vs) as [ys|msg] eqn:Hmap;
      [|by eexists].
    by destruct (map_outcome_inv _ _ _ _ Hmap Hnull) as [y Hy]. }
  split; [done|]. split; [|split; [|split]].
  - intros p1 p2 w r w' Hsave.
    apply Full_saveData_inv in Hsave
      as (url1 & url2 & link & people & row & _ & Hpeople & _).
    destruct Hthrow as [msg Hthrow]. by rewrite Hthrow in Hpeople.
  - intros before after -> Hbefore. rewrite Hrun.
    by rewrite (map_outcome_stops sv before VNull after
                  "Cannot read properties of null (reading 'name')").
  - intros po after -> Hname. rewrite Hrun. cbn [map_outcome].
    assert (Full.person_details sv (VObj po)
            = Throw "Cannot convert object to primitive value") as ->; [|done].
    unfold Full.person_details. rewrite (get_prop_record po "name"), bind_ok.
    by rewrite (to_string_fails sv _ Hname).
  - intros url1 url2.
    unfold built_row, hyperlink_logic, Final.row_cells, or_empty.
    rewrite !get_prop_record. unfold field.
    by rewrite !lookup_delete_ne.
Qed.

(** An instance of X11: a list with an object and a [null], and a list
    whose first entry has a name that does not convert. *)
Lemma null_key_person_stops_the_save_witness :
  Full.keyPeopleString sample_services (VObj null_people_record)
  = Throw "Cannot read properties of null (reading 'name')"
  ∧ Full.keyPeopleString sample_services (VObj unnamed_people_record)
    = Throw "Cannot convert object to primitive value".
Proof.
  split.
  - apply (proj1 (proj2 (proj2 (null_key_person_stops_the_save
                                  sample_services null_people_record
                                  [VObj ∅; VNull] eq_refl
                                  ltac:(right; left))))
             [VObj ∅] []); [reflexivity|].
    constructor; [reflexivity|constructor].
  - apply (proj1 (proj2 (proj2 (proj2 (null_key_person_stops_the_save
                                         sample_services
                                         unnamed_people_record
                                         [VObj {[ "name" := no_text ]}; VNull]
                                         eq_refl ltac:(right; left)))))
             {[ "name" := no_text ]} [VNull]); reflexivity.
Defined.

(** X12.  As soon as the record carries a list of key people, even an
    empty one, the fields founder, ceo and owner play no part in the
    key-people cell: whatever they hold, the cell is the same, and for
    the empty list it is the empty text. *)
Theorem list_hides_discrete_fields (sv : Services) (o : gmap string value)
    (vs : list value) (k : string) (v : value) :
  o !! "key_people" = Some (VArr vs) →
  k = "founder" ∨ k = "ceo" ∨ k = "owner" →
  Full.keyPeopleString sv (VObj (<[k := v]> o))
  = Full.keyPeopleString sv (VObj o)
  ∧ (vs = [] → Full.keyPeopleString sv (VObj (<[k := v]> o)) = Ok "").
Proof.
  intros Hlist Hk.
  assert (<[k := v]> o !! "key_people" = Some (VArr vs)) as Hlist'.
  { rewrite lookup_insert_ne; [done|]. by destruct Hk as [->|[->| ->]]. }
  unfold Full.keyPeopleString. rewrite !get_prop_record, !bind_ok.
  unfold field. rewrite Hlist', Hlist. simpl. split; [done|]. by intros ->.
Qed.

(** An instance of X12: a founder next to the list that holds Jo. *)
Lemma list_hides_discrete_fields_witness :
  Full.keyPeopleString sample_services
    (VObj (<[ "founder" := VStr "Ann" ]> jo_record))
  = Ok "Jo (CEO)".
Proof.
  rewrite (proj1 (list_hides_discrete_fields sample_services jo_record _
                    "founder" (VStr "Ann") eq_refl (or_introl eq_refl))).
  reflexivity.
Defined.

(** ** Reading the formula back *)

Lemma append_cons c (a b : string) : String c a ++ b = String c (a ++ b).
Proof. reflexivity. Qed.

Lemma append_assoc (a b c : string) : (a ++ b) ++ c = a ++ b ++ c.
Proof.
  induction a as [|x a IH]; [done|]. by rewrite !append_cons, IH.
Qed.

Lemma strip_prefix_app p s : strip_prefix p (p ++ s) = Some s.
Proof.
  induction p as [|a p IH]; [done|].
  rewrite append_cons. simpl. by rewrite Ascii.eqb_refl.
Qed.

Lemma double_quotes_app a b :
  double_quotes (a ++ b) = double_quotes a ++ double_quotes b.
Proof.
  induction a as [|x a IH]; [done|]. rewrite append_cons. simpl.
  destruct (Ascii.eqb x dquote); by rewrite !append_cons, IH.
Qed.

(** An escaped text followed by a closing quote is read back as the
    text. *)
Lemma read_literal_double s rest :
  match rest with
  | String c _ => Ascii.eqb c dquote = false
  | EmptyString => True
  end →
  read_literal (double_quotes s ++ String dquote rest) = Some (s, rest).
Proof.
  intros Hrest. induction s as [|c s IH].
  - change (double_quotes "" ++ String dquote rest) with (String dquote rest).
    simpl. destruct rest as [|d rest]; [done|]. by rewrite Hrest.
  - simpl double_quotes.
    destruct (Ascii.eqb_spec c dquote) as [->|Hc].
    + rewrite !append_cons. simpl. by rewrite IH.
    + rewrite append_cons. simpl.
      destruct (Ascii.eqb_spec c dquote); [done|]. by rewrite IH.
Qed.

Lemma parse_hyperlink_escaped u l :
  parse_hyperlink (hyperlink (double_quotes u) (double_quotes l))
  = Some (u, l ++ " Link").
Proof.
  unfold parse_hyperlink, hyperlink.
  rewrite <- (append_assoc "=HYPERLINK(" q), strip_prefix_app.
  change (q ++ ", " ++ ?x) with (String dquote (", " ++ x)).
  rewrite read_literal_double by done.
  rewrite <- (append_assoc ", " q), strip_prefix_app.
  change (" Link" ++ q ++ ")")
    with (double_quotes " Link" ++ String dquote ")").
  rewrite <- append_assoc, <- double_quotes_app.
  by rewrite read_literal_double.
Qed.

(** X13.  The formula that the hyperlink logic builds for a validated
    record with a source is a well-formed call on two string literals
    whatever quotes the source and the company hold: read back with the
    rule of the spreadsheet (a pair of quotes is one quote, a single
    quote closes the literal) it gives exactly the source and the label
    followed by the word Link. *)
Theorem formula_reads_back (o : gmap string value) (source company : string) :
  field_text o "validation_source" source →
  field_text o "company" company →
  truthy (field o "is_validated") = true →
  source ≠ "" →
  ∃ formula,
    hyperlink_logic (VObj o) = Ok (VStr formula)
    ∧ parse_hyperlink formula = Some (source, link_label company ++ " Link").
Proof.
  intros Hsource Hcompany Hflag Hne.
  rewrite (hyperlink_logic_record o source company Hsource Hcompany).
  unfold validation_cell. rewrite Hflag.
  destruct (String.eqb_spec source ""); [done|]. simpl.
  eexists. split; [reflexivity|]. apply parse_hyperlink_escaped.
Qed.

(** An instance of X13: the formula of the Acme record reads back as
    the source and the name with its two quotes. *)
Lemma formula_reads_back_witness :
  ∃ formula,
    hyperlink_logic (VObj acme_record) = Ok (VStr formula)
    ∧ parse_hyperlink formula = Some ("http://x.test", acme_name ++ " Link").
Proof.
  apply (formula_reads_back acme_record "http://x.test" acme_name).
  - left. reflexivity.
  - left. reflexivity.
  - reflexivity.
  - discriminate.
Defined.

(** ** The handlers *)

Lemma handler_run body w :
  handler body w = (Ok (output_of (body w).1), (body w).2).
Proof.
  unfold handler, try_catch. rewrite bind_run.
  by destruct (body w) as [[result|msg] w1].
Qed.

Lemma invalid_request_request c :
  c ≠ "" → invalid_request (request_of c) = Ok false.
Proof.
  intros Hc. unfold invalid_request, request_of. simpl truthy. simpl negb.
  cbv iota. rewrite get_prop_record, bind_ok. unfold field at 1 2.
  rewrite lookup_singleton_eq. simpl. rewrite lookup_singleton_eq. simpl.
  by destruct (String.eqb_spec c "").
Qed.

Lemma request_contents c :
  (get_prop (request_of c) "postData" ≫= λ pd, get_prop pd "contents")
  = Ok (VStr c).
Proof.
  unfold request_of. rewrite get_prop_record, bind_ok. unfold field.
  rewrite lookup_singleton_eq. simpl. by rewrite lookup_singleton_eq.
Qed.

(** A request with a body is parsed and dispatched. *)
Lemma doPost_result_request script sv c w :
  c ≠ "" →
  doPost_result_of script sv (request_of c) w
  = (lift (JSON_parse sv c) ≫= dispatch script sv) w.
Proof.
  intros Hc.
  destruct script; simpl;
    [unfold Final.doPost_result | unfold Full.doPost_result
     | unfold Guide.doPost_result];
    rewrite lift_bind_run, (invalid_request_request c Hc);
    rewrite lift_bind_run, request_contents; reflexivity.
Qed.

Lemma doPost_of_run script sv e w :
  doPost_of script sv e w
  = (Ok (output_of (doPost_result_of script sv e w).1),
     (doPost_result_of script sv e w).2).
Proof. destruct script; apply handler_run. Qed.

(** An event that is refused by the guard. *)
Lemma doPost_result_invalid script sv e w :
  invalid_request e = Ok true →
  doPost_result_of script sv e w = (Throw "Invalid POST request received.", w).
Proof.
  intros Hinvalid.
  destruct script; simpl;
    [unfold Final.doPost_result | unfold Full.doPost_result
     | unfold Guide.doPost_result];
    by rewrite lift_bind_run, Hinvalid.
Qed.

Lemma invalid_request_cases e :
  (∃ eo po, e = VObj eo ∧ eo !! "postData" = Some (VObj po)
            ∧ truthy (field po "contents") = true)
  ∨ invalid_request e = Ok true.
Proof.
  unfold invalid_request.
  destruct (truthy e) eqn:He; [|by right]. simpl.
  destruct e as [| | | | | |eo|]; try by right.
  rewrite get_prop_record, bind_ok.
  destruct (truthy (field eo "postData")) eqn:Hpd; [|by right]. simpl.
  destruct (field eo "postData") as [| | | | | |po|] eqn:Hfield; try by right.
  rewrite get_prop_record, bind_ok.
  destruct (truthy (field po "contents")) eqn:Hcontents; [|by right].
  left. exists eo, po. split; [done|]. split; [|done].
  unfold field in Hfield. by destruct (eo !! "postData") as [pd|]; simplify_eq/=.
Qed.

Lemma is_literal_other a lit : a ≠ VStr lit → is_literal a lit = false.
Proof.
  intros Hne. unfold is_literal, differs_from.
  destruct a as [| | | |s| | |]; try done.
  destruct (String.eqb_spec s lit) as [->|]; [by destruct Hne|done].
Qed.

(** X14.  In each of the three scripts [doPost] refuses every event
    that is not an object whose postData is an object with non-empty
    contents (no event, no postData, an empty body): the guard itself
    never throws, the answer is the failure envelope with the message
    Invalid POST request received, and nothing is read or written. *)
Theorem invalid_request_is_refused (script : Script) (sv : Services)
    (e : value) (w : World) :
  (∃ eo po, e = VObj eo ∧ eo !! "postData" = Some (VObj po)
            ∧ truthy (field po "contents") = true)
  ∨ doPost_of script sv e w
    = (Ok (failure_output "Invalid POST request received."), w).
Proof.
  destruct (invalid_request_cases e) as [Hvalid|Hinvalid]; [by left|].
  right. by rewrite doPost_of_run, (doPost_result_invalid _ _ _ _ Hinvalid).
Qed.

(** X15.  In each of the three scripts, a request whose body does not
    parse is answered by the failure envelope with the message of the
    parser, and a body that parses to [null] by the failure envelope
    with the TypeError of reading [action]; the world is left as it
    was. *)
Theorem malformed_body_is_reported (script : Script) (sv : Services)
    (c : string) (w : World) :
  c ≠ "" →
  (∀ msg, JSON_parse sv c = Throw msg →
          doPost_of script sv (request_of c) w = (Ok (failure_output msg), w))
  ∧ (JSON_parse sv c = Ok VNull →
     doPost_of script sv (request_of c) w
     = (Ok (failure_output "Cannot read properties of null (reading 'action')"),
        w)).
Proof.
  intros Hc. split.
  - intros msg Hparse.
    by rewrite doPost_of_run, (doPost_result_request _ _ _ _ Hc),
      lift_bind_run, Hparse.
  - intros Hparse.
    rewrite doPost_of_run, (doPost_result_request _ _ _ _ Hc),
      lift_bind_run, Hparse.
    by destruct script.
Qed.

(** An instance of X15 with the sample parser. *)
Lemma malformed_body_is_reported_witness :
  Full.doPost parsing_services (request_of "{oops") empty_world
  = (Ok (failure_output "Unexpected token in JSON"), empty_world)
  ∧ Full.doPost parsing_services (request_of "null") empty_world
    = (Ok (failure_output "Cannot read properties of null (reading 'action')"),
       empty_world).
Proof.
  split.
  - apply (proj1 (malformed_body_is_reported FullScript parsing_services
                    "{oops" empty_world ltac:(discriminate))).
    reflexivity.
  - apply (proj2 (malformed_body_is_reported FullScript parsing_services
                    "null" empty_world ltac:(discriminate))).
    reflexivity.
Defined.

(** X16.  The two deployed scripts refuse an action they do not know:
    the answer is the failure envelope and nothing is read or written.
    Its message is Invalid action specified and the action as a text
    when the action converts to a text (a text, a number, a missing
    action, a plain object), and the TypeError of the conversion when it
    does not.  The script of the columns A-L knows extract and save
    only, so it refuses read. *)
Theorem unknown_action_is_refused (sv : Services) (c : string)
    (po : gmap string value) (w : World) :
  c ≠ "" →
  JSON_parse sv c = Ok (VObj po) →
  field po "action" ≠ VStr "extract" →
  field po "action" ≠ VStr "save" →
  ∃ msg,
    Final.doPost sv (request_of c) w = (Ok (failure_output msg), w)
    ∧ (field po "action" ≠ VStr "read" →
       Full.doPost sv (request_of c) w = (Ok (failure_output msg), w))
    ∧ (converts (field po "action") = true →
       msg = "Invalid action specified: " ++ text_of sv (field po "action"))
    ∧ (converts (field po "action") = false →
       msg = "Cannot convert object to primitive value").
Proof.
  intros Hc Hparse Hextract Hsave.
  exists (match to_string sv (field po "action") with
          | Ok name => "Invalid action specified: " ++ name
          | Throw msg => msg
          end).
  split; [|split; [|split]].
  - rewrite (doPost_of_run FinalScript), (doPost_result_request _ _ _ _ Hc),
      lift_bind_run, Hparse.
    unfold dispatch. rewrite lift_bind_run, get_prop_record.
    rewrite (is_literal_other _ _ Hextract), (is_literal_other _ _ Hsave).
    rewrite lift_bind_run. by destruct (to_string sv _).
  - intros Hread.
    rewrite (doPost_of_run FullScript), (doPost_result_request _ _ _ _ Hc),
      lift_bind_run, Hparse.
    unfold dispatch. rewrite lift_bind_run, get_prop_record.
    rewrite (is_literal_other _ _ Hextract), (is_literal_other _ _ Hsave),
      (is_literal_other _ _ Hread).
    rewrite lift_bind_run. by destruct (to_string sv _).
  - intros Hconverts. by rewrite (to_string_converts sv _ Hconverts).
  - intros Hconverts. by rewrite (to_string_fails sv _ Hconverts).
Qed.

(** An instance of X16: the script of the columns A-L refuses read, and
    the full script refuses an action that is an object with a property
    named toString, with the message of the conversion. *)
Lemma unknown_action_is_refused_witness :
  Final.doPost parsing_services (request_of "read") empty_world
  = (Ok (failure_output "Invalid action specified: read"), empty_world)
  ∧ Full.doPost
      (with_parser (λ _, Ok (VObj {[ "action" := no_text ]})) sample_services)
      (request_of "body") empty_world
    = (Ok (failure_output "Cannot convert object to primitive value"),
       empty_world).
Proof.
  split.
  - destruct (unknown_action_is_refused parsing_services "read"
                {[ "action" := VStr "read" ]} empty_world
                ltac:(discriminate) eq_refl ltac:(discriminate)
                ltac:(discriminate)) as (msg & Hfinal & _ & Hmsg & _).
    rewrite Hfinal, (Hmsg eq_refl). reflexivity.
  - destruct (unknown_action_is_refused
                (with_parser (λ _, Ok (VObj {[ "action" := no_text ]}))
                   sample_services)
                "body" {[ "action" := no_text ]} empty_world
                ltac:(discriminate) eq_refl ltac:(discriminate)
                ltac:(discriminate)) as (msg & _ & Hfull & _ & Hmsg).
    rewrite (Hfull ltac:(discriminate)), (Hmsg eq_refl). reflexivity.
Defined.

(** X17.  The script of the guide does not refuse: every action other
    than save, extract and a missing action included, is answered by the
    success envelope with the message Ignored action and the action as
    a text, when the action converts to a text; an action that does not
    convert is answered by the failure envelope with the TypeError of
    the conversion.  Nothing is read or written. *)
Theorem guide_ignores_other_actions (sv : Services) (c : string)
    (po : gmap string value) (w : World) :
  c ≠ "" →
  JSON_parse sv c = Ok (VObj po) →
  field po "action" ≠ VStr "save" →
  (converts (field po "action") = true →
   Guide.doPost sv (request_of c) w
   = (Ok (success_output
            (VObj {[ "message" :=
                       VStr ("Ignored action: "
                             ++ text_of sv (field po "action")) ]})), w))
  ∧ (converts (field po "action") = false →
     Guide.doPost sv (request_of c) w
     = (Ok (failure_output "Cannot convert object to primitive value"), w)).
Proof.
  intros Hc Hparse Hsave.
  assert (Guide.doPost sv (request_of c) w
          = (Ok (output_of
                   (name ← to_string sv (field po "action");
                    Ok (VObj {[ "message" :=
                                  VStr ("Ignored action: " ++ name) ]}))), w))
    as Hrun.
  { rewrite (doPost_of_run GuideScript), (doPost_result_request _ _ _ _ Hc),
      lift_bind_run, Hparse.
    unfold dispatch. rewrite lift_bind_run, get_prop_record.
    rewrite (is_literal_other _ _ Hsave), lift_bind_run.
    by destruct (to_string sv _). }
  split; intros Hconverts; rewrite Hrun.
  - by rewrite (to_string_converts sv _ Hconverts).
  - by rewrite (to_string_fails sv _ Hconverts).
Qed.

(** An instance of X17: the script of the guide answers an extract
    request with success and does nothing, and reports an action that
    is an object with a property named toString as an error. *)
Lemma guide_ignores_other_actions_witness :
  Guide.doPost parsing_services (request_of "extract") empty_world
  = (Ok (success_output
           (VObj {[ "message" := VStr "Ignored action: extract" ]})),
     empty_world)
  ∧ Guide.doPost
      (with_parser (λ _, Ok (VObj {[ "action" := no_text ]})) sample_services)
      (request_of "body") empty_world
    = (Ok (failure_output "Cannot convert object to primitive value"),
       empty_world).
Proof.
  split.
  - etransitivity.
    + apply (proj1 (guide_ignores_other_actions parsing_services "extract"
                      (<[ "action" := VStr "extract" ]>
                         {[ "photo1Base64" := VStr "aGk=" ]}) empty_world
                      ltac:(discriminate) eq_refl
                      ltac:(intros Haction; vm_compute in Haction;
                            discriminate Haction))).
      reflexivity.
    + reflexivity.
  - etransitivity.
    + apply (proj2 (guide_ignores_other_actions
                      (with_parser (λ _, Ok (VObj {[ "action" := no_text ]}))
                         sample_services)
                      "body" {[ "action" := no_text ]} empty_world
                      ltac:(discriminate) eq_refl ltac:(discriminate))).
      reflexivity.
    + reflexivity.
Defined.

Lemma extractData_run sv photo w :
  extractData sv photo w
  = (match fetch sv (PYTHON_BACKEND_URL ++ "/ocr")
             (VObj {[ "base64Image" := photo ]}) with
     | Ok (code, body) =>
         if (code =? 200)%Z then JSON_parse sv body
         else Throw ("AI Server Error: " ++ body)
     | Throw msg => Throw msg
     end, w).
Proof.
  unfold extractData. rewrite lift_bind_run.
  destruct (fetch sv _ _) as [[code body]|msg]; [|done]. simpl.
  by destruct (code =? 200)%Z.
Qed.

(** X18.  An extract request, in the two deployed scripts, sends the
    first photograph of the body to the backend and answers with what
    the backend says: the parsed content in the success envelope when
    the response code is 200, the failure envelope with AI Server Error
    and the content for any other code, and the failure envelope with
    the message of the transport when the call itself fails.  Nothing
    is written. *)
Theorem extract_request_is_forwarded (script : Script) (sv : Services)
    (c : string) (po : gmap string value) (w : World) :
  script ≠ GuideScript →
  c ≠ "" →
  JSON_parse sv c = Ok (VObj po) →
  field po "action" = VStr "extract" →
  (∀ body card,
     fetch sv (PYTHON_BACKEND_URL ++ "/ocr")
       (VObj {[ "base64Image" := field po "photo1Base64" ]})
     = Ok (200%Z, body) →
     JSON_parse sv body = Ok card →
     doPost_of script sv (request_of c) w = (Ok (success_output card), w))
  ∧ (∀ code body,
       fetch sv (PYTHON_BACKEND_URL ++ "/ocr")
         (VObj {[ "base64Image" := field po "photo1Base64" ]})
       = Ok (code, body) →
       code ≠ 200%Z →
       doPost_of script sv (request_of c) w
       = (Ok (failure_output ("AI Server Error: " ++ body)), w))
  ∧ (∀ msg,
       fetch sv (PYTHON_BACKEND_URL ++ "/ocr")
         (VObj {[ "base64Image" := field po "photo1Base64" ]})
       = Throw msg →
       doPost_of script sv (request_of c) w = (Ok (failure_output msg), w)).
Proof.
  intros Hscript Hc Hparse Haction.
  assert (doPost_result_of script sv (request_of c) w
          = extractData sv (field po "photo1Base64") w) as Hrun.
  { rewrite (doPost_result_request _ _ _ _ Hc), lift_bind_run, Hparse.
    unfold dispatch. rewrite lift_bind_run, get_prop_record, Haction.
    by destruct script. }
  rewrite doPost_of_run, Hrun, extractData_run.
  split; [|split].
  - intros body card -> Hcard. simpl. by rewrite Hcard.
  - intros code body -> Hcode. simpl.
    by destruct (Z.eqb_spec code 200).
  - by intros msg ->.
Qed.

(** An instance of X18: the backend is down, then answers. *)
Lemma extract_request_is_forwarded_witness :
  doPost_of FullScript
    (with_backend (Ok (503%Z, "Service Unavailable")) parsing_services)
    (request_of "extract") empty_world
  = (Ok (failure_output "AI Server Error: Service Unavailable"), empty_world)
  ∧ doPost_of FinalScript
      (with_backend (Ok (200%Z, "card")) parsing_services)
      (request_of "extract") empty_world
    = (Ok (success_output (VObj {[ "name" := VStr "Jo" ]})), empty_world).
Proof.
  split.
  - apply (proj1 (proj2 (extract_request_is_forwarded FullScript
                           (with_backend (Ok (503%Z, "Service Unavailable"))
                              parsing_services)
                           "extract"
                           (<[ "action" := VStr "extract" ]>
                              {[ "photo1Base64" := VStr "aGk=" ]})
                           empty_world
                           ltac:(discriminate) ltac:(discriminate)
                           eq_refl eq_refl)) 503%Z "Service Unavailable").
    + reflexivity.
    + discriminate.
  - apply (proj1 (extract_request_is_forwarded FinalScript
                    (with_backend (Ok (200%Z, "card")) parsing_services)
                    "extract"
                    (<[ "action" := VStr "extract" ]>
                       {[ "photo1Base64" := VStr "aGk=" ]})
                    empty_world
                    ltac:(discriminate) ltac:(discriminate)
                    eq_refl eq_refl) "card").
    + reflexivity.
    + reflexivity.
Defined.

(** X19.  A save request, in the two deployed scripts, runs [saveData]
    on the three fields extractedData, photo1Base64 and photo2Base64 of
    the body, a missing field being [undefined], and answers with its
    confirmation in the success envelope or with the message of its
    error in the failure envelope; the world is what the save left. *)
Theorem save_request_runs_the_save (schema : SchemaVersion) (sv : Services)
    (c : string) (po : gmap string value) (w : World) :
  c ≠ "" →
  JSON_parse sv c = Ok (VObj po) →
  field po "action" = VStr "save" →
  doPost_of (match schema with Legacy => FinalScript | Extended => FullScript end)
    sv (request_of c) w
  = (Ok (output_of
           (saveData_of schema sv (field po "extractedData")
              (field po "photo1Base64") (field po "photo2Base64") w).1),
     (saveData_of schema sv (field po "extractedData")
        (field po "photo1Base64") (field po "photo2Base64") w).2).
Proof.
  intros Hc Hparse Haction.
  rewrite doPost_of_run, (doPost_result_request _ _ _ _ Hc), lift_bind_run,
    Hparse.
  unfold dispatch. rewrite lift_bind_run, get_prop_record, Haction.
  by destruct schema.
Qed.

(** An instance of X19: the Acme record sent for saving. *)
Lemma save_request_runs_the_save_witness :
  ∃ row,
    doPost_of FinalScript parsing_services (request_of "save") empty_world
    = (Ok (success_output (confirmation Legacy)),
       mkWorld [row] [slot_blob parsing_services "photo1_" []]).
Proof.
  eexists. etransitivity.
  - apply (save_request_runs_the_save Legacy parsing_services "save"
             (<[ "action" := VStr "save" ]>
                (<[ "extractedData" := VObj acme_record ]>
                   {[ "photo1Base64" := VStr "aGk=" ]})) empty_world).
    + discriminate.
    + reflexivity.
    + reflexivity.
  - vm_compute. reflexivity.
Defined.

(** ** What no request does *)

Lemma tidy_still {A} (m : M A) :
  (∀ w, sheet_rows (m w).2 = sheet_rows w) → tidy m.
Proof. intros H w. left. apply H. Qed.

Lemma tidy_bind {A B} (m : M A) (f : A → M B) :
  (∀ w, sheet_rows (m w).2 = sheet_rows w) → (∀ a, tidy (f a)) →
  tidy (m ≫= f).
Proof.
  intros Hm Hf w. rewrite bind_run. specialize (Hm w).
  destruct (m w) as [[a|msg] w1]; simpl in *.
  - rewrite <- Hm. apply Hf.
  - by left.
Qed.

Lemma tidy_lift_bind {A B} (r : outcome A) (f : A → M B) :
  (∀ a, tidy (f a)) → tidy (lift r ≫= f).
Proof. intros Hf. by apply tidy_bind. Qed.

Lemma tidy_throw {A} msg : tidy (@throw A msg).
Proof. by apply tidy_still. Qed.

Lemma tidy_append_then {A} row (a : A) : tidy (appendRow row ≫= λ _, mret a).
Proof. intros w. right. split; [done|]. by exists row. Qed.

Lemma quiet_extractData sv photo : quiet (extractData sv photo).
Proof. intros w. by rewrite extractData_run. Qed.

Lemma quiet_getSheetData sv : quiet (Full.getSheetData sv).
Proof.
  intros w. unfold Full.getSheetData. rewrite lift_bind_run.
  destruct (openById sv Full.SHEET_ID) as [[]|msg]; [|done].
  destruct (getSheetByName sv Full.SHEET_ID SHEET_NAME); [|done].
  rewrite bind_run. simpl. unfold lift. done.
Qed.

Lemma tidy_saveData_of sv schema d p1 p2 : tidy (saveData_of schema sv d p1 p2).
Proof.
  intros w.
  destruct (saveData_of_effect sv schema d p1 p2)
    as (res & added & files & Hsave & Hshape).
  unfold tidy. rewrite (Hsave w). simpl. destruct res as [r|msg].
  - right. split; [done|]. destruct Hshape as [row ->]. by exists row.
  - left. rewrite Hshape. apply app_nil_r.
Qed.

Lemma tidy_guide_saveData sv d p1 p2 : tidy (Guide.saveData sv d p1 p2).
Proof.
  unfold Guide.saveData.
  apply tidy_lift_bind. intros _.
  apply tidy_bind.
  { intros w. by destruct (getSheetByName sv _ _). }
  intros _. apply tidy_lift_bind. intros _. cbv zeta.
  apply tidy_bind; [intros w; apply save_blob_rows|]. intros url1.
  apply tidy_bind.
  { intros w. destruct (truthy p2); [apply save_blob_rows|done]. }
  intros url2. apply tidy_lift_bind. intros link.
  apply tidy_lift_bind. intros row. apply tidy_append_then.
Qed.

Lemma tidy_dispatch script sv postData : tidy (dispatch script sv postData).
Proof.
  unfold dispatch. apply tidy_lift_bind. intros action.
  destruct script.
  - destruct (is_literal action "extract").
    { apply tidy_lift_bind. intros photo. apply tidy_still. intros w.
      by rewrite quiet_extractData. }
    destruct (is_literal action "save");
      [|apply tidy_lift_bind; intros name; apply tidy_throw].
    do 3 (apply tidy_lift_bind; intros ?).
    apply (tidy_saveData_of sv Legacy).
  - destruct (is_literal action "extract").
    { apply tidy_lift_bind. intros photo. apply tidy_still. intros w.
      by rewrite quiet_extractData. }
    destruct (is_literal action "save").
    { do 3 (apply tidy_lift_bind; intros ?).
      apply (tidy_saveData_of sv Extended). }
    destruct (is_literal action "read");
      [|apply tidy_lift_bind; intros name; apply tidy_throw].
    apply tidy_still. intros w. by rewrite quiet_getSheetData.
  - destruct (is_literal action "save");
      [|apply tidy_lift_bind; intros name; by apply tidy_still].
    do 3 (apply tidy_lift_bind; intros ?).
    apply tidy_guide_saveData.
Qed.

Lemma tidy_doPost_result script sv e : tidy (doPost_result_of script sv e).
Proof.
  destruct script; simpl;
    [unfold Final.doPost_result | unfold Full.doPost_result
     | unfold Guide.doPost_result];
    (apply tidy_lift_bind; intros [|]; [apply tidy_throw|]);
    (apply tidy_lift_bind; intros contents);
    (apply tidy_lift_bind; intros text);
    (apply tidy_lift_bind; intros postData).
  - apply (tidy_dispatch FinalScript).
  - apply (tidy_dispatch FullScript).
  - apply (tidy_dispatch GuideScript).
Qed.

(** X20.  In each of the three scripts and for every event, [doPost]
    never changes or removes a row of the sheet: it leaves the rows as
    they are, or it appends exactly one row, and then its answer is the
    success envelope.  A failure envelope therefore means that no row
    was written. *)
Theorem no_request_harms_the_sheet (script : Script) (sv : Services)
    (e : value) (w : World) :
  ∃ out w',
    doPost_of script sv e w = (Ok out, w')
    ∧ (sheet_rows w' = sheet_rows w
       ∨ (get_prop (payload out) "success" = Ok (VBool true)
          ∧ ∃ row, sheet_rows w' = (sheet_rows w ++ [row])%list)).
Proof.
  eexists _, _. split; [apply doPost_of_run|].
  destruct (tidy_doPost_result script sv e w) as [Hsame | [Hok Hrow]];
    [by left|right].
  split; [|done].
  destruct (doPost_result_of script sv e w).1 as [result|msg]; [|done].
  simpl. by rewrite lookup_insert_eq.
Qed.

(** X21.  Reading never writes: [getSheetData], and with it [doGet],
    leaves the world as it was whatever the services answer.  When the
    spreadsheet does not open, [getSheetData] throws the message of the
    service as it is, and when the sheet is not in it, the message
    Sheet not found; [doGet] answers either in the failure envelope. *)
Theorem reading_never_writes (sv : Services) (e : value) (w : World) :
  (Full.getSheetData sv w).2 = w
  ∧ (Full.doGet sv e w).2 = w
  ∧ (∀ msg, openById sv Full.SHEET_ID = Throw msg →
            Full.getSheetData sv w = (Throw msg, w)
            ∧ Full.doGet sv e w = (Ok (failure_output msg), w))
  ∧ (openById sv Full.SHEET_ID = Ok tt →
     getSheetByName sv Full.SHEET_ID SHEET_NAME = false →
     Full.getSheetData sv w = (Throw "Sheet not found: Ai Card", w)
     ∧ Full.doGet sv e w
       = (Ok (failure_output "Sheet not found: Ai Card"), w)).
Proof.
  split; [apply quiet_getSheetData|].
  split; [unfold Full.doGet; rewrite handler_run; apply quiet_getSheetData|].
  split.
  - intros msg Hopen.
    assert (Full.getSheetData sv w = (Throw msg, w)) as Hrun.
    { unfold Full.getSheetData. by rewrite lift_bind_run, Hopen. }
    split; [done|]. unfold Full.doGet. by rewrite handler_run, Hrun.
  - intros Hopen Hname.
    assert (Full.getSheetData sv w = (Throw "Sheet not found: Ai Card", w))
      as Hrun.
    { unfold Full.getSheetData. by rewrite lift_bind_run, Hopen, Hname. }
    split; [done|]. unfold Full.doGet. by rewrite handler_run, Hrun.
Qed.

(** An instance of X21 on a spreadsheet without the sheet. *)
Lemma reading_never_writes_witness :
  Full.doGet (with_store (Ok tt) false (Ok tt) sample_services) VUndefined
    sample_sheet
  = (Ok (failure_output "Sheet not found: Ai Card"), sample_sheet).
Proof.
  apply (proj2 (proj2 (proj2 (reading_never_writes
                                (with_store (Ok tt) false (Ok tt)
                                   sample_services)
                                VUndefined sample_sheet)))).
  - reflexivity.
  - reflexivity.
Defined.

(** X22.  Reading by GET and reading by POST are the same: a request
    with the action read is answered by the full script exactly as
    [doGet] answers, whatever the argument of [doGet] is. *)
Theorem read_by_post_is_doGet (sv : Services) (c : string)
    (po : gmap string value) (e : value) (w : World) :
  c ≠ "" →
  JSON_parse sv c = Ok (VObj po) →
  field po "action" = VStr "read" →
  Full.doPost sv (request_of c) w = Full.doGet sv e w.
Proof.
  intros Hc Hparse Haction.
  rewrite (doPost_of_run FullScript), (doPost_result_request _ _ _ _ Hc),
    lift_bind_run, Hparse.
  unfold dispatch. rewrite lift_bind_run, get_prop_record, Haction.
  unfold Full.doGet. by rewrite handler_run.
Qed.

(** An instance of X22 on the sample sheet. *)
Lemma read_by_post_is_doGet_witness :
  Full.doPost parsing_services (request_of "read") sample_sheet
  = Full.doGet parsing_services VUndefined sample_sheet.
Proof.
  apply (read_by_post_is_doGet parsing_services "read"
           {[ "action" := VStr "read" ]}).
  - discriminate.
  - reflexivity.
  - reflexivity.
Defined.

(** ** Saving, then reading *)

Lemma getSheetData_run sv w :
  openById sv Full.SHEET_ID = Ok tt →
  getSheetByName sv Full.SHEET_ID SHEET_NAME = true →
  Full.getSheetData sv w
  = (Full.sheet_objects sv
       (map (map cell_value) (getDataRange sv (sheet_rows w)))
       (map (map cell_formula) (getDataRange sv (sheet_rows w))), w).
Proof.
  intros Hopen Hname. unfold Full.getSheetData.
  by rewrite lift_bind_run, Hopen, Hname, bind_run.
Qed.

Lemma getSheetData_ok_reachable sv w r w' :
  Full.getSheetData sv w = (Ok r, w') →
  openById sv Full.SHEET_ID = Ok tt
  ∧ getSheetByName sv Full.SHEET_ID SHEET_NAME = true.
Proof.
  unfold Full.getSheetData. rewrite lift_bind_run.
  destruct (openById sv Full.SHEET_ID) as [[]|msg]; [|done].
  by destruct (getSheetByName sv Full.SHEET_ID SHEET_NAME).
Qed.

Lemma saveData_of_ok_reachable sv schema d p1 p2 w r w' :
  saveData_of schema sv d p1 p2 w = (Ok r, w') →
  store_reachable sv (sheet_id schema).
Proof.
  intros Hsave.
  destruct (openById sv (sheet_id schema)) as [[]|msg] eqn:Hopen.
  2: { rewrite (saveData_of_no_sheet sv schema d p1 p2 w
                  ("FAILED to access Spreadsheet. Check SHEET_ID or Sheet Name. Details: "
                   ++ msg)) in Hsave; [done|].
       by rewrite access_sheet_result, Hopen. }
  destruct (getSheetByName sv (sheet_id schema) SHEET_NAME) eqn:Hname.
  2: { rewrite (saveData_of_no_sheet sv schema d p1 p2 w
                  ("FAILED to access Spreadsheet. Check SHEET_ID or Sheet Name. Details: "
                   ++ "Sheet with name '" ++ SHEET_NAME ++ "' not found."))
         in Hsave; [done|].
       by rewrite access_sheet_result, Hopen, Hname. }
  destruct (getFolderById sv FOLDER_ID) as [[]|msg] eqn:Hfolder; [done|].
  by rewrite (saveData_of_no_folder sv schema d p1 p2 w msg) in Hsave.
Qed.

(** One more row of the range gives one more object after the others. *)
Lemma read_rows_snoc sv hs fs i (rs : list (list cell)) r data :
  length fs = i + length rs →
  Full.read_rows sv hs fs i (map (map cell_value) rs) = Ok data →
  ∃ obj,
    Full.read_rows sv hs (fs ++ [map cell_formula r])%list i
      (map (map cell_value) (rs ++ [r])%list)
    = Ok (data ++ [VObj obj])%list.
Proof.
  revert i data. induction rs as [|r0 rs IH]; intros i data Hlen; simpl.
  - intros [= <-]. rewrite Nat.add_0_r in Hlen.
    rewrite lookup_app_r, Hlen, Nat.sub_diag by lia. simpl.
    destruct (fill_object_spec sv hs 0 (map cell_formula r)
                (map cell_value r) ∅) as (obj & -> & _).
    by exists obj.
  - simpl in Hlen. rewrite lookup_app_l by lia.
    destruct (Full.fill_object sv hs 0 (fs !! i) (map cell_value r0) ∅)
      as [obj0|msg]; [|done]. simpl.
    destruct (Full.read_rows sv hs fs (S i) (map (map cell_value) rs))
      as [data'|msg] eqn:Hrest; [|done]. simpl.
    intros [= <-].
    destruct (IH (S i) data') as [obj Hobj]; [lia|done|].
    rewrite Hobj. simpl. by exists obj.
Qed.

(** X23.  The sheet must have its header row before the first save:
    when the sheet is empty, the row of the first save takes the place
    of the header, and a read after it returns the empty array, not the
    record.  (The spreadsheet is taken to show a single written row as
    a range of one row.) *)
Theorem first_row_is_taken_for_the_header (sv : Services)
    (d p1 p2 : value) (w w' : World) (r : value) :
  sheet_rows w = [] →
  (∀ row, length (getDataRange sv [row]) < 2)%nat →
  Full.saveData sv d p1 p2 w = (Ok r, w') →
  Full.getSheetData sv w' = (Ok (VArr []), w').
Proof.
  intros Hempty Hrange Hsave.
  destruct (saveData_of_ok_reachable sv Extended d p1 p2 w r w' Hsave)
    as (Hopen & Hname & _).
  apply (saveData_of_inv sv Extended) in Hsave
    as (url1 & url2 & row & _ & Hrows).
  rewrite (getSheetData_run sv w' Hopen Hname), Hrows, Hempty. simpl.
  unfold Full.sheet_objects. rewrite length_map.
  by destruct (Nat.ltb_spec (length (getDataRange sv [row])) 2);
    [|specialize (Hrange row); lia].
Qed.

(** An instance of X23 with the sample services. *)
Lemma first_row_is_taken_for_the_header_witness :
  Full.getSheetData sample_services
    (Full.saveData sample_services (VObj jo_record) (VStr "aGk=") VUndefined
       empty_world).2
  = (Ok (VArr []),
     (Full.saveData sample_services (VObj jo_record) (VStr "aGk=")
        VUndefined empty_world).2).
Proof.
  apply (first_row_is_taken_for_the_header sample_services (VObj jo_record)
           (VStr "aGk=") VUndefined empty_world _
           (VObj {[ "message" := VStr "✅ Data saved successfully!" ]})).
  - reflexivity.
  - intros row. simpl. lia.
  - vm_compute. reflexivity.
Defined.

Lemma sheet_objects_snoc sv (grid : list (list cell)) r objs :
  grid ≠ [] →
  Full.sheet_objects sv (map (map cell_value) grid)
    (map (map cell_formula) grid) = Ok (VArr objs) →
  ∃ obj,
    Full.sheet_objects sv (map (map cell_value) (grid ++ [r])%list)
      (map (map cell_formula) (grid ++ [r])%list)
    = Ok (VArr (objs ++ [VObj obj])%list).
Proof.
  destruct grid as [|h rs]; [done|]. intros _.
  unfold Full.sheet_objects. rewrite !length_map.
  change ((h :: rs) ++ [r])%list with (h :: (rs ++ [r]))%list.
  rewrite !map_cons.
  destruct (Nat.ltb_spec (length (h :: (rs ++ [r]))%list) 2) as [Hlt|_].
  { simpl in Hlt. rewrite length_app in Hlt. simpl in Hlt. lia. }
  destruct rs as [|r1 rs].
  - simpl. intros [= <-].
    destruct (fill_object_spec sv (map cell_value h) 0
                (map cell_formula r) (map cell_value r) ∅) as (obj & -> & _).
    by exists obj.
  - destruct (Nat.ltb_spec (length (h :: r1 :: rs)) 2) as [Hlt|_];
      [simpl in Hlt; lia|].
    destruct (Full.read_rows sv (map cell_value h)
                (map cell_formula h :: map (map cell_formula) (r1 :: rs)) 1
                (map (map cell_value) (r1 :: rs)))
      as [data|msg] eqn:Hdata; [|done].
    simpl. intros [= <-].
    destruct (read_rows_snoc sv (map cell_value h)
                (map cell_formula h :: map (map cell_formula) (r1 :: rs))
                1 (r1 :: rs) r data) as [obj Hobj];
      [simpl; by rewrite length_map|done|].
    exists obj. rewrite (map_app (map cell_formula)).
    simpl in Hobj. simpl. by rewrite Hobj.
Qed.

(** X24.  Saving then reading: when the spreadsheet shows every written
    row as one row of the range, and the sheet is not empty, a read
    after a save that returned gives the objects of the read before the
    save, unchanged and in the same order, followed by one new
    object. *)
Theorem read_after_save_adds_one (sv : Services) (shown : list value → list cell)
    (d p1 p2 : value) (w w' : World) (r : value) (objs : list value) :
  (∀ rows, getDataRange sv rows = map shown rows) →
  sheet_rows w ≠ [] →
  Full.getSheetData sv w = (Ok (VArr objs), w) →
  Full.saveData sv d p1 p2 w = (Ok r, w') →
  ∃ obj,
    Full.getSheetData sv w' = (Ok (VArr (objs ++ [VObj obj])%list), w').
Proof.
  intros Hshown Hrows Hread Hsave.
  destruct (getSheetData_ok_reachable sv w _ _ Hread) as [Hopen Hname].
  apply (saveData_of_inv sv Extended) in Hsave
    as (url1 & url2 & row & _ & Hrows').
  rewrite (getSheetData_run sv w Hopen Hname), Hshown in Hread.
  rewrite (getSheetData_run sv w' Hopen Hname), Hshown, Hrows'.
  injection Hread as Hread. rewrite map_app. simpl.
  destruct (sheet_objects_snoc sv (map shown (sheet_rows w)) (shown row) objs)
    as [obj Hobj]; [|done|].
  { by destruct (sheet_rows w). }
  exists obj. by rewrite Hobj.
Qed.

(** An instance of X24: the sample sheet holds a header and two rows,
    and a read after one save gives three objects. *)
Lemma read_after_save_adds_one_witness :
  ∃ objs obj,
    length objs = 2%nat
    ∧ Full.getSheetData sample_services sample_sheet
      = (Ok (VArr objs), sample_sheet)
    ∧ (Full.getSheetData sample_services
         (Full.saveData sample_services (VObj jo_record) (VStr "aGk=")
            VUndefined sample_sheet).2).1
      = Ok (VArr (objs ++ [VObj obj])%list).
Proof.
  assert (∃ objs,
            Full.getSheetData sample_services sample_sheet
            = (Ok (VArr objs), sample_sheet) ∧ length objs = 2%nat)
    as (objs & Hread & Hlen).
  { eexists. split; [vm_compute; reflexivity|reflexivity]. }
  destruct (read_after_save_adds_one sample_services
              (map (λ v, match v with
                         | VStr (String "="%char rest) =>
                             mkCell (VStr "link") (String "="%char rest)
                         | _ => mkCell v ""
                         end))
              (VObj jo_record) (VStr "aGk=") VUndefined sample_sheet
              (Full.saveData sample_services (VObj jo_record) (VStr "aGk=")
                 VUndefined sample_sheet).2
              (VObj {[ "message" := VStr "✅ Data saved successfully!" ]})
              objs
              ltac:(intros rows; reflexivity) ltac:(discriminate) Hread)
    as [obj Hobj].
  - vm_compute. reflexivity.
  - exists objs, obj. split; [exact Hlen|]. split; [exact Hread|].
    rewrite Hobj. reflexivity.
Defined.

(** ** The script of the guide *)

Lemma guide_saveData_reached sv d p1 p2 w :
  openById sv Guide.SHEET_ID = Ok tt →
  getSheetByName sv Guide.SHEET_ID "Ai Card" = true →
  getFolderById sv FOLDER_ID = Ok tt →
  Guide.saveData sv d p1 p2 w
  = (url1 ← save_blob sv "photo1_" p1 (now sv);
     url2 ← (if truthy p2 then save_blob sv "photo2_" p2 (now sv)
             else mret "");
     validationLink ← lift (Guide.validation_link sv d);
     row ← lift (Final.row_cells (now sv) url1 url2 validationLink d);
     appendRow row;;
     mret (VObj {[ "message" := VStr "Data saved successfully!" ]})) w.
Proof.
  intros Hopen Hname Hfolder. unfold Guide.saveData.
  rewrite lift_bind_run, Hopen, bind_run, Hname.
  change (@mret M _ unit tt w) with (@pair (outcome unit) World (Ok tt) w).
  cbv iota beta. by rewrite lift_bind_run, Hfolder.
Qed.

(** X25.  The script of the guide has no [try] around the photographs:
    with the store reached, a failure to decode or store the first
    photograph ends the save with the bare message of the service and
    nothing written, and so does a failure on a second photograph that
    is given, which then leaves the file of the first photograph in the
    folder and appends no row. *)
Theorem guide_photo_failures_are_fatal (sv : Services) (d p1 p2 : value)
    (w : World) :
  openById sv Guide.SHEET_ID = Ok tt →
  getSheetByName sv Guide.SHEET_ID "Ai Card" = true →
  getFolderById sv FOLDER_ID = Ok tt →
  (∀ msg, blob_fails sv "photo1_" p1 msg →
          Guide.saveData sv d p1 p2 w = (Throw msg, w))
  ∧ (∀ bytes url1 msg,
       base64Decode sv p1 = Ok bytes →
       createFile sv (slot_blob sv "photo1_" bytes) = Ok url1 →
       truthy p2 = true →
       blob_fails sv "photo2_" p2 msg →
       Guide.saveData sv d p1 p2 w
       = (Throw msg,
          mkWorld (sheet_rows w)
                  (drive_files w ++ [slot_blob sv "photo1_" bytes]))).
Proof.
  intros Hopen Hname Hfolder. split.
  - intros msg Hfail.
    rewrite (guide_saveData_reached sv d p1 p2 w Hopen Hname Hfolder).
    by rewrite bind_run, (save_blob_fails sv _ _ msg w Hfail).
  - intros bytes url1 msg Hdec Hfile Hp2 Hfail.
    rewrite (guide_saveData_reached sv d p1 p2 w Hopen Hname Hfolder).
    pose proof (effect_save_blob sv "photo1_" p1) as H1.
    rewrite Hdec, Hfile in H1.
    rewrite bind_run, H1, bind_run, Hp2.
    rewrite (save_blob_fails sv _ _ msg _ Hfail). simpl.
    by rewrite app_nil_r.
Qed.

(** An instance of X25: a second photograph that is not base64. *)
Lemma guide_photo_failures_are_fatal_witness :
  Guide.saveData sample_services (VObj acme_record) (VStr "aGk=") (VStr "!!")
    empty_world
  = (Throw "Could not decode string.",
     mkWorld [] [slot_blob sample_services "photo1_" []]).
Proof.
  apply (proj2 (guide_photo_failures_are_fatal sample_services
                  (VObj acme_record) (VStr "aGk=") (VStr "!!") empty_world
                  eq_refl eq_refl eq_refl)
           [] "https://drive.example/photo1_1700000000000.png").
  - reflexivity.
  - reflexivity.
  - reflexivity.
  - left. reflexivity.
Defined.

Lemma string_length_app (a b : string) :
  String.length (a ++ b) = String.length a + String.length b.
Proof.
  induction a as [|x a IH]; [done|]. rewrite append_cons. simpl.
  by rewrite IH.
Qed.

Lemma double_quotes_length s :
  String.length (double_quotes s) = String.length s + count_quotes s.
Proof.
  induction s as [|c s IH]; [done|]. simpl.
  destruct (Ascii.eqb c dquote); simpl; rewrite IH; lia.
Qed.

Lemma double_quotes_plain s : count_quotes s = 0 → double_quotes s = s.
Proof.
  induction s as [|c s IH]; [done|]. simpl.
  destruct (Ascii.eqb c dquote); simpl; [lia|].
  intros Hs. by rewrite IH.
Qed.

Lemma hyperlink_length a b :
  String.length (hyperlink a b) = 23 + String.length a + String.length b.
Proof.
  unfold hyperlink. rewrite !string_length_app. simpl. lia.
Qed.

(** X26.  The link of the guide and the link of the deployed scripts.
    For a record with a source and a company, both texts and not empty,
    the guide writes the formula whether or not the record is
    validated, and it embeds the two texts as they are, with no quote
    doubled.  On a validated record the two scripts write the same
    formula exactly when neither text holds a double quote; on a record
    that is not validated the deployed scripts write the bare source. *)
Theorem guide_link_next_to_deployed_link (sv : Services)
    (o : gmap string value) (source company : string) :
  o !! "validation_source" = Some (VStr source) →
  o !! "company" = Some (VStr company) →
  source ≠ "" →
  company ≠ "" →
  Guide.validation_link sv (VObj o) = Ok (VStr (hyperlink source company))
  ∧ (truthy (field o "is_validated") = true →
     (hyperlink_logic (VObj o) = Guide.validation_link sv (VObj o)
      ↔ count_quotes source = 0 ∧ count_quotes company = 0))
  ∧ (truthy (field o "is_validated") = false →
     hyperlink_logic (VObj o) = Ok (VStr source)).
Proof.
  intros Hsource Hcompany Hs Hc.
  assert (Guide.validation_link sv (VObj o)
          = Ok (VStr (hyperlink source company))) as Hguide.
  { unfold Guide.validation_link. rewrite !get_prop_record, !bind_ok.
    unfold field. rewrite Hsource, Hcompany. simpl. unfold js_and. simpl.
    destruct (String.eqb_spec source ""); [done|]. simpl.
    by destruct (String.eqb_spec company ""). }
  pose proof (hyperlink_logic_record o source company
                (or_introl Hsource) (or_introl Hcompany)) as Hdeployed.
  unfold validation_cell, link_label in Hdeployed.
  destruct (String.eqb_spec source ""); [done|].
  destruct (String.eqb_spec company ""); [done|]. simpl in Hdeployed.
  split; [done|]. split.
  - intros Hflag. rewrite Hflag in Hdeployed. simpl in Hdeployed.
    rewrite Hdeployed, Hguide. split.
    + intros Heq.
      apply (f_equal (λ r, match r with
                           | Ok (VStr s) => String.length s
                           | _ => 0
                           end)) in Heq.
      cbv beta iota in Heq.
      rewrite !hyperlink_length, !double_quotes_length in Heq. lia.
    + intros [Hq1 Hq2]. by rewrite !double_quotes_plain.
  - intros Hflag. by rewrite Hflag in Hdeployed.
Qed.

(** An instance of X26: on the Acme record, whose company holds two
    quotes, the guide writes them as they are. *)
Lemma guide_link_next_to_deployed_link_witness :
  Guide.validation_link sample_services (VObj acme_record)
  = Ok (VStr (hyperlink "http://x.test" acme_name))
  ∧ hyperlink_logic (VObj acme_record)
    ≠ Guide.validation_link sample_services (VObj acme_record).
Proof.
  destruct (guide_link_next_to_deployed_link sample_services acme_record
              "http://x.test" acme_name eq_refl eq_refl
              ltac:(discriminate) ltac:(discriminate))
    as (Hguide & Hsame & _).
  split; [exact Hguide|].
  intros Heq. apply (Hsame eq_refl) in Heq as [_ Hcount].
  vm_compute in Hcount. discriminate Hcount.
Defined.

(** ** The key people that cannot be formatted *)

(** A value that does not convert to a text is an array or an object:
    it is truthy, and it is no text. *)
Lemma converts_false v lit :
  converts v = false → truthy v = true ∧ differs_from v lit = true.
Proof. by destruct v. Qed.

Lemma person_details_untyped sv v :
  person_typed v = false → ∃ msg, Full.person_details sv v = Throw msg.
Proof.
  intros Htyped.
  assert (v = VNull ∨ v = VUndefined ∨ (v ≠ VNull ∧ v ≠ VUndefined))
    as [->|[->|[Hnull Hundef]]];
    [destruct v; (by left) || (by right; left) || (by right; right)
    |by eexists|by eexists|].
  assert (converts (member v "name") && converts (member v "role")
          && converts (member v "contact") = false) as Hfields
    by by destruct v.
  unfold Full.person_details.
  rewrite (get_prop_member v "name"), bind_ok by done.
  destruct (converts (member v "name")) eqn:Hname;
    [|rewrite (to_string_fails sv _ Hname); by eexists].
  rewrite (to_string_converts sv _ Hname), bind_ok.
  rewrite (get_prop_member v "role"), bind_ok by done.
  destruct (converts (member v "role")) eqn:Hrole;
    [|rewrite (to_string_fails sv _ Hrole); by eexists].
  rewrite (to_string_converts sv _ Hrole), bind_ok.
  rewrite (get_prop_member v "contact"), bind_ok by done.
  simpl in Hfields.
  destruct (converts_false _ "Not Found" Hfields) as [-> ->].
  rewrite (to_string_fails sv _ Hfields). by eexists.
Qed.

Lemma map_outcome_untyped sv vs :
  forallb person_typed vs = false →
  ∃ msg, map_outcome (Full.person_details sv) vs = Throw msg.
Proof.
  induction vs as [|v vs IH]; [done|]. simpl.
  destruct (person_typed v) eqn:Hv; simpl.
  - intros [msg Hrest]%IH.
    destruct (person_details_typed sv v Hv) as [s ->]. simpl.
    rewrite Hrest. by eexists.
  - intros _. destruct (person_details_untyped sv v Hv) as [msg ->].
    by eexists.
Qed.

Lemma push_part_fails sv o label k parts :
  converts (field o k) = false →
  Full.push_part sv (VObj o) label k parts
  = Throw "Cannot convert object to primitive value".
Proof.
  intros Hk. unfold Full.push_part. rewrite get_prop_record, bind_ok.
  destruct (converts_false _ "" Hk) as [-> _].
  by rewrite (to_string_fails sv _ Hk).
Qed.

(** Without a list, a discrete field that does not convert stops the
    formatting. *)
Lemma keyPeopleString_fallback_fails sv o :
  (∀ vs, o !! "key_people" ≠ Some (VArr vs)) →
  converts (field o "founder") && converts (field o "ceo")
  && converts (field o "owner") = false →
  Full.keyPeopleString sv (VObj o)
  = Throw "Cannot convert object to primitive value".
Proof.
  intros Hnone Hfields. unfold Full.keyPeopleString.
  rewrite get_prop_record, bind_ok.
  assert ((if truthy (field o "key_people")
           then as_array (field o "key_people") else None) = None) as ->.
  { unfold field. destruct (o !! "key_people") as [v|] eqn:Hk; [|done].
    simpl. destruct (truthy v); [|done].
    destruct v as [| | | | |xs| |]; try done. by destruct (Hnone xs). }
  destruct (converts (field o "founder")) eqn:Hfounder;
    [|by rewrite (push_part_fails sv o _ _ _ Hfounder)].
  destruct (push_part_typed sv o "Founder: " "founder" [] Hfounder)
    as [parts1 ->].
  rewrite bind_ok.
  destruct (converts (field o "ceo")) eqn:Hceo;
    [|by rewrite (push_part_fails sv o _ _ _ Hceo)].
  destruct (push_part_typed sv o "CEO: " "ceo" parts1 Hceo) as [parts2 ->].
  rewrite bind_ok. simpl in Hfields.
  by rewrite (push_part_fails sv o _ _ _ Hfields).
Qed.

(** X27.  The key people of a record can be formatted exactly when
    they are typed: a list whose entries are neither null nor undefined
    and whose names, roles and contacts convert to text, or, without a
    list, a founder, a ceo and an owner that convert to text.  A record
    whose key people are not typed is never saved by the script of the
    columns A-V; without a list, the error is the TypeError of the
    conversion. *)
Theorem key_people_are_formatted_when_typed (sv : Services)
    (o : gmap string value) :
  (people_typed o = true ↔ ∃ s, Full.keyPeopleString sv (VObj o) = Ok s)
  ∧ (people_typed o = false →
     ∀ p1 p2 w r w', Full.saveData sv (VObj o) p1 p2 w ≠ (Ok r, w'))
  ∧ (people_typed o = false →
     (∀ vs, o !! "key_people" ≠ Some (VArr vs)) →
     Full.keyPeopleString sv (VObj o)
     = Throw "Cannot convert object to primitive value").
Proof.
  assert (people_typed o = false →
          ∃ msg, Full.keyPeopleString sv (VObj o) = Throw msg) as Hfails.
  { intros Htyped.
    assert ((∃ vs, o !! "key_people" = Some (VArr vs))
            ∨ ∀ vs, o !! "key_people" ≠ Some (VArr vs)) as [[vs Hlist]|Hnone].
    { destruct (o !! "key_people") as [[| | | | |vs| |]|];
        (by right) || (left; by eexists). }
    - unfold people_typed in Htyped. rewrite Hlist in Htyped.
      destruct (map_outcome_untyped sv vs Htyped) as [msg Hmap].
      exists msg. unfold Full.keyPeopleString.
      rewrite get_prop_record, bind_ok. unfold field. rewrite Hlist. simpl.
      by rewrite Hmap.
    - eexists. apply keyPeopleString_fallback_fails; [done|].
      unfold people_typed in Htyped.
      destruct (o !! "key_people") as [[| | | | |vs| |]|] eqn:Hk; try done.
      by destruct (Hnone vs). }
  split; [|split].
  - split; [apply keyPeopleString_typed|].
    intros [s Hs]. destruct (people_typed o) eqn:Htyped; [done|].
    destruct (Hfails eq_refl) as [msg Hmsg]. by rewrite Hmsg in Hs.
  - intros Htyped p1 p2 w r w' Hsave.
    apply Full_saveData_inv in Hsave
      as (url1 & url2 & link & people & row & _ & Hpeople & _).
    destruct (Hfails Htyped) as [msg Hmsg]. by rewrite Hmsg in Hpeople.
  - intros Htyped Hnone. apply keyPeopleString_fallback_fails; [done|].
    unfold people_typed in Htyped.
    destruct (o !! "key_people") as [[| | | | |vs| |]|] eqn:Hk; try done.
    by destruct (Hnone vs).
Qed.

(** An instance of X27: a founder that is an object with a property
    named toString stops the formatting, and the save of the record
    throws after the first photograph is stored, with no row
    appended. *)
Lemma key_people_are_formatted_when_typed_witness :
  Full.keyPeopleString sample_services (VObj {[ "founder" := no_text ]})
  = Throw "Cannot convert object to primitive value"
  ∧ Full.saveData sample_services (VObj {[ "founder" := no_text ]})
      (VStr "aGk=") VUndefined empty_world
    = (Throw "Cannot convert object to primitive value",
       mkWorld [] [slot_blob sample_services "photo1_" []]).
Proof.
  split; [|vm_compute; reflexivity].
  apply (proj2 (proj2 (key_people_are_formatted_when_typed sample_services
                         {[ "founder" := no_text ]}))).
  - reflexivity.
  - intros vs. discriminate.
Defined.
